(** * Eco-Forensics evidence-fusion pipeline: correlation engine and orchestrator

    A shallow embedding of [backend/app/correlation_engine.py], of the
    sentiment combination of [social_voice.py], of the request handling of
    [main_api.get_dossier] with the company enrichment of
    [suspect_profiler.py], and of helpers of [utils.py] and [config.py].

    Conventions of the embedding.
    - Python [float] values are exact rationals ([Q]); scores are compared
      with [==] ([Qeq]).  [round(x, n)] is round-half-to-even at [n] decimals.
    - A naive [datetime] is a number of microseconds ([Z]), counted from
      [datetime.min] (0001-01-01T00:00:00); the [days] attribute of a
      [timedelta] is the floor of the difference over one day.  Every
      timestamp of the model is offset-naive, so that any two of them can
      be subtracted: the [TypeError] Python raises for the difference of
      an offset-aware and an offset-naive [datetime] has no counterpart.
    - [math]-based helpers ([utils.haversine_distance], [cos_deg]) are
      section variables: every result holds for any such function.
    - A formatted string (f-string) is kept as its template together with
      the values substituted into it. *)

From stdpp Require Import base gmap strings.
From Stdlib Require Import Ascii String ZArith QArith Qround Qabs Lqa Lia List Bool.
From Stdlib Require Import Sorting.Permutation Sorting.Sorted.
Import ListNotations.

Local Open Scope Q_scope.

(** ** Python numerics *)

Module Py.

(** [round(q)] to the nearest integer, ties to the even neighbour. *)
Definition round_half_even (q : Q) : Z :=
  let f := Qfloor q in
  let r := q - inject_Z f in
  if Qlt_le_dec r (1 # 2) then f
  else if Qlt_le_dec (1 # 2) r then (f + 1)%Z
  else if Z.even f then f else (f + 1)%Z.

(** [round(q, n)] for a number [n] of decimals. *)
Definition round (q : Q) (ndigits : nat) : Q :=
  let scale := inject_Z (10 ^ Z.of_nat ndigits) in
  inject_Z (round_half_even (q * scale)) / scale.

Definition min (a b : Q) : Q := if Qlt_le_dec b a then b else a.
Definition max (a b : Q) : Q := if Qlt_le_dec a b then b else a.

Definition ltb (a b : Q) : bool := if Qlt_le_dec a b then true else false.
Definition leb (a b : Q) : bool := if Qlt_le_dec b a then false else true.
Definition gtb (a b : Q) : bool := ltb b a.

(** [sum(xs)] over floats. *)
Definition sum (xs : list Q) : Q := fold_left Qplus xs 0.

(** Truthiness of a [str]. *)
Definition truthy_str (s : string) : bool :=
  match s with EmptyString => false | _ => true end.

(** Truthiness of an [Optional[float]]: [None] and [0.0] are falsy. *)
Definition truthy_opt_float (o : option Q) : bool :=
  match o with None => false | Some q => negb (Qeq_bool q 0) end.

(** [timedelta.days] of [a - b], both in microseconds. *)
Definition timedelta_days (a b : Z) : Z := ((a - b) / 86400000000)%Z.

(** [datetime.min] and [datetime.max] (9999-12-31T23:59:59.999999), in
    microseconds from [datetime.min]. *)
Definition datetime_min : Z := 0.
Definition datetime_max : Z := (3652059 * 86400000000 - 1)%Z.

(** [t - timedelta(days=n)]; [None] is the [OverflowError] ("date value
    out of range") raised when the result is not a [datetime]. *)
Definition datetime_minus_days (t n : Z) : option Z :=
  let r := (t - n * 86400000000)%Z in
  if (r <? datetime_min)%Z || (datetime_max <? r)%Z then None else Some r.

(** Values stored in the [supporting_data] dictionaries. *)
Inductive value :=
| VNone
| VInt (z : Z)
| VFloat (q : Q)
| VStr (s : string).

(** An f-string: the template and the values formatted into it. *)
Record fstring := FString { template : string; fargs : list value }.

Definition fstring_app (a b : fstring) : fstring :=
  FString (template a +:+ template b) (fargs a ++ fargs b).

End Py.

(** ** Data model ([api_models.py]) *)

Record FireEvent := mkFireEvent {
  fire_latitude : Q;
  fire_longitude : Q;
  acquisition_time : Z
}.

Record GLADAlert := mkGLADAlert {
  glad_latitude : Q;
  glad_longitude : Q;
  glad_date : Z
}.

Record RADDAlert := mkRADDAlert {
  radd_latitude : Q;
  radd_longitude : Q;
  radd_date : Z
}.

(** The elements of the [List[Any]] arguments of the scorers. *)
Inductive Alert :=
| AGlad (a : GLADAlert)
| ARadd (a : RADDAlert)
| AFire (f : FireEvent).

(** [hasattr(alert, 'latitude')] holds for the three classes. *)
Definition alert_latlon (a : Alert) : option (Q * Q) :=
  match a with
  | AGlad g => Some (glad_latitude g, glad_longitude g)
  | ARadd r => Some (radd_latitude r, radd_longitude r)
  | AFire f => Some (fire_latitude f, fire_longitude f)
  end.

(** [alert.date if hasattr(alert, 'date') else None] *)
Definition alert_date (a : Alert) : option Z :=
  match a with
  | AGlad g => Some (glad_date g)
  | ARadd r => Some (radd_date r)
  | AFire _ => None
  end.

(** [type(alert).__name__] *)
Definition alert_type_name (a : Alert) : string :=
  match a with
  | AGlad _ => "GLADAlert"
  | ARadd _ => "RADDAlert"
  | AFire _ => "FireEvent"
  end.

Record SentinelEvidence := mkSentinel {
  ndvi : option Q;
  nbr : option Q;
  burn_index : option Q
}.

Record HansenStats := mkHansen { total_loss_ha : Q }.

Record InfrastructureNode := mkNode {
  osm_id : Z;
  node_type : string;
  node_name : option string;
  latitude : Q;
  longitude : Q;
  tags : gmap string string
}.

Record Company := mkCompany { company_name : string }.

Record SentimentScore := mkSentimentScore {
  count : Z;
  score : Q;
  keywords : list string
}.

Record CombinedSentiment := mkCombined {
  google : option SentimentScore;
  gdelt : option SentimentScore;
  reddit : option SentimentScore;
  final_score : Q;
  confidence : Q;
  dominant_narrative : option string
}.

Record EvidenceLink := mkLink {
  evidence_type : string;
  description : Py.fstring;
  weight : Q;
  supporting_data : gmap string Py.value
}.

Record EvidenceChain := mkChain {
  suspect : Company;
  links : list EvidenceLink;
  total_weight : Q;
  summary : string
}.

(** One entry of the proximity detail list. *)
Record ProximityDetail := mkProximity {
  pd_infrastructure : Py.fstring;
  pd_infrastructure_type : string;
  pd_distance_m : Q;
  pd_alert_type : string
}.

(** One entry of the temporal correlation list. *)
Record Correlation := mkCorrelation {
  fire_date : Z;
  alert_date_of : Z;
  days_apart : Z;
  correlation_strength : Q
}.

(** ** Correlation engine ([correlation_engine.py]) *)

Definition MAX_PROXIMITY_DISTANCE_M : Z := 5000.
Definition TEMPORAL_WINDOW_DAYS : Z := 14.
Definition BURN_INDEX_THRESHOLD : Q := 0.3.

(** The [WEIGHTS] dictionary, in source order. *)
Definition WEIGHTS : list (string * Q) :=
  [ ("spatial_proximity", 0.25);
    ("temporal_correlation", 0.20);
    ("sentinel_ndvi", 0.15);
    ("sentinel_nbr", 0.10);
    ("sentinel_burn", 0.10);
    ("alert_density", 0.10);
    ("sentiment_negative", 0.10) ].

(** [d.get(key)] on a dictionary kept as an ordered list of items. *)
Fixpoint dict_get {V : Type} (d : list (string * V)) (key : string) : option V :=
  match d with
  | [] => None
  | (k, v) :: rest => if String.eqb k key then Some v else dict_get rest key
  end.

(** [WEIGHTS[key]]; every key used by the engine is in the table. *)
Definition WEIGHTS_at (key : string) : Q := default 0 (dict_get WEIGHTS key).

(** Truthiness of a list. *)
Definition nonempty {A : Type} (l : list A) : bool :=
  match l with [] => false | _ :: _ => true end.

Section Engine.

(** [utils.haversine_distance(lat1, lon1, lat2, lon2)], in meters. *)
Variable haversine_distance : Q -> Q -> Q -> Q -> Q.

(** [cos_deg(degrees)]. *)
Variable cos_deg : Q -> Q.

(** [node.name or f"OSM:{node.osm_id}"] *)
Definition node_label (node : InfrastructureNode) : Py.fstring :=
  match node_name node with
  | Some s =>
      if Py.truthy_str s then Py.FString s []
      else Py.FString "OSM:{}" [Py.VInt (osm_id node)]
  | None => Py.FString "OSM:{}" [Py.VInt (osm_id node)]
  end.

(** Body of the inner loop of [calculate_spatial_proximity_score]; the
    state is [(close_count, proximity_details)]. *)
Definition spatial_step (max_distance : Q) (node : InfrastructureNode)
    (st : nat * list ProximityDetail) (alert : Alert)
    : nat * list ProximityDetail :=
  match alert_latlon alert with
  | None => st
  | Some (alert_lat, alert_lon) =>
      let distance :=
        haversine_distance (latitude node) (longitude node) alert_lat alert_lon in
      if Py.leb distance max_distance then
        (S (st.1),
         st.2 ++ [mkProximity (node_label node) (node_type node)
                    (Py.round distance 1) (alert_type_name alert)])
      else st
  end.

Definition spatial_loop (max_distance : Q) (infrastructure : list InfrastructureNode)
    (alerts : list Alert) : nat * list ProximityDetail :=
  fold_left
    (fun st node => fold_left (spatial_step max_distance node) alerts st)
    infrastructure (0%nat, []).

Definition calculate_spatial_proximity_score
    (infrastructure : list InfrastructureNode) (alerts : list Alert)
    (max_distance : Q) : Q * list ProximityDetail :=
  match infrastructure, alerts with
  | [], _ | _, [] => (0, [])
  | _, _ =>
      let '(close_count, proximity_details) :=
        spatial_loop max_distance infrastructure alerts in
      let c := inject_Z (Z.of_nat close_count) in
      let score :=
        if (close_count =? 0)%nat then 0
        else if (close_count <? 5)%nat then c * 0.15
        else if (close_count <? 10)%nat then 0.6 + (c - 5) * 0.05
        else Py.min 1 (0.85 + (c - 10) * 0.01) in
      (score, proximity_details)
  end.

(** Body of the inner loop of [calculate_temporal_correlation_score].
    [None] is the [ZeroDivisionError] of [time_diff / window_days]. *)
Definition temporal_step (window_days : Z) (fire : FireEvent)
    (st : option (list Correlation)) (alert : Alert)
    : option (list Correlation) :=
  match st with
  | None => None
  | Some correlations =>
      let fire_time := acquisition_time fire in
      match alert_date alert with
      | None => Some correlations
      | Some alert_time =>
          let time_diff := Z.abs (Py.timedelta_days fire_time alert_time) in
          if (time_diff <=? window_days)%Z then
            if (window_days =? 0)%Z then None
            else
              let strength := 1 - inject_Z time_diff / inject_Z window_days in
              Some (correlations ++
                    [mkCorrelation fire_time alert_time time_diff
                       (Py.round strength 2)])
          else Some correlations
      end
  end.

Definition temporal_loop (window_days : Z) (fires : list FireEvent)
    (deforestation_alerts : list Alert) : option (list Correlation) :=
  fold_left
    (fun st fire => fold_left (temporal_step window_days fire) deforestation_alerts st)
    fires (Some []).

Definition calculate_temporal_correlation_score
    (fires : list FireEvent) (deforestation_alerts : list Alert)
    (window_days : Z) : option (Q * list Correlation) :=
  match fires, deforestation_alerts with
  | [], _ | _, [] => Some (0, [])
  | _, _ =>
      match temporal_loop window_days fires deforestation_alerts with
      | None => None
      | Some [] => Some (0, [])
      | Some correlations =>
          let n := inject_Z (Z.of_nat (length correlations)) in
          let avg_strength :=
            Py.sum (map correlation_strength correlations) / n in
          let count_bonus := Py.min 0.3 (n * 0.05) in
          Some (Py.min 1 (avg_strength + count_bonus), correlations)
      end
  end.

(** The NDVI branch of [calculate_sentinel_scores], for a present index. *)
Definition ndvi_score_of (v : Q) : Q * Py.fstring :=
  let '(ndvi_score, explanation) :=
    if Py.ltb v 0.2 then
      (0.8 + (0.2 - v) * 0.5,
       Py.FString "Very low NDVI ({:.2f}) indicates severe vegetation loss" [Py.VFloat v])
    else if Py.ltb v 0.4 then
      (0.4 + (0.4 - v) * 1,
       Py.FString "Low NDVI ({:.2f}) indicates vegetation stress/loss" [Py.VFloat v])
    else
      (Py.max 0 (0.4 - (v - 0.4) * 0.5),
       Py.FString "NDVI ({:.2f}) indicates vegetation present" [Py.VFloat v]) in
  (Py.min 1 ndvi_score, explanation).

(** The NBR branch. *)
Definition nbr_score_of (v : Q) : Q * Py.fstring :=
  let '(nbr_score, explanation) :=
    if Py.ltb v (-0.1) then
      (0.6 + Qabs v * 0.8,
       Py.FString "Negative NBR ({:.2f}) indicates burn damage" [Py.VFloat v])
    else if Py.ltb v 0.1 then
      (0.3, Py.FString "Low NBR ({:.2f}) suggests possible damage" [Py.VFloat v])
    else
      (0, Py.FString "NBR ({:.2f}) indicates healthy vegetation" [Py.VFloat v]) in
  (Py.min 1 nbr_score, explanation).

(** The burn-index branch. *)
Definition burn_score_of (v : Q) : Q * Py.fstring :=
  if Py.gtb v BURN_INDEX_THRESHOLD then
    (Py.min 1 (v * 1.5),
     Py.FString "High burn index ({:.2f}) indicates active/recent burning" [Py.VFloat v])
  else if Py.gtb v 0.15 then
    (v * 2, Py.FString "Elevated burn index ({:.2f})" [Py.VFloat v])
  else
    (0, Py.FString "Low burn index ({:.2f})" [Py.VFloat v]).

Definition calculate_sentinel_scores (sentinel : option SentinelEvidence)
    : list (string * (Q * Py.fstring)) :=
  match sentinel with
  | None =>
      [ ("ndvi", (0, Py.FString "No Sentinel data available" []));
        ("nbr", (0, Py.FString "No Sentinel data available" []));
        ("burn", (0, Py.FString "No Sentinel data available" [])) ]
  | Some s =>
      [ ("ndvi", match ndvi s with
                 | Some v => ndvi_score_of v
                 | None => (0, Py.FString "NDVI data not available" [])
                 end);
        ("nbr", match nbr s with
                | Some v => nbr_score_of v
                | None => (0, Py.FString "NBR data not available" [])
                end);
        ("burn", match burn_index s with
                 | Some v => burn_score_of v
                 | None => (0, Py.FString "Burn index not available" [])
                 end) ]
  end.

Definition calculate_alert_density_score
    (glad_alerts : list GLADAlert) (radd_alerts : list RADDAlert)
    (fires : list FireEvent) (bbox : Q * Q * Q * Q) : Q * Py.fstring :=
  let total_alerts := (length glad_alerts + length radd_alerts + length fires)%nat in
  if (total_alerts =? 0)%nat then (0, Py.FString "No alerts detected in region" [])
  else
    let '(min_lon, min_lat, max_lon, max_lat) := bbox in
    let width_km := (max_lon - min_lon) * 111 * Qabs (cos_deg ((min_lat + max_lat) / 2)) in
    let height_km := (max_lat - min_lat) * 111 in
    let area_sq_km := width_km * height_km in
    if Py.leb area_sq_km 0 then (0, Py.FString "Invalid area" [])
    else
      let density := inject_Z (Z.of_nat total_alerts) / area_sq_km * 100 in
      let '(score, explanation) :=
        if Py.gtb density 50 then
          (1, Py.FString "Very high alert density: {:.1f} per 100 sq km" [Py.VFloat density])
        else if Py.gtb density 20 then
          (0.7 + (density - 20) * 0.01,
           Py.FString "High alert density: {:.1f} per 100 sq km" [Py.VFloat density])
        else if Py.gtb density 5 then
          (0.3 + (density - 5) * 0.027,
           Py.FString "Moderate alert density: {:.1f} per 100 sq km" [Py.VFloat density])
        else
          (density * 0.06,
           Py.FString "Low alert density: {:.1f} per 100 sq km" [Py.VFloat density]) in
      (Py.min 1 score, explanation).

Definition calculate_sentiment_score (sentiment : option CombinedSentiment)
    : Q * Py.fstring :=
  match sentiment with
  | None => (0, Py.FString "No sentiment data available" [])
  | Some s =>
      let fs := final_score s in
      let '(score, explanation) :=
        if Py.ltb fs (-0.3) then
          (0.8 + Qabs (fs + 0.3) * 0.3,
           Py.FString "Strongly negative media sentiment ({:.2f})" [Py.VFloat fs])
        else if Py.ltb fs 0 then
          (0.4 + Qabs fs * 1.3,
           Py.FString "Negative media sentiment ({:.2f})" [Py.VFloat fs])
        else if Py.ltb fs 0.2 then
          (0.2, Py.FString "Neutral media sentiment ({:.2f})" [Py.VFloat fs])
        else
          (0, Py.FString "Positive media sentiment ({:.2f})" [Py.VFloat fs]) in
      let score := score * confidence s in
      let explanation :=
        match dominant_narrative s with
        | Some d =>
            if Py.truthy_str d then
              Py.fstring_app explanation
                (Py.FString "; dominant theme: {}" [Py.VStr d])
            else explanation
        | None => explanation
        end in
      (Py.min 1 score, explanation)
  end.

(** [min(spatial_details, key=lambda x: x["distance_m"])]: the first entry
    of least distance. *)
Definition closest_detail (spatial_details : list ProximityDetail)
    : option ProximityDetail :=
  match spatial_details with
  | [] => None
  | d :: rest =>
      Some (fold_left
              (fun best x =>
                 if Py.ltb (pd_distance_m x) (pd_distance_m best) then x else best)
              rest d)
  end.

Definition len {A : Type} (l : list A) : Z := Z.of_nat (length l).

Definition build_evidence_chain
    (suspect : Company)
    (spatial_score : Q) (spatial_details : list ProximityDetail)
    (temporal_score : Q) (temporal_details : list Correlation)
    (sentinel_scores : list (string * (Q * Py.fstring)))
    (density_score : Q) (density_explanation : Py.fstring)
    (sentiment_score : Q) (sentiment_explanation : Py.fstring)
    : EvidenceChain :=
  let links : list EvidenceLink := [] in
  (* Spatial proximity evidence *)
  let links :=
    if Py.gtb spatial_score 0 then
      let closest := closest_detail spatial_details in
      links ++
      [mkLink "spatial_proximity"
         (Py.FString "Infrastructure within {}m of {} damage points"
            [Py.VInt MAX_PROXIMITY_DISTANCE_M; Py.VInt (len spatial_details)])
         (spatial_score * WEIGHTS_at "spatial_proximity")
         (list_to_map
            [("proximity_count", Py.VInt (len spatial_details));
             ("closest_distance_m",
              from_option (fun c => Py.VFloat (pd_distance_m c)) Py.VNone closest);
             ("closest_type",
              from_option (fun c => Py.VStr (pd_infrastructure_type c)) Py.VNone closest)])]
    else links in
  (* Temporal correlation evidence *)
  let links :=
    if Py.gtb temporal_score 0 then
      links ++
      [mkLink "temporal_correlation"
         (Py.FString
            "Fire events correlated with deforestation alerts ({} matches within {} days)"
            [Py.VInt (len temporal_details); Py.VInt TEMPORAL_WINDOW_DAYS])
         (temporal_score * WEIGHTS_at "temporal_correlation")
         (list_to_map
            [("correlation_count", Py.VInt (len temporal_details));
             ("avg_days_apart",
              match temporal_details with
              | [] => Py.VInt 0
              | _ =>
                  Py.VFloat
                    (inject_Z (fold_left Z.add (map days_apart temporal_details) 0%Z)
                     / inject_Z (len temporal_details))
              end)])]
    else links in
  (* Sentinel evidence *)
  let '(ndvi_score, ndvi_exp) :=
    default (0, Py.FString "" []) (dict_get sentinel_scores "ndvi") in
  let links :=
    if Py.gtb ndvi_score 0 then
      links ++
      [mkLink "sentinel_ndvi" ndvi_exp (ndvi_score * WEIGHTS_at "sentinel_ndvi")
         (list_to_map [("score", Py.VFloat ndvi_score)])]
    else links in
  let '(nbr_score, nbr_exp) :=
    default (0, Py.FString "" []) (dict_get sentinel_scores "nbr") in
  let links :=
    if Py.gtb nbr_score 0 then
      links ++
      [mkLink "sentinel_nbr" nbr_exp (nbr_score * WEIGHTS_at "sentinel_nbr")
         (list_to_map [("score", Py.VFloat nbr_score)])]
    else links in
  let '(burn_score, burn_exp) :=
    default (0, Py.FString "" []) (dict_get sentinel_scores "burn") in
  let links :=
    if Py.gtb burn_score 0 then
      links ++
      [mkLink "sentinel_burn" burn_exp (burn_score * WEIGHTS_at "sentinel_burn")
         (list_to_map [("score", Py.VFloat burn_score)])]
    else links in
  (* Alert density *)
  let links :=
    if Py.gtb density_score 0 then
      links ++
      [mkLink "alert_density" density_explanation
         (density_score * WEIGHTS_at "alert_density")
         (list_to_map [("score", Py.VFloat density_score)])]
    else links in
  (* Sentiment *)
  let links :=
    if Py.gtb sentiment_score 0 then
      links ++
      [mkLink "sentiment_negative" sentiment_explanation
         (sentiment_score * WEIGHTS_at "sentiment_negative")
         (list_to_map [("score", Py.VFloat sentiment_score)])]
    else links in
  (* Calculate total weight *)
  let total_weight := Py.sum (map weight links) in
  (* Build summary *)
  let summary_parts : list string := [] in
  let summary_parts :=
    if Py.gtb spatial_score 0.5 then
      summary_parts ++ ["strong spatial correlation with damage sites"]
    else summary_parts in
  let summary_parts :=
    if Py.gtb temporal_score 0.5 then
      summary_parts ++ ["temporal pattern of fires preceding deforestation"]
    else summary_parts in
  let summary_parts :=
    if Py.gtb ndvi_score 0.5 then
      summary_parts ++ ["satellite imagery confirms vegetation loss"]
    else summary_parts in
  let summary_parts :=
    if Py.gtb sentiment_score 0.5 then
      summary_parts ++ ["negative media coverage"]
    else summary_parts in
  let summary :=
    match summary_parts with
    | [] => company_name suspect +:+ ": Limited evidence found for direct involvement."
    | _ =>
        company_name suspect +:+ ": Evidence shows "
        +:+ String.concat ", " summary_parts +:+ "."
    end in
  mkChain suspect links (Py.round total_weight 3) summary.

(** The filter of the [suspect_infra] comprehension. *)
Definition suspect_matches (suspect : Company) (n : InfrastructureNode) : bool :=
  bool_decide (node_name n = Some (company_name suspect))
  || bool_decide (tags n !! "operator" = Some (company_name suspect))
  || bool_decide (tags n !! "company" = Some (company_name suspect)).

(** [chains.sort(key=lambda x: x.total_weight, reverse=True)].  Python's
    sort is stable, also with [reverse=True]: entries of equal key keep
    their order.  [place c l] puts [c] in front of the first entry of [l]
    whose key is not greater than the key of [c]. *)
Fixpoint place (c : EvidenceChain) (l : list EvidenceChain) : list EvidenceChain :=
  match l with
  | [] => [c]
  | x :: rest =>
      if Py.gtb (total_weight x) (total_weight c) then x :: place c rest
      else c :: x :: rest
  end.

Definition sort_by_total_weight_reverse (l : list EvidenceChain)
    : list EvidenceChain :=
  fold_right place [] l.

(** The scores of [correlate_events] that do not depend on the suspect. *)
Record BaseScores := mkBase {
  b_spatial : Q * list ProximityDetail;
  b_temporal : Q * list Correlation;
  b_sentinel : list (string * (Q * Py.fstring));
  b_density : Q * Py.fstring;
  b_sentiment : Q * Py.fstring
}.

(** The spatial score handed to [build_evidence_chain] for one suspect. *)
Definition suspect_spatial_score
    (infrastructure : list InfrastructureNode) (damage : list Alert)
    (spatial : Q * list ProximityDetail) (suspect : Company)
    : Q * list ProximityDetail :=
  let suspect_infra := List.filter (suspect_matches suspect) infrastructure in
  match suspect_infra with
  | _ :: _ =>
      calculate_spatial_proximity_score suspect_infra damage
        (inject_Z MAX_PROXIMITY_DISTANCE_M)
  | [] => (spatial.1 * 0.5, spatial.2)
  end.

(** Body of the [for suspect in suspects] loop. *)
Definition chain_for
    (infrastructure : list InfrastructureNode) (damage : list Alert)
    (b : BaseScores) (suspect : Company) : EvidenceChain :=
  let '(suspect_spatial, suspect_spatial_details) :=
    suspect_spatial_score infrastructure damage (b_spatial b) suspect in
  build_evidence_chain suspect
    suspect_spatial suspect_spatial_details
    (b_temporal b).1 (b_temporal b).2
    (b_sentinel b)
    (b_density b).1 (b_density b).2
    (b_sentiment b).1 (b_sentiment b).2.

(** The accumulation of [base_confidence] in [correlate_events]. *)
Definition base_confidence_of
    (hansen : option HansenStats)
    (glad_alerts : list GLADAlert) (radd_alerts : list RADDAlert)
    (fires : list FireEvent) (sentinel : option SentinelEvidence)
    (infrastructure : list InfrastructureNode)
    (sentiment : option CombinedSentiment) (b : BaseScores) : Q :=
  let base_confidence := 0 in
  let base_confidence :=
    if nonempty glad_alerts || nonempty radd_alerts
    then base_confidence + 15 else base_confidence in
  let base_confidence :=
    if nonempty fires then base_confidence + 10
    else base_confidence in
  let base_confidence :=
    match sentinel with
    | Some s =>
        if Py.truthy_opt_float (ndvi s) || Py.truthy_opt_float (nbr s)
        then base_confidence + 15 else base_confidence
    | None => base_confidence
    end in
  let base_confidence :=
    match hansen with
    | Some h =>
        if Py.gtb (total_loss_ha h) 0 then base_confidence + 10
        else base_confidence
    | None => base_confidence
    end in
  let base_confidence :=
    if nonempty infrastructure then base_confidence + 10
    else base_confidence in
  let base_confidence :=
    match sentiment with
    | Some _ => base_confidence + 5
    | None => base_confidence
    end in
  let base_confidence := base_confidence + (b_spatial b).1 * 15 in
  let base_confidence := base_confidence + (b_temporal b).1 * 10 in
  let base_confidence := base_confidence + (b_density b).1 * 10 in
  fold_left (fun acc item => acc + item.2.1 * 5) (b_sentinel b) base_confidence.

Definition base_scores
    (aoi : Q * Q * Q * Q)
    (glad_alerts : list GLADAlert) (radd_alerts : list RADDAlert)
    (fires : list FireEvent) (sentinel : option SentinelEvidence)
    (infrastructure : list InfrastructureNode)
    (sentiment : option CombinedSentiment) : option BaseScores :=
  let all_deforestation := map AGlad glad_alerts ++ map ARadd radd_alerts in
  match calculate_temporal_correlation_score fires all_deforestation
          TEMPORAL_WINDOW_DAYS with
  | None => None
  | Some temporal =>
      Some (mkBase
              (calculate_spatial_proximity_score infrastructure
                 (all_deforestation ++ map AFire fires)
                 (inject_Z MAX_PROXIMITY_DISTANCE_M))
              temporal
              (calculate_sentinel_scores sentinel)
              (calculate_alert_density_score glad_alerts radd_alerts fires aoi)
              (calculate_sentiment_score sentiment))
  end.

Definition correlate_events
    (aoi : Q * Q * Q * Q) (timeframe : Z * Z)
    (hansen : option HansenStats)
    (glad_alerts : list GLADAlert) (radd_alerts : list RADDAlert)
    (fires : list FireEvent) (sentinel : option SentinelEvidence)
    (infrastructure : list InfrastructureNode)
    (suspects : list Company) (sentiment : option CombinedSentiment)
    : option (list EvidenceChain * Q) :=
  match base_scores aoi glad_alerts radd_alerts fires sentinel infrastructure
          sentiment with
  | None => None
  | Some b =>
      let damage :=
        (map AGlad glad_alerts ++ map ARadd radd_alerts) ++ map AFire fires in
      let evidence_chains := map (chain_for infrastructure damage b) suspects in
      let evidence_chains := sort_by_total_weight_reverse evidence_chains in
      let base_confidence :=
        base_confidence_of hansen glad_alerts radd_alerts fires sentinel
          infrastructure sentiment b in
      let confidence_score := Py.min 100 base_confidence in
      Some (evidence_chains, Py.round confidence_score 1)
  end.

(** *** Reference quantities of the scoring rules *)

(** Whether a (node, alert) pair lies within [max_distance]. *)
Definition within (max_distance : Q) (p : InfrastructureNode * Alert) : bool :=
  match alert_latlon p.2 with
  | None => false
  | Some (alert_lat, alert_lon) =>
      Py.leb
        (haversine_distance (latitude p.1) (longitude p.1) alert_lat alert_lon)
        max_distance
  end.

(** Number of (node, alert) pairs within [max_distance]. *)
Definition close_pairs (max_distance : Q)
    (infrastructure : list InfrastructureNode) (alerts : list Alert) : nat :=
  length (List.filter (within max_distance) (list_prod infrastructure alerts)).

End Engine.

(** Days between a fire and an alert, as the engine measures them. *)
Definition days_between (fire : FireEvent) (alert_time : Z) : Z :=
  Z.abs (Py.timedelta_days (acquisition_time fire) alert_time).

(** Whether a fire x alert pair is a match for the window. *)
Definition in_window (window_days : Z) (p : FireEvent * Alert) : bool :=
  match alert_date p.2 with
  | None => false
  | Some alert_time => (days_between p.1 alert_time <=? window_days)%Z
  end.

(** The matches, in the order the loops visit them. *)
Definition temporal_matches (window_days : Z) (fires : list FireEvent)
    (deforestation_alerts : list Alert) : list (FireEvent * Alert) :=
  List.filter (in_window window_days) (list_prod fires deforestation_alerts).

Definition pair_days_apart (p : FireEvent * Alert) : Z :=
  days_between p.1 (default 0%Z (alert_date p.2)).

(** Strength of a match as the specification words it:
    [1 - daysApart / window]. *)
Definition strength_spec (window_days : Z) (p : FireEvent * Alert) : Q :=
  1 - inject_Z (pair_days_apart p) / inject_Z window_days.

Definition average (xs : list Q) : Q :=
  Py.sum xs / inject_Z (Z.of_nat (length xs)).

(** The temporal score as the specification words it: zero without
    matches, else [min(1, average(strength) + min(0.3, 0.05 * matchCount))]. *)
Definition temporal_score_spec (window_days : Z) (fires : list FireEvent)
    (deforestation_alerts : list Alert) : Q :=
  let matches := temporal_matches window_days fires deforestation_alerts in
  match matches with
  | [] => 0
  | _ =>
      Py.min 1
        (average (map (strength_spec window_days) matches)
         + Py.min 0.3 (0.05 * inject_Z (Z.of_nat (length matches))))
  end.

(** The entry the engine records for a match. *)
Definition correlation_of (window_days : Z) (p : FireEvent * Alert) : Correlation :=
  mkCorrelation (acquisition_time p.1) (default 0%Z (alert_date p.2))
    (pair_days_apart p) (Py.round (strength_spec window_days p) 2).


(** The temporal score over the strengths as recorded, that is rounded to
    two decimals. *)
Definition temporal_score_recorded (w : Z) (matches : list (FireEvent * Alert)) : Q :=
  match matches with
  | [] => 0
  | _ =>
      Py.min 1
        (average (map (fun p => Py.round (strength_spec w p) 2) matches)
         + Py.min 0.3 (inject_Z (Z.of_nat (length matches)) * 0.05))
  end.

(** The seven categories with the scores [build_evidence_chain] reads,
    in the order in which it emits their links. *)
Definition category_scores (spatial_score temporal_score : Q)
    (sentinel_scores : list (string * (Q * Py.fstring)))
    (density_score sentiment_score : Q) : list (string * Q) :=
  [ ("spatial_proximity", spatial_score);
    ("temporal_correlation", temporal_score);
    ("sentinel_ndvi",
     (default (0, Py.FString "" []) (dict_get sentinel_scores "ndvi")).1);
    ("sentinel_nbr",
     (default (0, Py.FString "" []) (dict_get sentinel_scores "nbr")).1);
    ("sentinel_burn",
     (default (0, Py.FString "" []) (dict_get sentinel_scores "burn")).1);
    ("alert_density", density_score);
    ("sentiment_negative", sentiment_score) ].

(** The presence bonuses of the confidence aggregator, one summand per
    signal category, with the conditions the code tests. *)
Definition presence_bonuses
    (hansen : option HansenStats)
    (glad_alerts : list GLADAlert) (radd_alerts : list RADDAlert)
    (fires : list FireEvent) (sentinel : option SentinelEvidence)
    (infrastructure : list InfrastructureNode)
    (sentiment : option CombinedSentiment) : Q :=
  (if nonempty glad_alerts || nonempty radd_alerts then 15 else 0)
  + (if nonempty fires then 10 else 0)
  + (match sentinel with
     | Some s =>
         if Py.truthy_opt_float (ndvi s) || Py.truthy_opt_float (nbr s)
         then 15 else 0
     | None => 0
     end)
  + (match hansen with
     | Some h => if Py.gtb (total_loss_ha h) 0 then 10 else 0
     | None => 0
     end)
  + (if nonempty infrastructure then 10 else 0)
  + (match sentiment with Some _ => 5 | None => 0 end).

(** The score-weighted part of the confidence. *)
Definition weighted_contributions (b : BaseScores) : Q :=
  (b_spatial b).1 * 15 + (b_temporal b).1 * 10 + (b_density b).1 * 10
  + Py.sum (map (fun item : string * (Q * Py.fstring) => item.2.1 * 5)
              (b_sentinel b)).

(** The imagery condition as the specification words it: the signal is
    present and its [ndvi] or [nbr] field is present. *)
Definition imagery_present (sentinel : option SentinelEvidence) : bool :=
  match sentinel with
  | Some s => bool_decide (is_Some (ndvi s)) || bool_decide (is_Some (nbr s))
  | None => false
  end.

(** Every presence condition of the aggregator holds. *)
Definition every_bonus_applies
    (hansen : option HansenStats)
    (glad_alerts : list GLADAlert) (radd_alerts : list RADDAlert)
    (fires : list FireEvent) (sentinel : option SentinelEvidence)
    (infrastructure : list InfrastructureNode)
    (sentiment : option CombinedSentiment) : bool :=
  (nonempty glad_alerts || nonempty radd_alerts)
  && nonempty fires
  && match sentinel with
     | Some s => Py.truthy_opt_float (ndvi s) || Py.truthy_opt_float (nbr s)
     | None => false
     end
  && match hansen with
     | Some h => Py.gtb (total_loss_ha h) 0
     | None => false
     end
  && nonempty infrastructure
  && bool_decide (is_Some sentiment).

(** Every category score that enters the confidence is 1. *)
Definition every_score_is_one (b : BaseScores) : Prop :=
  (b_spatial b).1 == 1 /\ (b_temporal b).1 == 1 /\ (b_density b).1 == 1
  /\ Forall (fun item : string * (Q * Py.fstring) => item.2.1 == 1)
       (b_sentinel b).

(** The order of the ranking: heavier chains first. *)
Definition by_weight_desc (x y : EvidenceChain) : Prop :=
  total_weight y <= total_weight x.

(** Whether a link is the spatial-proximity link. *)
Definition is_spatial_link (l : EvidenceLink) : bool :=
  String.eqb (evidence_type l) "spatial_proximity".

(** ** Sentiment combination ([social_voice.py]) *)

(** [Counter(all_keywords).most_common(1)[0][0]]: the most frequent
    keyword, the earliest one among equally frequent ones. *)
Definition occurrences (k : string) (l : list string) : nat :=
  length (List.filter (String.eqb k) l).

Definition most_common (all_keywords : list string) : option string :=
  match all_keywords with
  | [] => None
  | k :: rest =>
      Some (fold_left
              (fun best x =>
                 if (occurrences best all_keywords <? occurrences x all_keywords)%nat
                 then x else best)
              rest k)
  end.

(** [score and score.count > 0] *)
Definition has_samples (s : option SentimentScore) : bool :=
  match s with
  | Some sc => (0 <? count sc)%Z
  | None => false
  end.

Definition SENTIMENT_WEIGHTS : list (string * Q) :=
  [("google", 0.5); ("gdelt", 0.3); ("reddit", 0.2)].

Definition compute_combined_sentiment
    (google gdelt reddit : option SentimentScore) : CombinedSentiment :=
  let weights := SENTIMENT_WEIGHTS in
  let sources := [("google", google); ("gdelt", gdelt); ("reddit", reddit)] in
  let '(weighted_sum, total_weight, total_count) :=
    fold_left
      (fun (acc : Q * Q * Z) (item : string * option SentimentScore) =>
         let '(weighted_sum, total_weight, total_count) := acc in
         match item.2 with
         | Some sc =>
             if (0 <? count sc)%Z then
               let w := default 0 (dict_get weights item.1) in
               (weighted_sum + score sc * w, total_weight + w,
                (total_count + count sc)%Z)
             else acc
         | None => acc
         end)
      sources (0, 0, 0%Z) in
  let final_score :=
    if Py.gtb total_weight 0 then weighted_sum / total_weight else 0 in
  let source_count :=
    len (List.filter (fun item => has_samples item.2) sources) in
  let sample_confidence := Py.min 1 (inject_Z total_count / 50) in
  let source_confidence := inject_Z source_count / 3 in
  let confidence := sample_confidence * 0.6 + source_confidence * 0.4 in
  let all_keywords :=
    flat_map (fun item => from_option keywords [] item.2) sources in
  let dominant := most_common all_keywords in
  mkCombined google gdelt reddit
    (Py.round final_score 3) (Py.round confidence 3) dominant.

(** Field constraints of the [SentimentScore] model. *)
Definition SentimentScore_ok (s : SentimentScore) : Prop :=
  (0 <= count s)%Z /\ -1 <= score s /\ score s <= 1.

(** Field constraints of the [CombinedSentiment] model. *)
Definition CombinedSentiment_valid (c : CombinedSentiment) : bool :=
  Py.leb (-1) (final_score c) && Py.leb (final_score c) 1
  && Py.leb 0 (confidence c) && Py.leb (confidence c) 1.

(** A source that is absent, or whose record satisfies its constraints. *)
Definition source_ok (s : option SentimentScore) : Prop :=
  match s with
  | Some sc => SentimentScore_ok sc
  | None => True
  end.

(** *** Reference quantities of the combination *)

(** The sources that have samples, in source order. *)
Definition present_sources (google gdelt reddit : option SentimentScore)
    : list (string * option SentimentScore) :=
  List.filter (fun item => has_samples item.2)
    [("google", google); ("gdelt", gdelt); ("reddit", reddit)].

Definition weight_of (item : string * option SentimentScore) : Q :=
  default 0 (dict_get SENTIMENT_WEIGHTS item.1).

Definition polarity_of (item : string * option SentimentScore) : Q :=
  from_option score 0 item.2.

Definition count_of (item : string * option SentimentScore) : Z :=
  from_option count 0%Z item.2.

(** Final polarity as the specification words it: the average of the
    polarities of the present sources, weighted 0.5 / 0.3 / 0.2 and
    normalised by the weights present; 0 when no source is present. *)
Definition polarity_spec (google gdelt reddit : option SentimentScore) : Q :=
  let present := present_sources google gdelt reddit in
  match present with
  | [] => 0
  | _ =>
      Py.sum (map (fun item => polarity_of item * weight_of item) present)
      / Py.sum (map weight_of present)
  end.

(** Confidence as the specification words it:
    [0.6 * min(1, totalSampleCount / 50) + 0.4 * (presentSourceCount / 3)]. *)
Definition confidence_spec (google gdelt reddit : option SentimentScore) : Q :=
  let present := present_sources google gdelt reddit in
  let total := fold_left Z.add (map count_of present) 0%Z in
  0.6 * Py.min 1 (inject_Z total / 50)
  + 0.4 * (inject_Z (Z.of_nat (length present)) / 3).

(** ** Orchestrator ([main_api.py], [utils.py], [config.py]) *)

(** A raised exception: its class name and [str(e)]. *)
Record PyException := mkException { exc_class : string; exc_str : string }.

(** [SourceError]; the [timestamp] field (wall clock) is left out. *)
Record SourceError := mkSourceError {
  source : string;
  error_type : string;
  message : string;
  retryable : bool
}.

Record CoverageNote := mkCoverageNote {
  dataset : string;
  status : string;
  reason : option string
}.

Record HTTPException := mkHTTPException { status_code : Z; detail : Py.fstring }.

(** The dictionary returned by a Phase-1 collaborator: the keys [data],
    [error], [skipped] and [skip_reason]; an absent key reads as [None]
    (as [False] for [skipped]). *)
Record FetchResult (A : Type) := mkFetch {
  r_data : option A;
  r_error : option string;
  r_skipped : bool;
  r_skip_reason : option string
}.
Arguments mkFetch {A}.
Arguments r_data {A}.
Arguments r_error {A}.
Arguments r_skipped {A}.
Arguments r_skip_reason {A}.

(** The dictionary returned by a sentiment fetcher. *)
Record SentimentFetch := mkSentimentFetch {
  s_data : option SentimentScore;
  s_error : option string;
  s_source_error : option SourceError
}.

(** One entry of [asyncio.gather(..., return_exceptions=True)]: the
    exception raised by the task, or its return value. *)
Inductive Gathered (A : Type) :=
| Exc (e : PyException)
| Ret (r : A).
Arguments Exc {A}.
Arguments Ret {A}.

(** A record of the GLEIF answer; [legal_name] is the entry
    [attributes.entity.legalName.name], [None] when it is absent.  The
    other entries (LEI, country, region, status) fill fields that the
    [Company] of this development does not carry. *)
Record GleifRecord := mkGleifRecord { legal_name : option string }.

(** What the network-bound collaborators awaited by one [get_dossier]
    request produce.  [search_gleif name] is the outcome of the registry
    call made for [name]: the records of its answer, or the exception
    raised by the call or by the reading of its answer. *)
Record Collaborators := mkCollaborators {
  fetch_hansen_stats : Gathered (FetchResult HansenStats);
  fetch_firms : Gathered (FetchResult (list FireEvent));
  fetch_glad_alerts : Gathered (FetchResult (list GLADAlert));
  fetch_radd_alerts : Gathered (FetchResult (list RADDAlert));
  fetch_sentinel_evidence : Gathered (FetchResult SentinelEvidence);
  identify_nearby_infrastructure : Gathered (FetchResult (list InfrastructureNode));
  search_gleif : string -> Gathered (list GleifRecord);
  fetch_google_news_sentiment : Gathered SentimentFetch;
  fetch_gdelt_sentiment : Gathered SentimentFetch;
  fetch_reddit_sentiment : Gathered SentimentFetch
}.

Record RegionConfig := mkRegion {
  region_name : string;
  region_bbox : Q * Q * Q * Q;
  region_description : string;
  climate_zone : string
}.

Definition GLOBAL_REGIONS : list (string * RegionConfig) :=
  [ ("amazon", mkRegion "Amazon" (-73, -15, -45, 5)
       "Amazon Rainforest - Brazil, Peru, Colombia" "tropical");
    ("congo", mkRegion "Congo Basin" (9, -13, 31, 10)
       "Congo Rainforest - DRC, Republic of Congo, Cameroon" "tropical");
    ("riau", mkRegion "Riau" (100, -1, 104, 3)
       "Riau Province, Sumatra, Indonesia" "tropical");
    ("borneo", mkRegion "Borneo" (108, -4.5, 119.5, 7.5)
       "Borneo Island - Indonesia, Malaysia, Brunei" "tropical");
    ("se_brazil", mkRegion "SE Brazil" (-53, -28, -40, -18)
       "Southeast Brazil - Atlantic Forest and Cerrado" "tropical");
    ("california", mkRegion "California" (-124.5, 32.5, -114, 42)
       "California, USA - Fire-prone regions" "temperate");
    ("siberia", mkRegion "Siberia" (60, 50, 140, 75)
       "Siberian forests - Russia" "boreal");
    ("australia", mkRegion "Australia" (113, -44, 154, -10)
       "Australia - bushfire regions" "temperate") ].

Record BBox := mkBBox { min_lon : Q; min_lat : Q; max_lon : Q; max_lat : Q }.

(** [BBox.from_tuple]: the field bounds and the two order validators;
    [None] is the [ValidationError]. *)
Definition BBox_from_tuple (t : Q * Q * Q * Q) : option BBox :=
  let '(lon0, lat0, lon1, lat1) := t in
  if Py.leb (-180) lon0 && Py.leb lon0 180
     && Py.leb (-90) lat0 && Py.leb lat0 90
     && Py.leb (-180) lon1 && Py.leb lon1 180
     && Py.leb (-90) lat1 && Py.leb lat1 90
     && negb (Py.ltb lon1 lon0) && negb (Py.ltb lat1 lat0)
  then Some (mkBBox lon0 lat0 lon1 lat1)
  else None.

Record Dossier := mkDossier {
  d_region : option string;
  d_bbox : BBox;
  analysis_period_start : Z;
  analysis_period_end : Z;
  d_hansen : option HansenStats;
  gfw_glad : list GLADAlert;
  gfw_radd : list RADDAlert;
  firms : list FireEvent;
  d_sentinel : option SentinelEvidence;
  nearby_infra : list InfrastructureNode;
  d_suspects : list Company;
  d_sentiment : option CombinedSentiment;
  evidence_chain : list EvidenceChain;
  confidence_score : Q;
  source_errors : list SourceError;
  coverage_notes : list CoverageNote
}.

(** Truthiness of an [Optional[str]]. *)
Definition truthy_opt_str (o : option string) : bool :=
  match o with
  | Some s => Py.truthy_str s
  | None => false
  end.

(** [utils.create_source_error] *)
Definition create_source_error (source : string) (exception : PyException)
    (retryable : bool) : SourceError :=
  mkSourceError source (exc_class exception)
    (String.substring 0 500 (exc_str exception)) retryable.

(** [utils.validate_bbox] for a 4-tuple. *)
Definition validate_bbox (bbox : Q * Q * Q * Q) : bool * option Py.fstring :=
  let '(lon0, lat0, lon1, lat1) := bbox in
  if negb (Py.leb (-180) lon0 && Py.leb lon0 180)
     || negb (Py.leb (-180) lon1 && Py.leb lon1 180)
  then (false, Some (Py.FString "Longitude must be between -180 and 180" []))
  else if negb (Py.leb (-90) lat0 && Py.leb lat0 90)
          || negb (Py.leb (-90) lat1 && Py.leb lat1 90)
  then (false, Some (Py.FString "Latitude must be between -90 and 90" []))
  else if Py.gtb lon0 lon1
  then (false, Some (Py.FString "min_lon must be <= max_lon" []))
  else if Py.gtb lat0 lat1
  then (false, Some (Py.FString "min_lat must be <= max_lat" []))
  else
    let area := (lon1 - lon0) * (lat1 - lat0) in
    if Py.gtb area 1000
    then (false,
          Some (Py.FString "BBox area too large ({:.1f} sq degrees). Max is 1000."
                  [Py.VFloat area]))
    else if Py.ltb area 0.0001
    then (false,
          Some (Py.FString "BBox area too small. Minimum is 0.0001 sq degrees." []))
    else (true, None).

(** [str.lower()] and [str.replace(" ", "_")] on ASCII text. *)
Definition ascii_lower (c : ascii) : ascii :=
  let n := nat_of_ascii c in
  if (65 <=? n)%nat && (n <=? 90)%nat then ascii_of_nat (n + 32) else c.

Fixpoint str_lower (s : string) : string :=
  match s with
  | EmptyString => EmptyString
  | String c rest => String (ascii_lower c) (str_lower rest)
  end.

Fixpoint replace_space (s : string) : string :=
  match s with
  | EmptyString => EmptyString
  | String c rest =>
      String (if Ascii.eqb c " "%char then "_"%char else c) (replace_space rest)
  end.

(** [str.strip()] on ASCII text: [str.isspace] holds for the codes 9 to
    13 and 28 to 32. *)
Definition is_space (c : ascii) : bool :=
  let n := nat_of_ascii c in
  ((9 <=? n)%nat && (n <=? 13)%nat) || ((28 <=? n)%nat && (n <=? 32)%nat).

Fixpoint lstrip (s : string) : string :=
  match s with
  | EmptyString => EmptyString
  | String c rest => if is_space c then lstrip rest else s
  end.

Fixpoint rstrip (s : string) : string :=
  match s with
  | EmptyString => EmptyString
  | String c rest =>
      match rstrip rest with
      | EmptyString => if is_space c then EmptyString else String c EmptyString
      | kept => String c kept
      end
  end.

Definition strip (s : string) : string := rstrip (lstrip s).

(** Field constraints of the models built in Phase 3. *)
Definition EvidenceLink_valid (l : EvidenceLink) : bool :=
  Py.leb 0 (weight l) && Py.leb (weight l) 1.

Definition EvidenceChain_valid (c : EvidenceChain) : bool :=
  forallb EvidenceLink_valid (links c) && Py.leb 0 (total_weight c).

Definition confidence_score_valid (q : Q) : bool :=
  Py.leb 0 q && Py.leb q 100.

(** Handling of one entry of the Phase-1 gather (Hansen, FIRMS, Sentinel
    and infrastructure share this shape); returns the [data] entry and the
    extended error list. *)
Definition process_result {A : Type} (source : string)
    (result : Gathered (FetchResult A)) (source_errors : list SourceError)
    : option A * list SourceError :=
  match result with
  | Exc e => (None, source_errors ++ [create_source_error source e true])
  | Ret r =>
      if truthy_opt_str (r_error r) then
        (None,
         source_errors ++
         [mkSourceError source "FetchError" (default "" (r_error r)) true])
      else (r_data r, source_errors)
  end.

(** Handling of the GLAD and RADD entries, which may be skipped. *)
Definition process_alert_result {A : Type} (source : string)
    (result : Gathered (FetchResult A))
    (source_errors : list SourceError) (coverage_notes : list CoverageNote)
    : option A * list SourceError * list CoverageNote :=
  match result with
  | Exc e =>
      (None, source_errors ++ [create_source_error source e true], coverage_notes)
  | Ret r =>
      if r_skipped r then
        (None, source_errors,
         coverage_notes ++ [mkCoverageNote source "skipped" (r_skip_reason r)])
      else if truthy_opt_str (r_error r) then
        (None,
         source_errors ++
         [mkSourceError source "FetchError" (default "" (r_error r)) true],
         coverage_notes)
      else (r_data r, source_errors, coverage_notes)
  end.

(** The closure [extract_result] of [fetch_all_sentiment]. *)
Definition extract_result (errors : list SourceError)
    (result : Gathered SentimentFetch) (source_name : string)
    : option SentimentScore * list SourceError :=
  match result with
  | Exc e =>
      (None,
       errors ++ [mkSourceError source_name (exc_class e) (exc_str e) false])
  | Ret r =>
      let errors :=
        match s_source_error r with
        | Some se => errors ++ [se]
        | None => errors
        end in
      let errors :=
        if truthy_opt_str (s_error r) && negb (bool_decide (is_Some (s_data r)))
        then errors ++
             [mkSourceError source_name "FetchError" (default "" (s_error r)) true]
        else errors in
      (s_data r, errors)
  end.

(** [social_voice.fetch_all_sentiment]; the left case is the
    [ValidationError] of the [CombinedSentiment] constructor. *)
Definition fetch_all_sentiment (env : Collaborators)
    : PyException + (CombinedSentiment * list SourceError) :=
  let errors : list SourceError := [] in
  let '(google, errors) :=
    extract_result errors (fetch_google_news_sentiment env) "google_news" in
  let '(gdelt, errors) :=
    extract_result errors (fetch_gdelt_sentiment env) "gdelt" in
  let '(reddit, errors) :=
    extract_result errors (fetch_reddit_sentiment env) "reddit" in
  let combined := compute_combined_sentiment google gdelt reddit in
  if CombinedSentiment_valid combined then inr (combined, errors)
  else inl (mkException "ValidationError" "validation error for CombinedSentiment").

Section Orchestrator.

Variable haversine_distance : Q -> Q -> Q -> Q -> Q.
Variable cos_deg : Q -> Q.

(** [utils.parse_bbox_string]; [None] is its [ValueError]. *)
Variable parse_bbox_string : string -> option (Q * Q * Q * Q).

(** [datetime.fromisoformat]; [None] is its [ValueError]. *)
Variable fromisoformat : string -> option Z.

(** The clock read of [datetime.utcnow()] that sets the default period. *)
Variable utcnow : Z.

(** [rapidfuzz.fuzz.ratio] *)
Variable fuzz_ratio : string -> string -> Q.

(** [list(company_names)]: the order in which Python iterates over the
    set into which the given names were inserted. *)
Variable set_list : list string -> list string.

(** *** Company enrichment ([suspect_profiler.py]) *)

(** A [Company] built inside the [try] block of [enrich_company], as the
    [data] and [error] entries of the dictionary returned: the bound on
    [match_score] can fail the constructor, and the handler
    [except Exception] turns that into an error value. *)
Definition company_or_error (name : string) (match_score : Q)
    : option Company * option string :=
  if Py.leb 0 match_score && Py.leb match_score 100
  then (Some (mkCompany name), None)
  else (None, Some "validation error for Company").

(** The loop of [enrich_company] over the records of the answer. *)
Fixpoint best_match_loop (name : string) (records : list GleifRecord)
    (best_match : option GleifRecord) (best_score : Q)
    : option GleifRecord * Q :=
  match records with
  | [] => (best_match, best_score)
  | record :: rest =>
      let legal := default "" (legal_name record) in
      let score := fuzz_ratio (str_lower name) (str_lower legal) in
      if Py.gtb score best_score
      then best_match_loop name rest (Some record) score
      else best_match_loop name rest best_match best_score
  end.

(** [enrich_company]: the [data] and [error] entries of the dictionary it
    returns.  Every exception of the registry call and of the reading of
    its answer is caught. *)
Definition enrich_company (env : Collaborators) (name : string)
    : option Company * option string :=
  if negb (Py.truthy_str name)
     || (Z.of_nat (String.length (strip name)) <? 2)%Z
  then (None, Some "Invalid company name")
  else
    match search_gleif env name with
    | Exc e => (None, Some (exc_str e))
    | Ret records =>
        if negb (nonempty records) then company_or_error name 0
        else
          let '(best_match, best_score) :=
            best_match_loop name records None 0 in
          match best_match with
          | Some record =>
              if Py.leb 60 best_score
              then company_or_error (default name (legal_name record))
                     best_score
              else company_or_error name best_score
          | None => company_or_error name best_score
          end
    end.

(** The names [enrich_infrastructure_companies] adds to its set, in the
    order of the additions: for each node its name, its operator and its
    company, when they are not empty. *)
Definition company_names_of (infrastructure : list InfrastructureNode)
    : list string :=
  flat_map
    (fun node =>
       let operator := tags node !! "operator" in
       let company := tags node !! "company" in
       (if truthy_opt_str (node_name node)
        then [default "" (node_name node)] else [])
       ++ (if truthy_opt_str operator then [default "" operator] else [])
       ++ (if truthy_opt_str company then [default "" company] else []))
    infrastructure.

(** [enrich_infrastructure_companies]: at most ten of the names are looked
    up, and only the lookups that gave a [Company] are kept. *)
Definition enrich_infrastructure_companies (env : Collaborators)
    (infrastructure : list InfrastructureNode) : list Company :=
  let company_names := company_names_of infrastructure in
  if negb (nonempty company_names) then []
  else
    let results :=
      map (fun name => (enrich_company env name).1)
        (firstn 10 (set_list company_names)) in
    flat_map (fun result => match result with
                            | Some company => [company]
                            | None => []
                            end) results.

Definition resolve_bbox (region bbox_str : option string)
    : HTTPException + (Q * Q * Q * Q) :=
  if truthy_opt_str region then
    let region_lower := replace_space (str_lower (default "" region)) in
    match dict_get GLOBAL_REGIONS region_lower with
    | None =>
        inl (mkHTTPException 400
               (Py.FString "Unknown region: {}. Available: {}"
                  [Py.VStr (default "" region)]))
    | Some cfg => inr (region_bbox cfg)
    end
  else if truthy_opt_str bbox_str then
    match parse_bbox_string (default "" bbox_str) with
    | None => inl (mkHTTPException 400 (Py.FString "{}" []))
    | Some bbox =>
        let '(valid, error) := validate_bbox bbox in
        if negb valid then
          inl (mkHTTPException 400 (default (Py.FString "" []) error))
        else inr bbox
    end
  else
    inl (mkHTTPException 400
           (Py.FString "Either 'region' or 'bbox' parameter required" [])).

(** The handler [except Exception as e: raise HTTPException(500, str(e))]. *)
Definition unhandled (msg : string) : HTTPException :=
  mkHTTPException 500 (Py.FString msg []).

Definition get_dossier (region bbox start_date end_date : option string)
    (env : Collaborators) : HTTPException + Dossier :=
  match resolve_bbox region bbox with
  | inl http => inl http
  | inr aoi =>
  match BBox_from_tuple aoi with
  | None => inl (unhandled "validation error for BBox")
  | Some bbox_model =>
  match (if truthy_opt_str end_date
         then fromisoformat (default "" end_date) else Some utcnow) with
  | None => inl (unhandled "Invalid isoformat string")
  | Some end_dt =>
  match (if truthy_opt_str start_date
         then match fromisoformat (default "" start_date) with
              | Some start_dt => inr start_dt
              | None => inl "Invalid isoformat string"
              end
         else match Py.datetime_minus_days end_dt 90 with
              | Some start_dt => inr start_dt
              | None => inl "date value out of range"
              end) with
  | inl msg => inl (unhandled msg)
  | inr start_dt =>
    let timeframe := (start_dt, end_dt) in
    let source_errors : list SourceError := [] in
    let coverage_notes : list CoverageNote := [] in
    (* Phase 1 *)
    let '(hansen, source_errors) :=
      process_result "hansen_gfc" (fetch_hansen_stats env) source_errors in
    let '(fires, source_errors) :=
      process_result "firms" (fetch_firms env) source_errors in
    let fires := default [] fires in
    let '(glad_alerts, source_errors, coverage_notes) :=
      process_alert_result "gfw_glad" (fetch_glad_alerts env)
        source_errors coverage_notes in
    let glad_alerts := default [] glad_alerts in
    let '(radd_alerts, source_errors, coverage_notes) :=
      process_alert_result "gfw_radd" (fetch_radd_alerts env)
        source_errors coverage_notes in
    let radd_alerts := default [] radd_alerts in
    let '(sentinel, source_errors) :=
      process_result "sentinel_hub" (fetch_sentinel_evidence env) source_errors in
    let '(infrastructure, source_errors) :=
      process_result "overpass" (identify_nearby_infrastructure env)
        source_errors in
    let infrastructure := default [] infrastructure in
    (* Phase 2; the handler that records a "gleif" error is never
       entered, the enrichment catching every exception itself *)
    let suspects :=
      if nonempty infrastructure
      then enrich_infrastructure_companies env infrastructure
      else [] in
    let '(sentiment, source_errors) :=
      match fetch_all_sentiment env with
      | inr (sentiment, sentiment_errors) =>
          (Some sentiment, source_errors ++ sentiment_errors)
      | inl e => (None, source_errors ++ [create_source_error "sentiment" e true])
      end in
    (* Phase 3 *)
    match correlate_events haversine_distance cos_deg aoi timeframe hansen
            glad_alerts radd_alerts fires sentinel infrastructure suspects
            sentiment with
    | None => inl (unhandled "float division by zero")
    | Some (evidence_chains, confidence) =>
        if forallb EvidenceChain_valid evidence_chains
           && confidence_score_valid confidence
        then
          inr (mkDossier region bbox_model start_dt end_dt hansen glad_alerts
                 radd_alerts fires sentinel infrastructure suspects sentiment
                 evidence_chains confidence source_errors coverage_notes)
        else inl (unhandled "validation error")
    end
  end end end end.

End Orchestrator.

(** *** Outcomes of the collaborators *)

(** A Phase-1 collaborator failed: its task raised, or returned an error
    value (a dictionary whose [error] entry is a non-empty message). *)
Definition failed {A : Type} (result : Gathered (FetchResult A)) : bool :=
  match result with
  | Exc _ => true
  | Ret r => truthy_opt_str (r_error r)
  end.

(** The same for the GLAD and RADD collaborators, for which a skip is not
    a failure. *)
Definition failed_alert {A : Type} (result : Gathered (FetchResult A)) : bool :=
  match result with
  | Exc _ => true
  | Ret r => negb (r_skipped r) && truthy_opt_str (r_error r)
  end.

(** A GLAD or RADD collaborator skipped the area. *)
Definition skipped {A : Type} (result : Gathered (FetchResult A)) : bool :=
  match result with
  | Exc _ => false
  | Ret r => r_skipped r
  end.



(** The dossier carries a coverage note for the dataset. *)
Definition notes_skip (d : Dossier) (name : string) : Prop :=
  exists n, In n (coverage_notes d) /\ dataset n = name /\ status n = "skipped".



(** The date parameters of the request can be used: each one given is in
    ISO format, and without a start date the default start, 90 days
    before the end, is not before [datetime.min]. *)
Definition dates_ok (fromisoformat : string -> option Z) (utcnow : Z)
    (start_date end_date : option string) : bool :=
  match (if truthy_opt_str end_date
         then fromisoformat (default "" end_date) else Some utcnow) with
  | None => false
  | Some end_dt =>
      if truthy_opt_str start_date
      then bool_decide (is_Some (fromisoformat (default "" start_date)))
      else bool_decide (is_Some (Py.datetime_minus_days end_dt 90))
  end.


(** ** Dataset coverage ([config.py]) *)

Record CoverageConfig := mkCoverage {
  coverage : string;
  lat_range : option (Z * Z);
  coverage_description : string;
  notes : option string
}.

Definition DATASET_COVERAGE : list (string * CoverageConfig) :=
  [ ("hansen_gfc", mkCoverage "global" (Some (-90, 90)%Z)
       "Hansen Global Forest Change - annual forest loss" None);
    ("firms", mkCoverage "global" (Some (-90, 90)%Z)
       "MODIS/VIIRS active fire detections" None);
    ("gfw_glad", mkCoverage "tropical" (Some (-30, 30)%Z)
       "GLAD deforestation alerts - optical, tropical belt"
       (Some "Best performance in humid tropical forests"));
    ("gfw_radd", mkCoverage "tropical_humid" (Some (-30, 30)%Z)
       "RADD alerts - radar-based, primary humid tropical forests"
       (Some "Coverage expanding; currently limited to primary humid tropical"));
    ("sentinel_hub", mkCoverage "global" (Some (-90, 90)%Z)
       "Sentinel-2 imagery - NDVI, NBR, true color" None);
    ("overpass", mkCoverage "global" (Some (-90, 90)%Z)
       "OpenStreetMap infrastructure data" None);
    ("gleif", mkCoverage "global" None "Legal Entity Identifier data" None);
    ("google_news", mkCoverage "global" None
       "Google Custom Search for news" None);
    ("gdelt", mkCoverage "global" None "GDELT Global Knowledge Graph" None);
    ("reddit", mkCoverage "global" None "Reddit community posts"
       (Some "API access may require developer approval")) ].

Definition is_region_covered (dataset : string) (bbox : Q * Q * Q * Q)
    : bool * option Py.fstring :=
  match dict_get DATASET_COVERAGE dataset with
  | None => (false, Some (Py.FString "Unknown dataset: {}" [Py.VStr dataset]))
  | Some config =>
      match lat_range config with
      | None => (true, None)
      | Some (lat_min_allowed, lat_max_allowed) =>
          let '(min_lon, min_lat, max_lon, max_lat) := bbox in
          let coverage_type := coverage config in
          if String.eqb coverage_type "global" then (true, None)
          else if String.eqb coverage_type "tropical" then
            if Py.ltb max_lat (inject_Z lat_min_allowed)
               || Py.gtb min_lat (inject_Z lat_max_allowed)
            then (false,
                  Some (Py.FString "Region outside tropical coverage ({}° to {}°)"
                          [Py.VInt lat_min_allowed; Py.VInt lat_max_allowed]))
            else (true, None)
          else if String.eqb coverage_type "tropical_humid" then
            if Py.ltb max_lat (inject_Z lat_min_allowed)
               || Py.gtb min_lat (inject_Z lat_max_allowed)
            then (false,
                  Some (Py.FString "Region outside tropical humid forest coverage" []))
            else (true,
                  from_option (fun n => Some (Py.FString n [])) None
                    (notes config))
          else (true, None)
      end
  end.

(** ** Geometry helpers ([utils.py], [api_models.py]) *)

(** [BBox.to_tuple] *)
Definition BBox_to_tuple (b : BBox) : Q * Q * Q * Q :=
  (min_lon b, min_lat b, max_lon b, max_lat b).

(** [BBox.area_sq_degrees] *)
Definition area_sq_degrees (b : BBox) : Q :=
  (max_lon b - min_lon b) * (max_lat b - min_lat b).

(** [utils.bbox_centroid]: [(center_lon, center_lat)]. *)
Definition bbox_centroid (bbox : Q * Q * Q * Q) : Q * Q :=
  let '(lon0, lat0, lon1, lat1) := bbox in
  ((lon0 + lon1) / 2, (lat0 + lat1) / 2).

(** ** Rate limiting ([utils.TokenBucketRateLimiter]) *)

Record TokenBucket := mkBucket {
  tokens_per_minute : Z;
  bucket_size : Z;
  tokens : Q;
  last_update : Q
}.

(** [__init__], [now] being the reading of [time.monotonic()];
    [bucket_size or tokens_per_minute] falls back for [None] and for 0. *)
Definition TokenBucket_init (per_minute : Z) (size : option Z) (now : Q)
    : TokenBucket :=
  let size :=
    match size with
    | Some z => if (z =? 0)%Z then per_minute else z
    | None => per_minute
    end in
  mkBucket per_minute size (inject_Z size) now.

(** What one pass of the [while True] loop of [acquire] does. *)
Inductive AcquireStep :=
| Acquired (b : TokenBucket)
| Sleeps (b : TokenBucket) (seconds : Q)
| DivisionByZero (b : TokenBucket).

(** One pass of the loop of [acquire], [now] being the clock reading of
    the pass. *)
Definition acquire_step (b : TokenBucket) (requested : Z) (now : Q)
    : AcquireStep :=
  let elapsed := now - last_update b in
  let refilled :=
    Py.min (inject_Z (bucket_size b))
      (tokens b + elapsed * (inject_Z (tokens_per_minute b) / 60)) in
  let b :=
    mkBucket (tokens_per_minute b) (bucket_size b) refilled now in
  if Py.leb (inject_Z requested) (tokens b) then
    Acquired (mkBucket (tokens_per_minute b) (bucket_size b)
                (tokens b - inject_Z requested) (last_update b))
  else if (tokens_per_minute b =? 0)%Z then DivisionByZero b
  else
    let wait_time :=
      (inject_Z requested - tokens b) / (inject_Z (tokens_per_minute b) / 60) in
    Sleeps b (Py.min wait_time 1).

(** [acquire] over the clock readings of its passes: the bucket after the
    call returned, or [None] when it raised or is still waiting after the
    last reading. *)
Fixpoint acquire (b : TokenBucket) (requested : Z) (clock : list Q)
    : option TokenBucket :=
  match clock with
  | [] => None
  | now :: later =>
      match acquire_step b requested now with
      | Acquired b' => Some b'
      | Sleeps b' _ => acquire b' requested later
      | DivisionByZero _ => None
      end
  end.

(** ** Retrying ([utils.retry_with_backoff]) *)

(** What one call of the wrapped function does. *)
Inductive CallOutcome (A : Type) :=
| Returns (a : A)
| RaisesRetryable (e : PyException)
| RaisesOther (e : PyException).
Arguments Returns {A}.
Arguments RaisesRetryable {A}.
Arguments RaisesOther {A}.

(** How [retry_with_backoff] ends. *)
Inductive RetryEnd (A : Type) :=
| Returned (a : A)
| Reraised (e : PyException)
| RaisedNone
| DelayIndexError.
Arguments Returned {A}.
Arguments Reraised {A}.
Arguments RaisedNone {A}.
Arguments DelayIndexError {A}.

(** The run of a call: how it ends, how many times the function was
    called, and the delays slept, in order. *)
Record RetryRun (A : Type) := mkRun {
  run_end : RetryEnd A;
  run_calls : nat;
  run_sleeps : list Z
}.
Arguments mkRun {A}.
Arguments run_end {A}.
Arguments run_calls {A}.
Arguments run_sleeps {A}.

(** [delays[min(attempt, len(delays) - 1)]]: on an empty tuple the index
    is -1 and the lookup raises [IndexError]. *)
Definition delay_at (delays : list Z) (attempt : nat) : option Z :=
  match delays with
  | [] => None
  | _ => nth_error delays (Nat.min attempt (length delays - 1))
  end.

(** The [for attempt in range(max_retries)] loop; [func attempt] is what
    the call of pass [attempt] does, [remaining] the passes left. *)
Fixpoint retry_loop {A : Type} (func : nat -> CallOutcome A)
    (max_retries : nat) (delays : list Z)
    (remaining attempt : nat) (last_exception : option PyException)
    (calls : nat) (sleeps : list Z) : RetryRun A :=
  match remaining with
  | O =>
      match last_exception with
      | Some e => mkRun (Reraised e) calls sleeps
      | None => mkRun RaisedNone calls sleeps
      end
  | S remaining' =>
      match func attempt with
      | Returns a => mkRun (Returned a) (S calls) sleeps
      | RaisesOther e => mkRun (Reraised e) (S calls) sleeps
      | RaisesRetryable e =>
          if (attempt <? max_retries - 1)%nat then
            match delay_at delays attempt with
            | None => mkRun DelayIndexError (S calls) sleeps
            | Some delay =>
                retry_loop func max_retries delays remaining' (S attempt)
                  (Some e) (S calls) (sleeps ++ [delay])
            end
          else
            retry_loop func max_retries delays remaining' (S attempt)
              (Some e) (S calls) sleeps
      end
  end.

(** [retry_with_backoff(func, max_retries=..., delays=...)]; a negative
    [max_retries] runs no pass, like 0. *)
Definition retry_with_backoff {A : Type} (func : nat -> CallOutcome A)
    (max_retries : Z) (delays : list Z) : RetryRun A :=
  let n := Z.to_nat max_retries in
  retry_loop func n delays n 0 None 0 [].

(** ** Keyword sentiment ([social_voice.py]) *)

Definition NEGATIVE_KEYWORDS : list string :=
  [ "deforestation"; "destruction"; "illegal"; "logging"; "fire"; "burning";
    "pollution"; "damage"; "violation"; "fine"; "penalty"; "lawsuit";
    "scandal"; "corrupt"; "accused"; "investigation"; "harm"; "toxic";
    "spill"; "contamination"; "criminal"; "fraud"; "exploit"; "abuse";
    "clearcut"; "slash"; "burn"; "encroachment"; "poaching"; "smuggling" ].

Definition POSITIVE_KEYWORDS : list string :=
  [ "sustainable"; "conservation"; "protection"; "restoration"; "reforestation";
    "certified"; "green"; "eco-friendly"; "renewable"; "initiative";
    "partnership"; "award"; "commitment"; "progress"; "improvement";
    "compliance"; "transparency"; "responsible" ].

(** [kw in text] on strings: [kw] occurs as a substring. *)
Fixpoint contains (kw text : string) : bool :=
  if String.prefix kw text then true
  else match text with
       | EmptyString => false
       | String _ rest => contains kw rest
       end.

(** [sum(1 for kw in keywords if kw in text_lower)] *)
Definition keyword_hits (keywords : list string) (text_lower : string) : Z :=
  len (List.filter (fun kw => contains kw text_lower) keywords).

(** [analyze_text_sentiment]; [None] and the empty text are falsy. *)
Definition analyze_text_sentiment (text : option string) : Q :=
  if negb (truthy_opt_str text) then 0
  else
    let text_lower := str_lower (default "" text) in
    let neg_count := keyword_hits NEGATIVE_KEYWORDS text_lower in
    let pos_count := keyword_hits POSITIVE_KEYWORDS text_lower in
    let total := (neg_count + pos_count)%Z in
    if (total =? 0)%Z then 0
    else Py.round (inject_Z (pos_count - neg_count) / inject_Z total) 3.

(** The loop of [extract_keywords], with its [break]. *)
Fixpoint extract_loop (keywords : list string) (text_lower : string)
    (limit : Z) (found : list string) : list string :=
  match keywords with
  | [] => found
  | kw :: rest =>
      if contains kw text_lower && negb (existsb (String.eqb kw) found) then
        let found := found ++ [kw] in
        if (limit <=? len found)%Z then found
        else extract_loop rest text_lower limit found
      else extract_loop rest text_lower limit found
  end.

Definition extract_keywords (text : option string) (limit : Z) : list string :=
  if negb (truthy_opt_str text) then []
  else
    let text_lower := str_lower (default "" text) in
    extract_loop (NEGATIVE_KEYWORDS ++ POSITIVE_KEYWORDS) text_lower limit [].

(** ** Sample inputs

    Concrete inputs on which the definitions above are evaluated.  The
    events are those of [tests/test_correlation.py] and
    [tests/test_sentiment.py]. *)

Module Sample.

(** A computable stand-in for the distance and cosine helpers: a degree
    is 111 km along both axes. *)
Definition flat_distance (lat1 lon1 lat2 lon2 : Q) : Q :=
  (Qabs (lat1 - lat2) + Qabs (lon1 - lon2)) * 111000.

Definition flat_cos (degrees : Q) : Q := 1.

Definition day : Z := 86400000000.

Definition factory : InfrastructureNode :=
  mkNode 1 "factory" (Some "Test Factory") 0 0 ∅.

Definition near_alert : Alert := AGlad (mkGLADAlert 0.001 0.001 0).
Definition far_alert : Alert := AGlad (mkGLADAlert 10 10 0).

(** A fire at [t0] and an alert five days before. *)
Definition fire_t0 : FireEvent := mkFireEvent 0 0 (5 * day).
Definition alert_5d_before : GLADAlert := mkGLADAlert 0 0 0.

(** A bundle in which every presence bonus applies and every category
    score is 1: 25 alerts and a fire next to one factory, all on the same
    day, in a box of about 31 square km, with strong imagery indices. *)
Definition full_aoi : Q * Q * Q * Q := (0, 0, 0.05, 0.05).
Definition full_hansen : option HansenStats := Some (mkHansen 10).
Definition full_glad : list GLADAlert := repeat (mkGLADAlert 0.001 0.001 0) 25.
Definition full_fires : list FireEvent := [mkFireEvent 0 0 0].
Definition full_sentinel : option SentinelEvidence :=
  Some (mkSentinel (Some (-0.2)) (Some (-0.5)) (Some 0.7)).
Definition full_sentiment : option CombinedSentiment :=
  Some (mkCombined None None None (-0.6) 0.8 (Some "deforestation")).

(** Imagery whose NDVI is exactly 0.0, the other indices being absent. *)
Definition zero_ndvi : option SentinelEvidence :=
  Some (mkSentinel (Some 0) None None).

(** Category scores all equal to 1. *)
Definition unit_sentinel_scores : list (string * (Q * Py.fstring)) :=
  [ ("ndvi", (1, Py.FString "" []));
    ("nbr", (1, Py.FString "" []));
    ("burn", (1, Py.FString "" [])) ].

(** The sentiment sources of [tests/test_sentiment.py]. *)
Definition google_10 : option SentimentScore :=
  Some (mkSentimentScore 10 (-0.5) ["deforestation"]).
Definition gdelt_20 : option SentimentScore :=
  Some (mkSentimentScore 20 (-0.3) ["fire"]).
Definition reddit_5 : option SentimentScore :=
  Some (mkSentimentScore 5 (-0.7) ["illegal"]).

(** A request for a named region, without dates, in which the Hansen
    task raises, FIRMS returns an error value, GLAD is skipped, every
    registry call times out, the Google fetcher raises and the Reddit
    fetcher returns an error value. *)
Definition timeout_error : PyException := mkException "TimeoutError" "timed out".

Definition degraded : Collaborators :=
  mkCollaborators
    (Exc timeout_error)
    (Ret (mkFetch (Some []) (Some "GEE initialization failed") false None))
    (Ret (mkFetch None None true (Some "outside tropical belt")))
    (Ret (mkFetch (Some [mkRADDAlert 0.001 0.001 0]) None false None))
    (Ret (mkFetch zero_ndvi None false None))
    (Ret (mkFetch (Some [factory]) None false None))
    (fun _ => Exc timeout_error)
    (Exc timeout_error)
    (Ret (mkSentimentFetch gdelt_20 None None))
    (Ret (mkSentimentFetch None (Some "HTTP 503") None)).

(** A request in which every collaborator returns data; the registry
    knows no company. *)
Definition healthy : Collaborators :=
  mkCollaborators
    (Ret (mkFetch (Some (mkHansen 10)) None false None))
    (Ret (mkFetch (Some full_fires) None false None))
    (Ret (mkFetch (Some full_glad) None false None))
    (Ret (mkFetch (Some [mkRADDAlert 0.001 0.001 0]) None false None))
    (Ret (mkFetch full_sentinel None false None))
    (Ret (mkFetch (Some [factory]) None false None))
    (fun _ => Ret [])
    (Ret (mkSentimentFetch google_10 None None))
    (Ret (mkSentimentFetch gdelt_20 None None))
    (Ret (mkSentimentFetch reddit_5 None None)).

(** Readers of the box and date parameters that accept no text: every
    string handed to them is malformed. *)
Definition no_parse (s : string) : option (Q * Q * Q * Q) := None.
Definition no_date (s : string) : option Z := None.

(** A clock reading: 2024-01-01T00:00:00, day 738885 from [datetime.min]. *)
Definition now : Z := (738885 * day)%Z.

(** Stand-ins for the string comparison and for the order of a set: equal
    strings score 100 and all others 0; the set is read in the order of
    the first insertions. *)
Definition exact_ratio (a b : string) : Q := if String.eqb a b then 100 else 0.
Definition insertion_order (names : list string) : list string :=
  nodup string_dec names.

End Sample.

(** * Properties *)

(** ** Arithmetic of the Python helpers *)

Ltac qcase :=
  unfold Py.min, Py.max, Py.ltb, Py.leb, Py.gtb in *;
  repeat match goal with
         | |- context [Qlt_le_dec ?a ?b] => destruct (Qlt_le_dec a b)
         | H : context [Qlt_le_dec ?a ?b] |- _ => destruct (Qlt_le_dec a b)
         end.

Lemma ltb_true (a b : Q) : Py.ltb a b = true <-> a < b.
Proof. qcase; split; intros; try easy; lra. Qed.

Lemma ltb_false (a b : Q) : Py.ltb a b = false <-> b <= a.
Proof. qcase; split; intros; try easy; lra. Qed.

Lemma leb_true (a b : Q) : Py.leb a b = true <-> a <= b.
Proof. qcase; split; intros; try easy; lra. Qed.

Lemma leb_false (a b : Q) : Py.leb a b = false <-> b < a.
Proof. qcase; split; intros; try easy; lra. Qed.

Lemma gtb_true (a b : Q) : Py.gtb a b = true <-> b < a.
Proof. unfold Py.gtb. apply ltb_true. Qed.

Lemma gtb_false (a b : Q) : Py.gtb a b = false <-> a <= b.
Proof. unfold Py.gtb. apply ltb_false. Qed.

Lemma min_le_l (a b : Q) : Py.min a b <= a.
Proof. qcase; lra. Qed.

Lemma min_le_r (a b : Q) : Py.min a b <= b.
Proof. qcase; lra. Qed.

Lemma min_glb (a b c : Q) : c <= a -> c <= b -> c <= Py.min a b.
Proof. qcase; lra. Qed.

Lemma round_half_even_lower (q : Q) (k : Z) :
  inject_Z k <= q -> (k <= Py.round_half_even q)%Z.
Proof.
  intros Hk. unfold Py.round_half_even.
  assert (Hf : (k <= Qfloor q)%Z).
  { rewrite <- (Qfloor_Z k). apply Qfloor_resp_le. exact Hk. }
  repeat destruct Qlt_le_dec; try destruct (Z.even _); lia.
Qed.

Lemma round_half_even_upper (q : Q) (k : Z) :
  q <= inject_Z k -> (Py.round_half_even q <= k)%Z.
Proof.
  intros Hk. unfold Py.round_half_even.
  pose proof (Qfloor_le q) as Hle.
  assert (Hf : (Qfloor q <= k)%Z).
  { rewrite <- (Qfloor_Z k). apply Qfloor_resp_le. exact Hk. }
  assert (Hstep : 0 < q - inject_Z (Qfloor q) -> (Qfloor q + 1 <= k)%Z).
  { intros Hpos.
    assert (Hlt : inject_Z (Qfloor q) < inject_Z k) by lra.
    rewrite <- Zlt_Qlt in Hlt. lia. }
  repeat destruct Qlt_le_dec; try destruct (Z.even _); try lia;
    apply Hstep; lra.
Qed.

Lemma scale_pos (n : nat) : 0 < inject_Z (10 ^ Z.of_nat n).
Proof.
  replace 0 with (inject_Z 0) by reflexivity. rewrite <- Zlt_Qlt.
  apply Z.pow_pos_nonneg; lia.
Qed.

Lemma round_lower (q : Q) (k : Z) (n : nat) :
  inject_Z k <= q -> inject_Z k <= Py.round q n.
Proof.
  intros Hk. unfold Py.round.
  pose proof (scale_pos n) as Hs.
  set (s := inject_Z (10 ^ Z.of_nat n)) in *.
  apply Qle_shift_div_l; [exact Hs|].
  unfold s. rewrite <- inject_Z_mult, <- Zle_Qle.
  apply round_half_even_lower. rewrite inject_Z_mult. fold s.
  apply Qmult_le_compat_r; lra.
Qed.

Lemma round_upper (q : Q) (k : Z) (n : nat) :
  q <= inject_Z k -> Py.round q n <= inject_Z k.
Proof.
  intros Hk. unfold Py.round.
  pose proof (scale_pos n) as Hs.
  set (s := inject_Z (10 ^ Z.of_nat n)) in *.
  apply Qle_shift_div_r; [exact Hs|].
  unfold s. rewrite <- inject_Z_mult, <- Zle_Qle.
  apply round_half_even_upper. rewrite inject_Z_mult. fold s.
  apply Qmult_le_compat_r; lra.
Qed.

Lemma fold_plus_shift (xs : list Q) (a : Q) :
  fold_left Qplus xs a == a + fold_left Qplus xs 0.
Proof.
  revert a. induction xs as [|x xs IH]; intros a; simpl.
  - lra.
  - rewrite (IH (a + x)), (IH (0 + x)). lra.
Qed.

Lemma sum_cons (x : Q) (xs : list Q) : Py.sum (x :: xs) == x + Py.sum xs.
Proof. unfold Py.sum. simpl. rewrite fold_plus_shift. lra. Qed.

Lemma sum_app (xs ys : list Q) : Py.sum (xs ++ ys) == Py.sum xs + Py.sum ys.
Proof.
  induction xs as [|x xs IH]; simpl.
  - unfold Py.sum at 2. simpl. lra.
  - rewrite !sum_cons, IH. lra.
Qed.

Lemma sum_bounds (xs : list Q) (lo hi : Q) :
  Forall (fun x => lo <= x <= hi) xs ->
  lo * inject_Z (Z.of_nat (length xs)) <= Py.sum xs
  /\ Py.sum xs <= hi * inject_Z (Z.of_nat (length xs)).
Proof.
  induction 1 as [|x xs Hx _ IH].
  - unfold Py.sum. cbn [length fold_left Z.of_nat].
    change (inject_Z (Z.of_nat 0)) with 0. lra.
  - rewrite sum_cons. cbn [length]. rewrite Nat2Z.inj_succ.
    unfold Z.succ. rewrite inject_Z_plus.
    set (n := inject_Z (Z.of_nat (length xs))) in *.
    change (inject_Z 1) with 1. nra.
Qed.

(** ** Spatial proximity *)

Section SpatialProperties.

(** The distance function, [utils.haversine_distance]. *)
Variable hav : Q -> Q -> Q -> Q -> Q.

(** One pass of the inner loop adds one to the counter, and one detail,
    for each alert in reach of the node. *)
Lemma inner_loop_count (max_distance : Q) (node : InfrastructureNode)
    (alerts : list Alert) (st : nat * list ProximityDetail) :
  let st' := fold_left (spatial_step hav max_distance node) alerts st in
  let hits :=
    length (List.filter (within hav max_distance) (map (fun a => (node, a)) alerts)) in
  st'.1 = (st.1 + hits)%nat /\ length st'.2 = (length st.2 + hits)%nat.
Proof.
  revert st. induction alerts as [|a alerts IH]; intros st; cbn zeta.
  - simpl. lia.
  - cbn [fold_left map List.filter].
    specialize (IH (spatial_step hav max_distance node st a)).
    cbn zeta in IH. destruct IH as [IH1 IH2]. rewrite IH1, IH2.
    unfold spatial_step, within. cbn [fst snd].
    destruct (alert_latlon a) as [[lat lon]|]; [|lia].
    destruct (Py.leb _ max_distance); cbn [fst snd length].
    + rewrite length_app. simpl. lia.
    + lia.
Qed.

Lemma outer_loop_count (max_distance : Q) (infra : list InfrastructureNode)
    (alerts : list Alert) (st : nat * list ProximityDetail) :
  let st' :=
    fold_left
      (fun st node => fold_left (spatial_step hav max_distance node) alerts st)
      infra st in
  let hits :=
    length (List.filter (within hav max_distance) (list_prod infra alerts)) in
  st'.1 = (st.1 + hits)%nat /\ length st'.2 = (length st.2 + hits)%nat.
Proof.
  revert st. induction infra as [|node infra IH]; intros st; cbn zeta.
  - simpl. lia.
  - cbn [fold_left list_prod].
    specialize (IH (fold_left (spatial_step hav max_distance node) alerts st)).
    cbn zeta in IH. destruct IH as [IH1 IH2]. rewrite IH1, IH2.
    destruct (inner_loop_count max_distance node alerts st) as [H1 H2].
    rewrite H1, H2, List.filter_app, length_app. lia.
Qed.

Lemma spatial_loop_count (max_distance : Q) (infra : list InfrastructureNode)
    (alerts : list Alert) :
  (spatial_loop hav max_distance infra alerts).1
  = close_pairs hav max_distance infra alerts
  /\ length (spatial_loop hav max_distance infra alerts).2
     = close_pairs hav max_distance infra alerts.
Proof.
  unfold spatial_loop, close_pairs.
  destruct (outer_loop_count max_distance infra alerts (0%nat, [])) as [H1 H2].
  simpl in H1, H2. split; assumption.
Qed.

Lemma list_prod_nil_r {A B : Type} (l : list A) : list_prod l (@nil B) = [].
Proof. induction l; simpl; auto. Qed.

(** The score is the stated function of the counter. *)
Lemma spatial_score_of_count (infra : list InfrastructureNode)
    (alerts : list Alert) (max_distance : Q) :
  let n := close_pairs hav max_distance infra alerts in
  let c := inject_Z (Z.of_nat n) in
  (calculate_spatial_proximity_score hav infra alerts max_distance).1 =
    if (n =? 0)%nat then 0
    else if (n <? 5)%nat then c * 0.15
    else if (n <? 10)%nat then 0.6 + (c - 5) * 0.05
    else Py.min 1 (0.85 + (c - 10) * 0.01).
Proof.
  cbn zeta. unfold calculate_spatial_proximity_score.
  destruct infra as [|node infra].
  { reflexivity. }
  destruct alerts as [|a alerts].
  { unfold close_pairs. rewrite list_prod_nil_r. reflexivity. }
  destruct (spatial_loop_count max_distance (node :: infra) (a :: alerts))
    as [H1 _].
  destruct (spatial_loop hav max_distance (node :: infra) (a :: alerts))
    as [close_count details].
  simpl in H1. subst close_count. reflexivity.
Qed.

Lemma spatial_details_length (infra : list InfrastructureNode)
    (alerts : list Alert) (max_distance : Q) :
  length (calculate_spatial_proximity_score hav infra alerts max_distance).2
  = close_pairs hav max_distance infra alerts.
Proof.
  unfold calculate_spatial_proximity_score.
  destruct infra as [|node infra]; [reflexivity|].
  destruct alerts as [|a alerts].
  { unfold close_pairs. rewrite list_prod_nil_r. reflexivity. }
  destruct (spatial_loop_count max_distance (node :: infra) (a :: alerts))
    as [_ H2].
  destruct (spatial_loop hav max_distance (node :: infra) (a :: alerts)).
  exact H2.
Qed.

Lemma inject_nat_le (a : Z) (n : nat) :
  (a <= Z.of_nat n)%Z -> inject_Z a <= inject_Z (Z.of_nat n).
Proof. intros H. rewrite <- Zle_Qle. exact H. Qed.

Lemma inject_nat_ge (a : Z) (n : nat) :
  (Z.of_nat n <= a)%Z -> inject_Z (Z.of_nat n) <= inject_Z a.
Proof. intros H. rewrite <- Zle_Qle. exact H. Qed.

Lemma spatial_score_range (infra : list InfrastructureNode)
    (alerts : list Alert) (max_distance : Q) :
  0 <= (calculate_spatial_proximity_score hav infra alerts max_distance).1 <= 1.
Proof.
  rewrite spatial_score_of_count.
  set (n := close_pairs hav max_distance infra alerts).
  destruct (Nat.eqb_spec n 0); [lra|].
  pose proof (inject_nat_le 1 n ltac:(lia)) as H1. change (inject_Z 1) with 1 in H1.
  destruct (Nat.ltb_spec n 5).
  { pose proof (inject_nat_ge 4 n ltac:(lia)) as H4.
    change (inject_Z 4) with 4 in H4. lra. }
  pose proof (inject_nat_le 5 n ltac:(lia)) as H5. change (inject_Z 5) with 5 in H5.
  destruct (Nat.ltb_spec n 10).
  { pose proof (inject_nat_ge 9 n ltac:(lia)) as H9.
    change (inject_Z 9) with 9 in H9. lra. }
  split; [apply min_glb; lra | apply min_le_l].
Qed.

(** C3.  The spatial score is the fixed piecewise function of the number
    [n] of (node, alert) pairs no further apart than the maximal distance:
    0 for [n = 0], [n * 0.15] for [1 <= n <= 4], [0.6 + (n - 5) * 0.05]
    for [5 <= n <= 9], [min(1, 0.85 + (n - 10) * 0.01)] from 10 on; the
    detail list has one entry per such pair; with an empty input list the
    result is [(0, [])]; and the score always lies in [0, 1]. *)
Theorem spatial_score_piecewise
    (infra : list InfrastructureNode) (alerts : list Alert) (max_distance : Q) :
  let n := close_pairs hav max_distance infra alerts in
  let c := inject_Z (Z.of_nat n) in
  let r := calculate_spatial_proximity_score hav infra alerts max_distance in
  (n = 0%nat -> r.1 == 0)
  /\ ((1 <= n <= 4)%nat -> r.1 == c * 0.15)
  /\ ((5 <= n <= 9)%nat -> r.1 == 0.6 + (c - 5) * 0.05)
  /\ ((10 <= n)%nat -> r.1 == Py.min 1 (0.85 + (c - 10) * 0.01))
  /\ length r.2 = n
  /\ (infra = [] \/ alerts = [] -> r = (0, []))
  /\ 0 <= r.1 <= 1.
Proof.
  cbn zeta.
  pose proof (spatial_score_of_count infra alerts max_distance) as Hs.
  cbn zeta in Hs.
  set (n := close_pairs hav max_distance infra alerts) in *.
  split; [|split; [|split; [|split; [|split; [|split]]]]].
  - intros H0. rewrite Hs, H0. reflexivity.
  - intros [Hlo Hhi]. rewrite Hs.
    destruct (Nat.eqb_spec n 0); [lia|].
    destruct (Nat.ltb_spec n 5); [reflexivity|lia].
  - intros [Hlo Hhi]. rewrite Hs.
    destruct (Nat.eqb_spec n 0); [lia|].
    destruct (Nat.ltb_spec n 5); [lia|].
    destruct (Nat.ltb_spec n 10); [reflexivity|lia].
  - intros Hlo. rewrite Hs.
    destruct (Nat.eqb_spec n 0); [lia|].
    destruct (Nat.ltb_spec n 5); [lia|].
    destruct (Nat.ltb_spec n 10); [lia|reflexivity].
  - apply spatial_details_length.
  - intros [-> | ->]; unfold calculate_spatial_proximity_score.
    + reflexivity.
    + destruct infra; reflexivity.
  - apply spatial_score_range.
Qed.

End SpatialProperties.

(** ** Temporal correlation *)

Lemma temporal_inner_loop (w : Z) (fire : FireEvent) (alerts : list Alert)
    (cs : list Correlation) :
  w <> 0%Z ->
  fold_left (temporal_step w fire) alerts (Some cs)
  = Some (cs ++ map (correlation_of w)
                  (List.filter (in_window w) (map (fun a => (fire, a)) alerts))).
Proof.
  intros Hw. revert cs.
  induction alerts as [|a alerts IH]; intros cs.
  - simpl. rewrite app_nil_r. reflexivity.
  - cbn [fold_left map List.filter].
    assert (Hstep :
      temporal_step w fire (Some cs) a
      = Some (if in_window w (fire, a)
              then cs ++ [correlation_of w (fire, a)] else cs)).
    { unfold temporal_step, in_window, correlation_of, strength_spec,
        pair_days_apart, days_between. cbn [fst snd].
      destruct (alert_date a) as [t|]; [|reflexivity].
      cbn [default from_option id].
      destruct (Z.leb_spec (Z.abs (Py.timedelta_days (acquisition_time fire) t)) w);
        [|reflexivity].
      destruct (Z.eqb_spec w 0); [contradiction|reflexivity]. }
    rewrite Hstep.
    destruct (in_window w (fire, a)); rewrite IH; [|reflexivity].
    cbn [map]. rewrite <- app_assoc. reflexivity.
Qed.

Lemma temporal_outer_loop (w : Z) (fires : list FireEvent) (alerts : list Alert)
    (cs : list Correlation) :
  w <> 0%Z ->
  fold_left (fun st fire => fold_left (temporal_step w fire) alerts st)
    fires (Some cs)
  = Some (cs ++ map (correlation_of w) (temporal_matches w fires alerts)).
Proof.
  intros Hw. revert cs. unfold temporal_matches.
  induction fires as [|fire fires IH]; intros cs.
  - simpl. rewrite app_nil_r. reflexivity.
  - cbn [fold_left list_prod].
    rewrite temporal_inner_loop by exact Hw.
    rewrite IH, List.filter_app, map_app, app_assoc. reflexivity.
Qed.

Lemma temporal_loop_matches (w : Z) (fires : list FireEvent)
    (alerts : list Alert) :
  w <> 0%Z ->
  temporal_loop w fires alerts
  = Some (map (correlation_of w) (temporal_matches w fires alerts)).
Proof.
  intros Hw. unfold temporal_loop.
  rewrite temporal_outer_loop by exact Hw. reflexivity.
Qed.

Lemma temporal_score_unfold (w : Z) (fires : list FireEvent)
    (alerts : list Alert) :
  w <> 0%Z ->
  calculate_temporal_correlation_score fires alerts w
  = Some (temporal_score_recorded w (temporal_matches w fires alerts),
          map (correlation_of w) (temporal_matches w fires alerts)).
Proof.
  intros Hw. unfold calculate_temporal_correlation_score.
  destruct fires as [|fire fires]; [reflexivity|].
  destruct alerts as [|a alerts].
  { unfold temporal_matches. rewrite list_prod_nil_r. reflexivity. }
  rewrite temporal_loop_matches by exact Hw.
  destruct (temporal_matches w (fire :: fires) (a :: alerts)) as [|p ms];
    [reflexivity|].
  unfold temporal_score_recorded, average.
  rewrite !length_map, !map_map. reflexivity.
Qed.

Lemma match_days_range (w : Z) (p : FireEvent * Alert) :
  in_window w p = true -> (0 <= pair_days_apart p <= w)%Z.
Proof.
  unfold in_window, pair_days_apart, days_between.
  destruct (alert_date p.2) as [t|]; [|discriminate].
  cbn [default from_option id]. intros H. apply Z.leb_le in H. lia.
Qed.

Lemma strength_spec_range (w : Z) (p : FireEvent * Alert) :
  (0 < w)%Z -> in_window w p = true -> 0 <= strength_spec w p <= 1.
Proof.
  intros Hw Hp. destruct (match_days_range w p Hp) as [Hlo Hhi].
  unfold strength_spec.
  assert (Hwq : 0 < inject_Z w).
  { change 0 with (inject_Z 0). rewrite <- Zlt_Qlt. exact Hw. }
  assert (Hd0 : 0 <= inject_Z (pair_days_apart p)).
  { change 0 with (inject_Z 0). rewrite <- Zle_Qle. exact Hlo. }
  assert (Hdw : inject_Z (pair_days_apart p) <= inject_Z w).
  { rewrite <- Zle_Qle. exact Hhi. }
  assert (H0 : 0 <= inject_Z (pair_days_apart p) / inject_Z w).
  { apply Qle_shift_div_l; [exact Hwq|lra]. }
  assert (H1 : inject_Z (pair_days_apart p) / inject_Z w <= 1).
  { apply Qle_shift_div_r; [exact Hwq|lra]. }
  lra.
Qed.

Lemma recorded_strengths_range (w : Z) (ms : list (FireEvent * Alert)) :
  (0 < w)%Z -> Forall (fun p => in_window w p = true) ms ->
  Forall (fun x => 0 <= x <= 1)
    (map (fun p => Py.round (strength_spec w p) 2) ms).
Proof.
  intros Hw Hms. apply Forall_map. eapply Forall_impl; [|exact Hms].
  intros p Hp. destruct (strength_spec_range w p Hw Hp) as [Hlo Hhi]. split.
  - apply (round_lower _ 0). exact Hlo.
  - apply (round_upper _ 1). exact Hhi.
Qed.

Lemma average_range (xs : list Q) :
  xs <> [] -> Forall (fun x => 0 <= x <= 1) xs -> 0 <= average xs <= 1.
Proof.
  intros Hne Hxs. unfold average.
  destruct (sum_bounds xs 0 1 Hxs) as [Hlo Hhi].
  assert (Hn : 0 < inject_Z (Z.of_nat (length xs))).
  { change 0 with (inject_Z 0). rewrite <- Zlt_Qlt.
    destruct xs; [contradiction|simpl; lia]. }
  split.
  - apply Qle_shift_div_l; [exact Hn|lra].
  - apply Qle_shift_div_r; [exact Hn|lra].
Qed.

Lemma temporal_matches_in_window (w : Z) (fires : list FireEvent)
    (alerts : list Alert) :
  Forall (fun p => in_window w p = true) (temporal_matches w fires alerts).
Proof.
  unfold temporal_matches. apply List.Forall_forall. intros p Hp.
  apply List.filter_In in Hp. tauto.
Qed.

Lemma temporal_score_recorded_range (w : Z) (fires : list FireEvent)
    (alerts : list Alert) :
  (0 < w)%Z ->
  0 <= temporal_score_recorded w (temporal_matches w fires alerts) <= 1.
Proof.
  intros Hw. unfold temporal_score_recorded.
  pose proof (temporal_matches_in_window w fires alerts) as Hin.
  destruct (temporal_matches w fires alerts) as [|p ms] eqn:Hm; [lra|].
  assert (Havg := average_range
            (map (fun p => Py.round (strength_spec w p) 2) (p :: ms))
            ltac:(discriminate)
            (recorded_strengths_range w (p :: ms) Hw Hin)).
  assert (Hn : 0 <= inject_Z (Z.of_nat (length (p :: ms)))).
  { change 0 with (inject_Z 0). rewrite <- Zle_Qle. lia. }
  split; [|apply min_le_l].
  apply min_glb; [lra|].
  assert (0 <= Py.min 0.3 (inject_Z (Z.of_nat (length (p :: ms))) * 0.05)).
  { apply min_glb; lra. }
  lra.
Qed.

(** C5 (as amended).  With the 14-day window the engine records, for each
    fire x alert pair no more than 14 days apart and in loop order, the
    day difference and the strength [1 - daysApart / 14] rounded to two
    decimals; with at least one match the score is
    [min(1, average(recorded strengths) + min(0.3, 0.05 * matchCount))],
    without a match, or with an empty input list, the result is
    [(0, [])]. *)
Theorem temporal_score_from_recorded_strengths
    (fires : list FireEvent) (alerts : list Alert) :
  let w := TEMPORAL_WINDOW_DAYS in
  let matches := temporal_matches w fires alerts in
  calculate_temporal_correlation_score fires alerts w
  = Some (match matches with
          | [] => 0
          | _ =>
              Py.min 1
                (average (map (fun p => Py.round (strength_spec w p) 2) matches)
                 + Py.min 0.3 (inject_Z (Z.of_nat (length matches)) * 0.05))
          end,
          map (fun p =>
                 mkCorrelation (acquisition_time p.1)
                   (default 0%Z (alert_date p.2)) (pair_days_apart p)
                   (Py.round (strength_spec w p) 2))
              matches)
  /\ calculate_temporal_correlation_score [] alerts w = Some (0, [])
  /\ calculate_temporal_correlation_score fires [] w = Some (0, []).
Proof.
  cbn zeta. split; [|split].
  - rewrite temporal_score_unfold by (unfold TEMPORAL_WINDOW_DAYS; lia).
    reflexivity.
  - reflexivity.
  - destruct fires; reflexivity.
Qed.

(** C5, counterexample.  For a fire five days after an alert the engine
    returns 0.64 + 0.05 = 0.69, the strength having been rounded to two
    decimals before averaging, and not [1 - 5/14 + 0.05]. *)
Lemma temporal_score_not_exact_average :
  exists score details,
    calculate_temporal_correlation_score
      [Sample.fire_t0] [AGlad Sample.alert_5d_before] TEMPORAL_WINDOW_DAYS
    = Some (score, details)
    /\ score == 0.69
    /\ temporal_score_spec TEMPORAL_WINDOW_DAYS
         [Sample.fire_t0] [AGlad Sample.alert_5d_before] == 97 # 140
    /\ ~ score == temporal_score_spec TEMPORAL_WINDOW_DAYS
                    [Sample.fire_t0] [AGlad Sample.alert_5d_before].
Proof.
  eexists. eexists. split; [vm_compute; reflexivity|].
  split; [reflexivity|]. split; [reflexivity|].
  vm_compute. discriminate.
Qed.

(** C3, instances: no pair in reach, one pair, five pairs, ten pairs. *)
Lemma spatial_score_piecewise_witness :
  let score alerts :=
    (calculate_spatial_proximity_score Sample.flat_distance
       [Sample.factory] alerts 5000).1 in
  score [Sample.far_alert] == 0
  /\ score [Sample.near_alert] == 0.15
  /\ score (repeat Sample.near_alert 5) == 0.6
  /\ score (repeat Sample.near_alert 10) == 0.85.
Proof.
  cbn zeta. split; [|split; [|split]].
  - refine (proj1 (spatial_score_piecewise Sample.flat_distance
                     [Sample.factory] [Sample.far_alert] 5000) _).
    vm_compute. reflexivity.
  - refine (Qeq_trans _ _ _
              (proj1 (proj2 (spatial_score_piecewise Sample.flat_distance
                 [Sample.factory] [Sample.near_alert] 5000)) _) _).
    + vm_compute. lia.
    + vm_compute. reflexivity.
  - refine (Qeq_trans _ _ _
              (proj1 (proj2 (proj2 (spatial_score_piecewise Sample.flat_distance
                 [Sample.factory] (repeat Sample.near_alert 5) 5000))) _) _).
    + vm_compute. lia.
    + vm_compute. reflexivity.
  - refine (Qeq_trans _ _ _
              (proj1 (proj2 (proj2 (proj2 (spatial_score_piecewise
                 Sample.flat_distance
                 [Sample.factory] (repeat Sample.near_alert 10) 5000)))) _) _).
    + vm_compute. lia.
    + vm_compute. reflexivity.
Defined.

(** ** Imagery sub-scores *)

Lemma ndvi_score_range (v : Q) : 0 <= (ndvi_score_of v).1 <= 1.
Proof.
  unfold ndvi_score_of.
  destruct (Py.ltb v 0.2) eqn:H1; [|destruct (Py.ltb v 0.4) eqn:H2];
    cbn [fst]; rewrite ?ltb_true, ?ltb_false in *; qcase; lra.
Qed.

Lemma nbr_score_range (v : Q) : 0 <= (nbr_score_of v).1 <= 1.
Proof.
  unfold nbr_score_of. pose proof (Qabs_nonneg v) as Habs.
  destruct (Py.ltb v (-0.1)) eqn:H1; [|destruct (Py.ltb v 0.1) eqn:H2];
    cbn [fst]; qcase; lra.
Qed.

Lemma burn_score_range (v : Q) : 0 <= (burn_score_of v).1 <= 1.
Proof.
  unfold burn_score_of, BURN_INDEX_THRESHOLD.
  destruct (Py.gtb v 0.3) eqn:H1; [|destruct (Py.gtb v 0.15) eqn:H2];
    cbn [fst]; rewrite ?gtb_true, ?gtb_false in *; qcase; lra.
Qed.

(** Lower NDVI never yields a lower score. *)
Lemma ndvi_score_antitone (x y : Q) :
  x <= y -> (ndvi_score_of y).1 <= (ndvi_score_of x).1.
Proof.
  intros Hxy. unfold ndvi_score_of.
  destruct (Py.ltb x 0.2) eqn:Hx1; [|destruct (Py.ltb x 0.4) eqn:Hx2];
    (destruct (Py.ltb y 0.2) eqn:Hy1; [|destruct (Py.ltb y 0.4) eqn:Hy2]);
    cbn [fst]; rewrite ?ltb_true, ?ltb_false in *; qcase; lra.
Qed.

(** More negative NBR never yields a lower score. *)
Lemma nbr_score_antitone (x y : Q) :
  x <= y -> (nbr_score_of y).1 <= (nbr_score_of x).1.
Proof.
  intros Hxy. unfold nbr_score_of.
  pose proof (Qabs_nonneg x) as Hax. pose proof (Qabs_nonneg y) as Hay.
  pose proof (Qabs_neg x) as Hnx. pose proof (Qabs_neg y) as Hny.
  destruct (Py.ltb x (-0.1)) eqn:Hx1; [|destruct (Py.ltb x 0.1) eqn:Hx2];
    (destruct (Py.ltb y (-0.1)) eqn:Hy1; [|destruct (Py.ltb y 0.1) eqn:Hy2]);
    cbn [fst]; rewrite ?ltb_true, ?ltb_false in *;
    try (specialize (Hnx ltac:(lra))); try (specialize (Hny ltac:(lra)));
    qcase; lra.
Qed.

(** C6, at the failing input.  The NDVI and NBR sub-scores are monotone
    as claimed, but the burn-index sub-score is not: at the threshold 0.3
    the "elevated" branch gives [0.3 * 2 = 0.6], just above it the "high"
    branch gives [0.31 * 1.5 = 0.465]. *)
Theorem burn_score_drops_above_threshold :
  (forall x y, x <= y -> (ndvi_score_of y).1 <= (ndvi_score_of x).1)
  /\ (forall x y, x <= y -> (nbr_score_of y).1 <= (nbr_score_of x).1)
  /\ 0.3 <= 0.31
  /\ (burn_score_of 0.3).1 == 0.6
  /\ (burn_score_of 0.31).1 == 0.465
  /\ ~ (burn_score_of 0.3).1 <= (burn_score_of 0.31).1.
Proof.
  split; [exact ndvi_score_antitone|].
  split; [exact nbr_score_antitone|].
  split; [lra|]. split; [reflexivity|]. split; [reflexivity|].
  vm_compute. intros H. apply H. reflexivity.
Qed.

(** ** Alert density and sentiment scores *)

Lemma density_score_range (cosd : Q -> Q) (glad_alerts : list GLADAlert)
    (radd_alerts : list RADDAlert) (fires : list FireEvent)
    (bbox : Q * Q * Q * Q) :
  0 <= (calculate_alert_density_score cosd glad_alerts radd_alerts fires bbox).1
    <= 1.
Proof.
  unfold calculate_alert_density_score.
  destruct (_ =? 0)%nat; [cbn [fst]; lra|].
  destruct bbox as [[[lon0 lat0] lon1] lat1].
  set (area := (lon1 - lon0) * 111 * Qabs (cosd ((lat0 + lat1) / 2))
               * ((lat1 - lat0) * 111)).
  destruct (Py.leb area 0) eqn:Harea; [cbn [fst]; lra|].
  apply leb_false in Harea.
  set (total := inject_Z (Z.of_nat _)).
  assert (Htotal : 0 <= total).
  { unfold total. change 0 with (inject_Z 0). rewrite <- Zle_Qle. lia. }
  assert (Hd : 0 <= total / area * 100).
  { assert (0 <= total / area) by (apply Qle_shift_div_l; [exact Harea|lra]).
    lra. }
  set (density := total / area * 100) in *.
  destruct (Py.gtb density 50) eqn:H1;
    [|destruct (Py.gtb density 20) eqn:H2;
      [|destruct (Py.gtb density 5) eqn:H3]];
    cbn [fst]; rewrite ?gtb_true, ?gtb_false in *; qcase; lra.
Qed.

Lemma sentiment_score_le_1 (sentiment : option CombinedSentiment) :
  (calculate_sentiment_score sentiment).1 <= 1.
Proof.
  unfold calculate_sentiment_score.
  destruct sentiment as [s|]; [|cbn [fst]; lra].
  destruct (Py.ltb (final_score s) (-0.3));
    [|destruct (Py.ltb (final_score s) 0);
      [|destruct (Py.ltb (final_score s) 0.2)]];
    cbn [fst]; apply min_le_l.
Qed.

Lemma sentinel_scores_shape (sentinel : option SentinelEvidence) :
  exists n b u,
    calculate_sentinel_scores sentinel = [("ndvi", n); ("nbr", b); ("burn", u)]
    /\ 0 <= n.1 <= 1 /\ 0 <= b.1 <= 1 /\ 0 <= u.1 <= 1.
Proof.
  unfold calculate_sentinel_scores.
  destruct sentinel as [s|].
  - do 3 eexists. split; [reflexivity|].
    split; [|split].
    + destruct (ndvi s); [apply ndvi_score_range|cbn [fst]; lra].
    + destruct (nbr s); [apply nbr_score_range|cbn [fst]; lra].
    + destruct (burn_index s); [apply burn_score_range|cbn [fst]; lra].
  - do 3 eexists. split; [reflexivity|]. cbn [fst]. lra.
Qed.

(** ** Evidence chains *)

(** The links of a chain: one per category of positive score, weighted by
    the category weight. *)
Lemma chain_links_weights (suspect : Company)
    (s1 : Q) (d1 : list ProximityDetail) (s2 : Q) (d2 : list Correlation)
    (ss : list (string * (Q * Py.fstring)))
    (s6 : Q) (e6 : Py.fstring) (s7 : Q) (e7 : Py.fstring) :
  map (fun l => (evidence_type l, weight l))
      (links (build_evidence_chain suspect s1 d1 s2 d2 ss s6 e6 s7 e7))
  = map (fun c => (c.1, c.2 * WEIGHTS_at c.1))
        (List.filter (fun c => Py.gtb c.2 0) (category_scores s1 s2 ss s6 s7)).
Proof.
  unfold build_evidence_chain, category_scores.
  destruct (default _ (dict_get ss "ndvi")) as [s3 e3].
  destruct (default _ (dict_get ss "nbr")) as [s4 e4].
  destruct (default _ (dict_get ss "burn")) as [s5 e5].
  cbn [links List.filter fst snd].
  destruct (Py.gtb s1 0), (Py.gtb s2 0), (Py.gtb s3 0), (Py.gtb s4 0),
    (Py.gtb s5 0), (Py.gtb s6 0), (Py.gtb s7 0); reflexivity.
Qed.

Lemma chain_total_weight (suspect : Company)
    (s1 : Q) (d1 : list ProximityDetail) (s2 : Q) (d2 : list Correlation)
    (ss : list (string * (Q * Py.fstring)))
    (s6 : Q) (e6 : Py.fstring) (s7 : Q) (e7 : Py.fstring) :
  let c := build_evidence_chain suspect s1 d1 s2 d2 ss s6 e6 s7 e7 in
  total_weight c = Py.round (Py.sum (map weight (links c))) 3.
Proof.
  cbn zeta. unfold build_evidence_chain.
  destruct (default _ (dict_get ss "ndvi")) as [s3 e3].
  destruct (default _ (dict_get ss "nbr")) as [s4 e4].
  destruct (default _ (dict_get ss "burn")) as [s5 e5].
  reflexivity.
Qed.

(** A sum of [score * weight] over the categories of positive score is
    bounded by the sum of the weights, for scores at most 1. *)
Lemma weighted_sum_bounds (cats : list (string * Q)) :
  Forall (fun c => c.2 <= 1 /\ 0 <= WEIGHTS_at c.1) cats ->
  0 <= Py.sum (map (fun c => c.2 * WEIGHTS_at c.1)
                 (List.filter (fun c => Py.gtb c.2 0) cats))
  /\ Py.sum (map (fun c => c.2 * WEIGHTS_at c.1)
               (List.filter (fun c => Py.gtb c.2 0) cats))
     <= Py.sum (map (fun c => WEIGHTS_at c.1) cats).
Proof.
  induction 1 as [|c cats [Hs Hw] _ IH].
  - unfold Py.sum; simpl. lra.
  - cbn [List.filter map]. rewrite sum_cons.
    destruct (Py.gtb c.2 0) eqn:Hpos.
    + apply gtb_true in Hpos. cbn [map]. rewrite sum_cons.
      set (w := WEIGHTS_at c.1) in *. nra.
    + lra.
Qed.

Lemma chain_link_weights_sum (suspect : Company)
    (s1 : Q) (d1 : list ProximityDetail) (s2 : Q) (d2 : list Correlation)
    (ss : list (string * (Q * Py.fstring)))
    (s6 : Q) (e6 : Py.fstring) (s7 : Q) (e7 : Py.fstring) :
  map weight (links (build_evidence_chain suspect s1 d1 s2 d2 ss s6 e6 s7 e7))
  = map (fun c => c.2 * WEIGHTS_at c.1)
        (List.filter (fun c => Py.gtb c.2 0) (category_scores s1 s2 ss s6 s7)).
Proof.
  pose proof (chain_links_weights suspect s1 d1 s2 d2 ss s6 e6 s7 e7) as H.
  apply (f_equal (map snd)) in H. rewrite !map_map in H. exact H.
Qed.

Lemma category_weights_sum (s1 s2 : Q) (ss : list (string * (Q * Py.fstring)))
    (s6 s7 : Q) :
  Py.sum (map (fun c => WEIGHTS_at c.1) (category_scores s1 s2 ss s6 s7)) == 1.
Proof. unfold category_scores. cbn [map fst]. reflexivity. Qed.

Lemma category_weights_nonneg (s1 s2 : Q)
    (ss : list (string * (Q * Py.fstring))) (s6 s7 : Q) :
  Forall (fun c => 0 <= WEIGHTS_at c.1) (category_scores s1 s2 ss s6 s7).
Proof.
  unfold category_scores.
  repeat (apply Forall_cons; [cbn [fst]; vm_compute; discriminate|]).
  apply Forall_nil.
Qed.

(** The rounded sum of link weights lies in [0, 1] as soon as no category
    score exceeds 1. *)
Lemma chain_total_weight_range (suspect : Company)
    (s1 : Q) (d1 : list ProximityDetail) (s2 : Q) (d2 : list Correlation)
    (ss : list (string * (Q * Py.fstring)))
    (s6 : Q) (e6 : Py.fstring) (s7 : Q) (e7 : Py.fstring) :
  Forall (fun c => c.2 <= 1) (category_scores s1 s2 ss s6 s7) ->
  let c := build_evidence_chain suspect s1 d1 s2 d2 ss s6 e6 s7 e7 in
  0 <= Py.sum (map weight (links c)) <= 1 /\ 0 <= total_weight c <= 1.
Proof.
  intros Hs. cbn zeta. rewrite chain_total_weight. cbn zeta.
  rewrite chain_link_weights_sum.
  assert (Hall : Forall (fun c : string * Q => c.2 <= 1 /\ 0 <= WEIGHTS_at c.1)
                   (category_scores s1 s2 ss s6 s7)).
  { pose proof (category_weights_nonneg s1 s2 ss s6 s7) as Hw.
    rewrite List.Forall_forall in *. intros c Hc. split; auto. }
  destruct (weighted_sum_bounds _ Hall) as [Hlo Hhi].
  rewrite category_weights_sum in Hhi.
  split; [split; assumption|].
  split; [apply (round_lower _ 0) | apply (round_upper _ 1)]; assumption.
Qed.

(** C10.  For category scores in [0, 1] the chain has one link per
    category of positive score, of weight score times category weight;
    the seven category weights sum to 1; [total_weight] is the sum of the
    link weights rounded to three decimals, and lies in [0, 1]. *)
Theorem chain_total_weight_in_unit_interval (suspect : Company)
    (s1 : Q) (d1 : list ProximityDetail) (s2 : Q) (d2 : list Correlation)
    (ss : list (string * (Q * Py.fstring)))
    (s6 : Q) (e6 : Py.fstring) (s7 : Q) (e7 : Py.fstring) :
  Forall (fun c => 0 <= c.2 <= 1) (category_scores s1 s2 ss s6 s7) ->
  let c := build_evidence_chain suspect s1 d1 s2 d2 ss s6 e6 s7 e7 in
  map (fun l => (evidence_type l, weight l)) (links c)
  = map (fun c => (c.1, c.2 * WEIGHTS_at c.1))
        (List.filter (fun c => Py.gtb c.2 0) (category_scores s1 s2 ss s6 s7))
  /\ Py.sum (map snd WEIGHTS) == 1
  /\ total_weight c = Py.round (Py.sum (map weight (links c))) 3
  /\ 0 <= Py.sum (map weight (links c)) <= 1
  /\ 0 <= total_weight c <= 1.
Proof.
  intros Hs. cbn zeta.
  split; [apply chain_links_weights|].
  split; [reflexivity|].
  split; [apply chain_total_weight|].
  apply chain_total_weight_range.
  eapply Forall_impl; [|exact Hs]. intros c [_ H]. exact H.
Qed.

(** ** The suspect-independent scores and the confidence aggregator *)

Section AggregatorProperties.

Variable hav : Q -> Q -> Q -> Q -> Q.
Variable cosd : Q -> Q.

(** The engine always has its five base scores: the division by the
    window cannot fail, the window being 14. *)
Lemma base_scores_total (aoi : Q * Q * Q * Q)
    (glad_alerts : list GLADAlert) (radd_alerts : list RADDAlert)
    (fires : list FireEvent) (sentinel : option SentinelEvidence)
    (infra : list InfrastructureNode) (sentiment : option CombinedSentiment) :
  let deforestation := map AGlad glad_alerts ++ map ARadd radd_alerts in
  let matches := temporal_matches TEMPORAL_WINDOW_DAYS fires deforestation in
  base_scores hav cosd aoi glad_alerts radd_alerts fires sentinel infra sentiment
  = Some (mkBase
            (calculate_spatial_proximity_score hav infra
               (deforestation ++ map AFire fires)
               (inject_Z MAX_PROXIMITY_DISTANCE_M))
            (temporal_score_recorded TEMPORAL_WINDOW_DAYS matches,
             map (correlation_of TEMPORAL_WINDOW_DAYS) matches)
            (calculate_sentinel_scores sentinel)
            (calculate_alert_density_score cosd glad_alerts radd_alerts fires aoi)
            (calculate_sentiment_score sentiment)).
Proof.
  cbn zeta. unfold base_scores.
  rewrite temporal_score_unfold by (unfold TEMPORAL_WINDOW_DAYS; lia).
  reflexivity.
Qed.

Lemma correlate_events_total (aoi : Q * Q * Q * Q) (timeframe : Z * Z)
    (hansen : option HansenStats)
    (glad_alerts : list GLADAlert) (radd_alerts : list RADDAlert)
    (fires : list FireEvent) (sentinel : option SentinelEvidence)
    (infra : list InfrastructureNode) (suspects : list Company)
    (sentiment : option CombinedSentiment) :
  exists b,
    base_scores hav cosd aoi glad_alerts radd_alerts fires sentinel infra
      sentiment = Some b
    /\ correlate_events hav cosd aoi timeframe hansen glad_alerts radd_alerts
         fires sentinel infra suspects sentiment
       = Some
           (sort_by_total_weight_reverse
              (map (chain_for hav infra
                      ((map AGlad glad_alerts ++ map ARadd radd_alerts)
                       ++ map AFire fires) b)
                 suspects),
            Py.round
              (Py.min 100
                 (base_confidence_of hansen glad_alerts radd_alerts fires
                    sentinel infra sentiment b)) 1).
Proof.
  eexists. split; [apply base_scores_total|].
  unfold correlate_events. rewrite base_scores_total. reflexivity.
Qed.

Lemma base_scores_ranges (aoi : Q * Q * Q * Q)
    (glad_alerts : list GLADAlert) (radd_alerts : list RADDAlert)
    (fires : list FireEvent) (sentinel : option SentinelEvidence)
    (infra : list InfrastructureNode) (sentiment : option CombinedSentiment)
    (b : BaseScores) :
  base_scores hav cosd aoi glad_alerts radd_alerts fires sentinel infra sentiment
  = Some b ->
  0 <= (b_spatial b).1 <= 1
  /\ 0 <= (b_temporal b).1 <= 1
  /\ 0 <= (b_density b).1 <= 1
  /\ (b_sentiment b).1 <= 1
  /\ exists n d u,
       b_sentinel b = [("ndvi", n); ("nbr", d); ("burn", u)]
       /\ 0 <= n.1 <= 1 /\ 0 <= d.1 <= 1 /\ 0 <= u.1 <= 1.
Proof.
  rewrite base_scores_total. intros [= <-]. cbn [b_spatial b_temporal b_density
    b_sentiment b_sentinel fst].
  split; [apply spatial_score_range|].
  split; [apply temporal_score_recorded_range; unfold TEMPORAL_WINDOW_DAYS; lia|].
  split; [apply density_score_range|].
  split; [apply sentiment_score_le_1|].
  apply sentinel_scores_shape.
Qed.

Lemma fold_add_sum {A : Type} (f : A -> Q) (l : list A) (a : Q) :
  fold_left (fun acc item => acc + f item) l a == a + Py.sum (map f l).
Proof.
  revert a. induction l as [|x l IH]; intros a.
  - unfold Py.sum; simpl. lra.
  - cbn [fold_left map]. rewrite IH, sum_cons. lra.
Qed.

(** The base confidence is the sum of the presence bonuses and of the
    score-weighted contributions. *)
Lemma base_confidence_split
    (hansen : option HansenStats)
    (glad_alerts : list GLADAlert) (radd_alerts : list RADDAlert)
    (fires : list FireEvent) (sentinel : option SentinelEvidence)
    (infra : list InfrastructureNode) (sentiment : option CombinedSentiment)
    (b : BaseScores) :
  base_confidence_of hansen glad_alerts radd_alerts fires sentinel infra
    sentiment b
  == presence_bonuses hansen glad_alerts radd_alerts fires sentinel infra
       sentiment
     + weighted_contributions b.
Proof.
  unfold base_confidence_of, presence_bonuses, weighted_contributions.
  rewrite fold_add_sum.
  destruct (nonempty glad_alerts || nonempty radd_alerts), (nonempty fires),
    (nonempty infra), sentiment as [c|], hansen as [h|], sentinel as [s|];
    try destruct (Py.gtb (total_loss_ha h) 0);
    try destruct (Py.truthy_opt_float (ndvi s) || Py.truthy_opt_float (nbr s));
    lra.
Qed.

Lemma presence_bonuses_range
    (hansen : option HansenStats)
    (glad_alerts : list GLADAlert) (radd_alerts : list RADDAlert)
    (fires : list FireEvent) (sentinel : option SentinelEvidence)
    (infra : list InfrastructureNode) (sentiment : option CombinedSentiment) :
  0 <= presence_bonuses hansen glad_alerts radd_alerts fires sentinel infra
         sentiment <= 65.
Proof.
  unfold presence_bonuses.
  destruct (nonempty glad_alerts || nonempty radd_alerts), (nonempty fires),
    (nonempty infra), sentiment as [c|], hansen as [h|], sentinel as [s|];
    try destruct (Py.gtb (total_loss_ha h) 0);
    try destruct (Py.truthy_opt_float (ndvi s) || Py.truthy_opt_float (nbr s));
    lra.
Qed.

End AggregatorProperties.

Lemma weighted_contributions_unfold
    (hav : Q -> Q -> Q -> Q -> Q) (cosd : Q -> Q) (aoi : Q * Q * Q * Q)
    (glad_alerts : list GLADAlert) (radd_alerts : list RADDAlert)
    (fires : list FireEvent) (sentinel : option SentinelEvidence)
    (infra : list InfrastructureNode) (sentiment : option CombinedSentiment)
    (b : BaseScores) :
  base_scores hav cosd aoi glad_alerts radd_alerts fires sentinel infra sentiment
  = Some b ->
  exists n d u,
    b_sentinel b = [("ndvi", n); ("nbr", d); ("burn", u)]
    /\ weighted_contributions b
       == (b_spatial b).1 * 15 + (b_temporal b).1 * 10 + (b_density b).1 * 10
          + (n.1 * 5 + (d.1 * 5 + u.1 * 5))
    /\ 0 <= weighted_contributions b.
Proof.
  intros Hb.
  destruct (base_scores_ranges hav cosd _ _ _ _ _ _ _ b Hb)
    as (Hs & Ht & Hd & _ & n & d & u & Hsen & Hn & Hnb & Hu).
  exists n, d, u. split; [exact Hsen|].
  assert (Hw : weighted_contributions b
               == (b_spatial b).1 * 15 + (b_temporal b).1 * 10
                  + (b_density b).1 * 10 + (n.1 * 5 + (d.1 * 5 + u.1 * 5))).
  { unfold weighted_contributions. rewrite Hsen. cbn [map fst snd].
    rewrite !sum_cons. change (Py.sum []) with 0. lra. }
  split; [exact Hw|lra].
Qed.

(** The reported confidence lies in [0, 100]. *)
Lemma reported_confidence_range
    (hav : Q -> Q -> Q -> Q -> Q) (cosd : Q -> Q) (aoi : Q * Q * Q * Q)
    (hansen : option HansenStats)
    (glad_alerts : list GLADAlert) (radd_alerts : list RADDAlert)
    (fires : list FireEvent) (sentinel : option SentinelEvidence)
    (infra : list InfrastructureNode) (sentiment : option CombinedSentiment)
    (b : BaseScores) :
  base_scores hav cosd aoi glad_alerts radd_alerts fires sentinel infra sentiment
  = Some b ->
  0 <= Py.round
         (Py.min 100
            (base_confidence_of hansen glad_alerts radd_alerts fires sentinel
               infra sentiment b)) 1
    <= 100.
Proof.
  intros Hb.
  pose proof (base_confidence_split hansen glad_alerts radd_alerts fires sentinel
                infra sentiment b) as Hsplit.
  destruct (weighted_contributions_unfold hav cosd _ _ _ _ _ _ _ b Hb)
    as (n & d & u & _ & _ & Hw).
  pose proof (presence_bonuses_range hansen glad_alerts radd_alerts fires
                sentinel infra sentiment) as Hp.
  split.
  - apply (round_lower _ 0). change (inject_Z 0) with 0. apply min_glb; lra.
  - apply (round_upper _ 100). apply min_le_l.
Qed.

(** C1.  For every evidence bundle [correlate_events] returns, and the
    confidence it returns lies in [0, 100]; when every presence bonus
    applies and every category score is 1 the uncapped base is 115 and the
    confidence returned is 100. *)
Theorem confidence_score_in_range
    (hav : Q -> Q -> Q -> Q -> Q) (cosd : Q -> Q)
    (aoi : Q * Q * Q * Q) (timeframe : Z * Z)
    (hansen : option HansenStats)
    (glad_alerts : list GLADAlert) (radd_alerts : list RADDAlert)
    (fires : list FireEvent) (sentinel : option SentinelEvidence)
    (infra : list InfrastructureNode) (suspects : list Company)
    (sentiment : option CombinedSentiment) :
  exists b chains conf,
    base_scores hav cosd aoi glad_alerts radd_alerts fires sentinel infra
      sentiment = Some b
    /\ correlate_events hav cosd aoi timeframe hansen glad_alerts radd_alerts
         fires sentinel infra suspects sentiment = Some (chains, conf)
    /\ 0 <= conf <= 100
    /\ (every_bonus_applies hansen glad_alerts radd_alerts fires sentinel infra
          sentiment = true ->
        every_score_is_one b ->
        base_confidence_of hansen glad_alerts radd_alerts fires sentinel infra
          sentiment b == 115
        /\ conf == 100).
Proof.
  destruct (correlate_events_total hav cosd aoi timeframe hansen glad_alerts
              radd_alerts fires sentinel infra suspects sentiment)
    as (b & Hb & Hc).
  exists b. do 2 eexists. split; [exact Hb|]. split; [exact Hc|].
  split; [apply (reported_confidence_range hav cosd aoi); exact Hb|].
  pose proof (base_confidence_split hansen glad_alerts radd_alerts fires sentinel
                infra sentiment b) as Hsplit.
  set (base := base_confidence_of hansen glad_alerts radd_alerts fires sentinel
                 infra sentiment b) in *.
  destruct (weighted_contributions_unfold hav cosd _ _ _ _ _ _ _ b Hb)
    as (n & d & u & Hsen & Hw & _).
  intros Hall (H1 & H2 & H3 & H4).
  rewrite Hsen in H4.
  apply Forall_cons_iff in H4 as [Hn1 H4].
  apply Forall_cons_iff in H4 as [Hd1 H4].
  apply Forall_cons_iff in H4 as [Hu1 _]. cbn [fst snd] in Hn1, Hd1, Hu1.
  assert (Hp : presence_bonuses hansen glad_alerts radd_alerts fires sentinel
                 infra sentiment == 65).
  { unfold every_bonus_applies in Hall.
    repeat (apply andb_true_iff in Hall as [Hall ?]).
    unfold presence_bonuses.
    destruct sentinel as [s|]; [|discriminate].
    destruct hansen as [h|]; [|discriminate].
    destruct sentiment as [c|]; [|discriminate].
    repeat match goal with
           | H : ?c = true |- context [if ?c then _ else _] => rewrite H
           end.
    lra. }
  assert (Hbase : base == 115) by lra.
  split; [exact Hbase|].
  unfold Py.min. destruct (Qlt_le_dec base 100); [lra|]. reflexivity.
Qed.

(** C1, instance: the full bundle reaches the uncapped base of 115 and is
    reported with confidence 100. *)
Lemma confidence_score_in_range_witness :
  exists b chains conf,
    base_scores Sample.flat_distance Sample.flat_cos Sample.full_aoi
      Sample.full_glad [] Sample.full_fires Sample.full_sentinel
      [Sample.factory] Sample.full_sentiment = Some b
    /\ correlate_events Sample.flat_distance Sample.flat_cos Sample.full_aoi
         (0%Z, 0%Z) Sample.full_hansen Sample.full_glad [] Sample.full_fires
         Sample.full_sentinel [Sample.factory] [mkCompany "Test Factory"]
         Sample.full_sentiment = Some (chains, conf)
    /\ every_bonus_applies Sample.full_hansen Sample.full_glad []
         Sample.full_fires Sample.full_sentinel [Sample.factory]
         Sample.full_sentiment = true
    /\ every_score_is_one b
    /\ base_confidence_of Sample.full_hansen Sample.full_glad []
         Sample.full_fires Sample.full_sentinel [Sample.factory]
         Sample.full_sentiment b == 115
    /\ conf == 100.
Proof.
  destruct (confidence_score_in_range Sample.flat_distance Sample.flat_cos
              Sample.full_aoi (0%Z, 0%Z) Sample.full_hansen Sample.full_glad []
              Sample.full_fires Sample.full_sentinel [Sample.factory]
              [mkCompany "Test Factory"] Sample.full_sentiment)
    as (b & chains & conf & Hb & Hc & _ & Hfull).
  exists b, chains, conf.
  assert (Hbonus : every_bonus_applies Sample.full_hansen Sample.full_glad []
                     Sample.full_fires Sample.full_sentinel [Sample.factory]
                     Sample.full_sentiment = true) by (vm_compute; reflexivity).
  assert (Hone : every_score_is_one b).
  { vm_compute in Hb. injection Hb as <-.
    unfold every_score_is_one. cbn [b_spatial b_temporal b_density b_sentinel fst].
    repeat split; try reflexivity.
    repeat (apply Forall_cons; [reflexivity|]). apply Forall_nil. }
  split; [exact Hb|]. split; [exact Hc|]. split; [exact Hbonus|].
  split; [exact Hone|]. exact (Hfull Hbonus Hone).
Defined.

(** C4, at the failing input.  The base confidence is the sum of the
    presence bonuses and the weighted scores, and the bonuses for alerts,
    fires, forest loss, infrastructure and sentiment are as claimed; but
    the imagery bonus tests the truth value of [ndvi] and [nbr], so for
    imagery whose NDVI is exactly 0.0 (a present field, scored 0.9 by
    [calculate_sentinel_scores]) no 15 is added: the confidence of that
    bundle is 0.9 * 5 = 4.5 instead of 19.5. *)
Theorem imagery_bonus_skipped_for_zero_ndvi :
  (forall hansen glad_alerts radd_alerts fires sentinel infra sentiment b,
      base_confidence_of hansen glad_alerts radd_alerts fires sentinel infra
        sentiment b
      == presence_bonuses hansen glad_alerts radd_alerts fires sentinel infra
           sentiment
         + weighted_contributions b)
  /\ imagery_present Sample.zero_ndvi = true
  /\ (exists n,
         dict_get (calculate_sentinel_scores Sample.zero_ndvi) "ndvi" = Some n
         /\ n.1 == 0.9)
  /\ presence_bonuses None [] [] [] Sample.zero_ndvi [] None == 0
  /\ forall hav cosd aoi timeframe,
       exists conf,
         correlate_events hav cosd aoi timeframe None [] [] []
           Sample.zero_ndvi [] [] None = Some ([], conf)
         /\ conf == 4.5.
Proof.
  split; [intros; apply base_confidence_split|].
  split; [reflexivity|].
  split; [eexists; split; [reflexivity|reflexivity]|].
  split; [reflexivity|].
  intros hav cosd aoi timeframe. eexists. split.
  - unfold correlate_events, base_scores. cbn. reflexivity.
  - vm_compute. reflexivity.
Qed.

(** C10, instance: with every category score equal to 1 the seven links
    weigh 1 in total. *)
Lemma chain_total_weight_in_unit_interval_witness :
  let c :=
    build_evidence_chain (mkCompany "Test Factory") 1 [] 1 []
      Sample.unit_sentinel_scores 1 (Py.FString "" []) 1 (Py.FString "" []) in
  length (links c) = 7%nat /\ 0 <= total_weight c <= 1 /\ total_weight c == 1.
Proof.
  cbn zeta. split; [reflexivity|]. split; [|reflexivity].
  apply (chain_total_weight_in_unit_interval (mkCompany "Test Factory") 1 [] 1 []
           Sample.unit_sentinel_scores 1 (Py.FString "" []) 1 (Py.FString "" [])).
  unfold category_scores.
  repeat (apply Forall_cons; [cbn; lra|]). apply Forall_nil.
Defined.

(** ** Ranking of the chains *)

Lemma place_perm (c : EvidenceChain) (l : list EvidenceChain) :
  Permutation (c :: l) (place c l).
Proof.
  induction l as [|x l IH]; cbn [place]; [reflexivity|].
  destruct (Py.gtb (total_weight x) (total_weight c)); [|reflexivity].
  rewrite perm_swap. apply perm_skip. exact IH.
Qed.

Lemma sort_perm (l : list EvidenceChain) :
  Permutation l (sort_by_total_weight_reverse l).
Proof.
  induction l as [|c l IH]; cbn [sort_by_total_weight_reverse fold_right];
    [reflexivity|].
  rewrite <- place_perm. apply perm_skip. exact IH.
Qed.

Lemma place_sorted (c : EvidenceChain) (l : list EvidenceChain) :
  StronglySorted by_weight_desc l -> StronglySorted by_weight_desc (place c l).
Proof.
  induction 1 as [|x l Hl IH Hx]; cbn [place].
  - repeat constructor.
  - destruct (Py.gtb (total_weight x) (total_weight c)) eqn:Hc.
    + apply gtb_true in Hc. constructor; [exact IH|].
      apply (Permutation_Forall (place_perm c l)).
      constructor; [unfold by_weight_desc; lra|exact Hx].
    + apply gtb_false in Hc. constructor; [constructor; assumption|].
      constructor; [exact Hc|].
      eapply Forall_impl; [|exact Hx].
      unfold by_weight_desc. intros y Hy. lra.
Qed.

Lemma sort_sorted (l : list EvidenceChain) :
  StronglySorted by_weight_desc (sort_by_total_weight_reverse l).
Proof.
  induction l as [|c l IH]; cbn [sort_by_total_weight_reverse fold_right].
  - constructor.
  - apply place_sorted. exact IH.
Qed.

(** Chains of one weight keep their order when a chain is placed. *)
Lemma place_stable (w : Q) (c : EvidenceChain) (l : list EvidenceChain) :
  List.filter (fun x => Qeq_bool (total_weight x) w) (place c l)
  = List.filter (fun x => Qeq_bool (total_weight x) w) (c :: l).
Proof.
  induction l as [|x l IH]; cbn [place]; [reflexivity|].
  destruct (Py.gtb (total_weight x) (total_weight c)) eqn:Hc; [|reflexivity].
  apply gtb_true in Hc.
  cbn [List.filter] in *. rewrite IH.
  destruct (Qeq_bool (total_weight c) w) eqn:Hcw; [|reflexivity].
  destruct (Qeq_bool (total_weight x) w) eqn:Hxw; [|reflexivity].
  apply Qeq_bool_iff in Hcw, Hxw. lra.
Qed.

Lemma sort_stable (w : Q) (l : list EvidenceChain) :
  List.filter (fun x => Qeq_bool (total_weight x) w)
    (sort_by_total_weight_reverse l)
  = List.filter (fun x => Qeq_bool (total_weight x) w) l.
Proof.
  induction l as [|c l IH]; cbn [sort_by_total_weight_reverse fold_right];
    [reflexivity|].
  rewrite place_stable. cbn [List.filter].
  fold (sort_by_total_weight_reverse l). rewrite IH. reflexivity.
Qed.

(** C9.  [correlate_events] returns the chains of the suspects sorted by
    descending [total_weight], and chains of equal [total_weight] are in
    the order of their suspects in the input list. *)
Theorem evidence_chains_sorted_stable
    (hav : Q -> Q -> Q -> Q -> Q) (cosd : Q -> Q)
    (aoi : Q * Q * Q * Q) (timeframe : Z * Z)
    (hansen : option HansenStats)
    (glad_alerts : list GLADAlert) (radd_alerts : list RADDAlert)
    (fires : list FireEvent) (sentinel : option SentinelEvidence)
    (infra : list InfrastructureNode) (suspects : list Company)
    (sentiment : option CombinedSentiment) :
  exists b chains conf,
    base_scores hav cosd aoi glad_alerts radd_alerts fires sentinel infra
      sentiment = Some b
    /\ correlate_events hav cosd aoi timeframe hansen glad_alerts radd_alerts
         fires sentinel infra suspects sentiment = Some (chains, conf)
    /\ let damage :=
         (map AGlad glad_alerts ++ map ARadd radd_alerts) ++ map AFire fires in
       let built := map (chain_for hav infra damage b) suspects in
       Permutation built chains
       /\ map suspect built = suspects
       /\ StronglySorted (fun x y => total_weight y <= total_weight x) chains
       /\ forall w,
            List.filter (fun x => Qeq_bool (total_weight x) w) chains
            = List.filter (fun x => Qeq_bool (total_weight x) w) built.
Proof.
  destruct (correlate_events_total hav cosd aoi timeframe hansen glad_alerts
              radd_alerts fires sentinel infra suspects sentiment)
    as (b & Hb & Hc).
  exists b. do 2 eexists. split; [exact Hb|]. split; [exact Hc|].
  cbn zeta. split; [apply sort_perm|].
  split.
  - rewrite map_map. rewrite <- (map_id suspects) at 2.
    apply map_ext. intros s. unfold chain_for.
    destruct (suspect_spatial_score _ _ _ _ _) as [sp dt].
    unfold build_evidence_chain.
    destruct (default _ (dict_get (b_sentinel b) "ndvi")).
    destruct (default _ (dict_get (b_sentinel b) "nbr")).
    destruct (default _ (dict_get (b_sentinel b) "burn")).
    reflexivity.
  - split; [apply sort_sorted|]. intros w. apply sort_stable.
Qed.

(** ** Attribution of infrastructure to suspects *)

Lemma suspect_matches_iff (s : Company) (n : InfrastructureNode) :
  suspect_matches s n = true
  <-> node_name n = Some (company_name s)
      \/ tags n !! "operator" = Some (company_name s)
      \/ tags n !! "company" = Some (company_name s).
Proof.
  unfold suspect_matches.
  rewrite !orb_true_iff, !bool_decide_eq_true. tauto.
Qed.

(** The links of a chain are an optional spatial link followed by links
    that depend neither on the spatial score nor on the suspect. *)
Lemma chain_links_split (who other : Company)
    (s1 : Q) (d1 : list ProximityDetail) (s2 : Q) (d2 : list Correlation)
    (ss : list (string * (Q * Py.fstring)))
    (s6 : Q) (e6 : Py.fstring) (s7 : Q) (e7 : Py.fstring) :
  let shared :=
    links (build_evidence_chain other 0 [] s2 d2 ss s6 e6 s7 e7) in
  exists head,
    links (build_evidence_chain who s1 d1 s2 d2 ss s6 e6 s7 e7) = head ++ shared
    /\ Forall (fun l => is_spatial_link l = true) head
    /\ Forall (fun l => is_spatial_link l = false) shared.
Proof.
  cbn zeta. unfold build_evidence_chain.
  destruct (default _ (dict_get ss "ndvi")) as [s3 e3].
  destruct (default _ (dict_get ss "nbr")) as [s4 e4].
  destruct (default _ (dict_get ss "burn")) as [s5 e5].
  cbn [links]. change (Py.gtb 0 0) with false. cbv iota.
  destruct (Py.gtb s1 0); [eexists [_] | exists []];
    destruct (Py.gtb s2 0), (Py.gtb s3 0), (Py.gtb s4 0), (Py.gtb s5 0),
      (Py.gtb s6 0), (Py.gtb s7 0);
    (split; [reflexivity|]);
    (split; repeat (apply Forall_cons; [reflexivity|]); apply Forall_nil).
Qed.

Lemma filter_none {A : Type} (f : A -> bool) (l : list A) :
  Forall (fun x => f x = true) l -> List.filter (fun x => negb (f x)) l = [].
Proof.
  induction 1 as [|x l Hx _ IH]; cbn [List.filter]; [reflexivity|].
  rewrite Hx. exact IH.
Qed.

Lemma filter_all {A : Type} (f : A -> bool) (l : list A) :
  Forall (fun x => f x = false) l -> List.filter (fun x => negb (f x)) l = l.
Proof.
  induction 1 as [|x l Hx _ IH]; cbn [List.filter]; [reflexivity|].
  rewrite Hx. cbn [negb]. rewrite IH. reflexivity.
Qed.

Lemma chain_shared_links (who who' : Company)
    (s1 s1' : Q) (d1 d1' : list ProximityDetail)
    (s2 : Q) (d2 : list Correlation)
    (ss : list (string * (Q * Py.fstring)))
    (s6 : Q) (e6 : Py.fstring) (s7 : Q) (e7 : Py.fstring) :
  List.filter (fun l => negb (is_spatial_link l))
    (links (build_evidence_chain who s1 d1 s2 d2 ss s6 e6 s7 e7))
  = List.filter (fun l => negb (is_spatial_link l))
      (links (build_evidence_chain who' s1' d1' s2 d2 ss s6 e6 s7 e7)).
Proof.
  destruct (chain_links_split who who s1 d1 s2 d2 ss s6 e6 s7 e7)
    as (h & -> & Hh & Hs).
  destruct (chain_links_split who' who s1' d1' s2 d2 ss s6 e6 s7 e7)
    as (h' & -> & Hh' & _).
  rewrite !List.filter_app, (filter_none _ _ Hh), (filter_none _ _ Hh').
  reflexivity.
Qed.

(** C8.  For every suspect the infrastructure attributed to it is the
    nodes whose name, [operator] tag or [company] tag equals the suspect's
    name; the chain is built from the spatial score of that subset when it
    is non-empty, and otherwise from the AOI-wide spatial score times 0.5;
    the temporal, imagery, density and sentiment scores handed to the
    chain builder, and hence the links they yield, are the same for every
    suspect. *)
Theorem suspect_spatial_attribution
    (hav : Q -> Q -> Q -> Q -> Q) (cosd : Q -> Q)
    (aoi : Q * Q * Q * Q) (timeframe : Z * Z)
    (hansen : option HansenStats)
    (glad_alerts : list GLADAlert) (radd_alerts : list RADDAlert)
    (fires : list FireEvent) (sentinel : option SentinelEvidence)
    (infra : list InfrastructureNode) (suspects : list Company)
    (sentiment : option CombinedSentiment) :
  exists b chains conf,
    base_scores hav cosd aoi glad_alerts radd_alerts fires sentinel infra
      sentiment = Some b
    /\ correlate_events hav cosd aoi timeframe hansen glad_alerts radd_alerts
         fires sentinel infra suspects sentiment = Some (chains, conf)
    /\ let damage :=
         (map AGlad glad_alerts ++ map ARadd radd_alerts) ++ map AFire fires in
       let max_distance := inject_Z MAX_PROXIMITY_DISTANCE_M in
       let aoi_wide :=
         calculate_spatial_proximity_score hav infra damage max_distance in
       b_spatial b = aoi_wide
       /\ Permutation (map (chain_for hav infra damage b) suspects) chains
       /\ forall s : Company,
            let own := List.filter (suspect_matches s) infra in
            let spatial :=
              match own with
              | [] => (aoi_wide.1 * 0.5, aoi_wide.2)
              | _ :: _ =>
                  calculate_spatial_proximity_score hav own damage max_distance
              end in
            (forall n,
                In n own
                <-> In n infra
                    /\ (node_name n = Some (company_name s)
                        \/ tags n !! "operator" = Some (company_name s)
                        \/ tags n !! "company" = Some (company_name s)))
            /\ chain_for hav infra damage b s
               = build_evidence_chain s spatial.1 spatial.2
                   (b_temporal b).1 (b_temporal b).2 (b_sentinel b)
                   (b_density b).1 (b_density b).2
                   (b_sentiment b).1 (b_sentiment b).2
            /\ forall s' : Company,
                 List.filter (fun l => negb (is_spatial_link l))
                   (links (chain_for hav infra damage b s))
                 = List.filter (fun l => negb (is_spatial_link l))
                     (links (chain_for hav infra damage b s')).
Proof.
  destruct (correlate_events_total hav cosd aoi timeframe hansen glad_alerts
              radd_alerts fires sentinel infra suspects sentiment)
    as (b & Hb & Hc).
  exists b. do 2 eexists. split; [exact Hb|]. split; [exact Hc|].
  cbn zeta.
  assert (Hsp : b_spatial b
                = calculate_spatial_proximity_score hav infra
                    ((map AGlad glad_alerts ++ map ARadd radd_alerts)
                     ++ map AFire fires)
                    (inject_Z MAX_PROXIMITY_DISTANCE_M)).
  { rewrite base_scores_total in Hb. injection Hb as <-. reflexivity. }
  split; [exact Hsp|]. split; [apply sort_perm|].
  intros s. split; [|split].
  - intros n. rewrite List.filter_In, suspect_matches_iff. tauto.
  - unfold chain_for, suspect_spatial_score. rewrite Hsp.
    destruct (List.filter (suspect_matches s) infra) as [|n own].
    + reflexivity.
    + destruct (calculate_spatial_proximity_score hav (n :: own) _ _).
      reflexivity.
  - intros s'. unfold chain_for.
    destruct (suspect_spatial_score hav infra _ (b_spatial b) s).
    destruct (suspect_spatial_score hav infra _ (b_spatial b) s').
    apply chain_shared_links.
Qed.

(** C8, instance: a suspect named like the factory is attributed the
    factory; a suspect of another name is attributed nothing. *)
Lemma suspect_spatial_attribution_witness :
  In Sample.factory
    (List.filter (suspect_matches (mkCompany "Test Factory")) [Sample.factory])
  /\ ~ In Sample.factory
         (List.filter (suspect_matches (mkCompany "Other")) [Sample.factory]).
Proof.
  destruct (suspect_spatial_attribution Sample.flat_distance Sample.flat_cos
              Sample.full_aoi (0%Z, 0%Z) None [] [] [] None [Sample.factory]
              [mkCompany "Test Factory"; mkCompany "Other"] None)
    as (b & chains & conf & _ & _ & _ & _ & Hs).
  split.
  - apply (proj1 (Hs (mkCompany "Test Factory"))).
    split; [left; reflexivity|]. left. reflexivity.
  - intros Hin. apply (proj1 (Hs (mkCompany "Other"))) in Hin.
    destruct Hin as [_ [H | [H | H]]]; vm_compute in H; discriminate H.
Defined.

(** ** Sentiment combination *)

Lemma round_half_even_proper (q q' : Q) :
  q == q' -> Py.round_half_even q = Py.round_half_even q'.
Proof.
  intros Hq. unfold Py.round_half_even.
  rewrite <- (Qfloor_comp _ _ Hq).
  repeat destruct Qlt_le_dec; try reflexivity; lra.
Qed.

Lemma round_proper (q q' : Q) (n : nat) :
  q == q' -> Py.round q n = Py.round q' n.
Proof.
  intros Hq. unfold Py.round.
  set (scale := inject_Z (10 ^ Z.of_nat n)).
  rewrite (round_half_even_proper (q * scale) (q' * scale)); [reflexivity|].
  rewrite Hq. reflexivity.
Qed.

(** The accumulation loop of [compute_combined_sentiment] sums over the
    sources that have samples. *)
Lemma combine_loop (sources : list (string * option SentimentScore))
    (ws tw : Q) (tc : Z) :
  let present := List.filter (fun item => has_samples item.2) sources in
  fold_left
    (fun (acc : Q * Q * Z) (item : string * option SentimentScore) =>
       let '(weighted_sum, total_weight, total_count) := acc in
       match item.2 with
       | Some sc =>
           if (0 <? count sc)%Z then
             let w := default 0 (dict_get SENTIMENT_WEIGHTS item.1) in
             (weighted_sum + score sc * w, total_weight + w,
              (total_count + count sc)%Z)
           else acc
       | None => acc
       end)
    sources (ws, tw, tc)
  = (fold_left Qplus (map (fun item => polarity_of item * weight_of item) present) ws,
     fold_left Qplus (map weight_of present) tw,
     fold_left Z.add (map count_of present) tc).
Proof.
  cbn zeta. revert ws tw tc.
  induction sources as [|[name src] sources IH]; intros ws tw tc;
    [reflexivity|].
  cbn [fold_left List.filter snd fst].
  destruct src as [sc|]; cbn [has_samples]; [|apply IH].
  destruct (0 <? count sc)%Z; [|apply IH].
  rewrite IH. reflexivity.
Qed.

Ltac eval_weight_test :=
  match goal with
  | |- context [Py.gtb ?t 0] =>
      let v := eval vm_compute in (Py.gtb t 0) in
      change (Py.gtb t 0) with v
  end.

Lemma combined_final_score (g d r : option SentimentScore) :
  final_score (compute_combined_sentiment g d r)
  = Py.round (polarity_spec g d r) 3.
Proof.
  unfold compute_combined_sentiment. rewrite combine_loop.
  cbn [final_score]. unfold polarity_spec, present_sources, Py.sum.
  cbn [List.filter snd].
  destruct (has_samples g), (has_samples d), (has_samples r);
    cbn [map]; eval_weight_test; reflexivity.
Qed.

Lemma combined_confidence (g d r : option SentimentScore) :
  confidence (compute_combined_sentiment g d r)
  = Py.round (confidence_spec g d r) 3.
Proof.
  unfold compute_combined_sentiment. rewrite combine_loop.
  cbn [confidence]. apply round_proper.
  unfold confidence_spec, present_sources, len. ring.
Qed.

(** C7 (as amended).  The final polarity is the weight-normalised average
    of the polarities of the sources that have samples, rounded to three
    decimals, and the confidence is
    [0.6 * min(1, totalSampleCount / 50) + 0.4 * (presentSourceCount / 3)]
    rounded to three decimals; both are 0 when no source has samples.
    The sources (10, -0.5), (20, -0.3), (5, -0.7) give polarity -0.48 and
    confidence 0.82; the single source (10, -0.5) gives polarity -0.5 and
    confidence 0.253. *)
Theorem combined_sentiment_rounded (g d r : option SentimentScore) :
  let c := compute_combined_sentiment g d r in
  final_score c = Py.round (polarity_spec g d r) 3
  /\ confidence c = Py.round (confidence_spec g d r) 3
  /\ (present_sources g d r = [] -> final_score c == 0 /\ confidence c == 0)
  /\ (let c3 :=
        compute_combined_sentiment Sample.google_10 Sample.gdelt_20
          Sample.reddit_5 in
      final_score c3 == -0.48 /\ confidence c3 == 0.82 /\ 0.5 < confidence c3)
  /\ (let c1 := compute_combined_sentiment Sample.google_10 None None in
      final_score c1 == -0.5 /\ confidence c1 == 0.253 /\ confidence c1 < 0.5).
Proof.
  cbn zeta. split; [apply combined_final_score|].
  split; [apply combined_confidence|].
  split.
  - intros Hnone. rewrite combined_final_score, combined_confidence.
    unfold polarity_spec, confidence_spec. rewrite Hnone. split; reflexivity.
  - split; (split; [reflexivity|split; [reflexivity|]]); vm_compute; reflexivity.
Qed.

(** C7, instance: without any source both values are 0. *)
Lemma combined_sentiment_rounded_witness :
  final_score (compute_combined_sentiment None None None) == 0
  /\ confidence (compute_combined_sentiment None None None) == 0.
Proof.
  apply (combined_sentiment_rounded None None None). reflexivity.
Defined.

(** C7, counterexample.  For the single source (10, -0.5) the confidence
    returned is 0.253, not [0.6 * (10 / 50) + 0.4 * (1 / 3) = 19 / 75]. *)
Lemma combined_sentiment_not_exact :
  confidence (compute_combined_sentiment Sample.google_10 None None) == 0.253
  /\ confidence_spec Sample.google_10 None None == 19 # 75
  /\ ~ confidence (compute_combined_sentiment Sample.google_10 None None)
       == confidence_spec Sample.google_10 None None.
Proof.
  split; [reflexivity|split; [reflexivity|]]. vm_compute. discriminate.
Qed.

(** *** The combined record satisfies its field constraints *)

Lemma weighted_sum_abs (items : list (string * option SentimentScore)) :
  Forall (fun it => -1 <= polarity_of it <= 1 /\ 0 <= weight_of it) items ->
  - Py.sum (map weight_of items)
    <= Py.sum (map (fun it => polarity_of it * weight_of it) items)
  /\ Py.sum (map (fun it => polarity_of it * weight_of it) items)
     <= Py.sum (map weight_of items).
Proof.
  induction 1 as [|it items [Hp Hw] _ IH].
  - unfold Py.sum; simpl. lra.
  - cbn [map]. rewrite !sum_cons.
    set (p := polarity_of it) in *. set (w := weight_of it) in *. nra.
Qed.

Lemma sum_positive (xs : list Q) :
  xs <> [] -> Forall (fun x => 0 < x) xs -> 0 < Py.sum xs.
Proof.
  intros Hne Hxs. destruct Hxs as [|x xs Hx Hxs]; [contradiction|].
  rewrite sum_cons.
  assert (0 <= Py.sum xs).
  { clear Hne Hx. induction Hxs as [|y ys Hy _ IH].
    - unfold Py.sum; simpl; lra.
    - rewrite sum_cons. lra. }
  lra.
Qed.

Lemma present_sources_facts (g d r : option SentimentScore) :
  source_ok g -> source_ok d -> source_ok r ->
  Forall (fun it => (-1 <= polarity_of it <= 1 /\ 0 < weight_of it)
                    /\ (0 <= count_of it)%Z)
    (present_sources g d r)
  /\ (length (present_sources g d r) <= 3)%nat.
Proof.
  intros Hg Hd Hr. split.
  - apply List.Forall_forall. intros it Hit.
    apply List.filter_In in Hit as [Hit _].
    assert (Hin : forall name s, source_ok s ->
              In name ["google"; "gdelt"; "reddit"] ->
              (-1 <= polarity_of (name, s) <= 1 /\ 0 < weight_of (name, s))
              /\ (0 <= count_of (name, s))%Z).
    { intros name s Hs Hname. unfold polarity_of, count_of. cbn [snd].
      split; [split|].
      - destruct s as [sc|]; cbn [from_option]; [|lra].
        destruct Hs as (_ & H1 & H2). lra.
      - destruct Hname as [<- | [<- | [<- | []]]]; reflexivity.
      - destruct s as [sc|]; cbn [from_option]; [|lia].
        destruct Hs as (H0 & _). exact H0. }
    destruct Hit as [<- | [<- | [<- | []]]]; apply Hin; cbn; auto.
  - unfold present_sources. cbn [List.filter snd].
    destruct (has_samples g), (has_samples d), (has_samples r); cbn; lia.
Qed.

Lemma count_total_nonneg (items : list (string * option SentimentScore)) (a : Z) :
  Forall (fun it => (0 <= count_of it)%Z) items -> (0 <= a)%Z ->
  (0 <= fold_left Z.add (map count_of items) a)%Z.
Proof.
  intros H. revert a. induction H as [|it items Hit _ IH]; intros a Ha.
  - exact Ha.
  - cbn [map fold_left]. apply IH. lia.
Qed.

Lemma combined_valid (g d r : option SentimentScore) :
  source_ok g -> source_ok d -> source_ok r ->
  CombinedSentiment_valid (compute_combined_sentiment g d r) = true.
Proof.
  intros Hg Hd Hr.
  destruct (present_sources_facts g d r Hg Hd Hr) as [Hall Hlen].
  assert (Hpol : -1 <= polarity_spec g d r <= 1).
  { unfold polarity_spec.
    destruct (present_sources g d r) as [|it items] eqn:Hp; [lra|].
    assert (Hw : 0 < Py.sum (map weight_of (it :: items))).
    { apply sum_positive; [discriminate|]. apply Forall_map.
      eapply Forall_impl; [|exact Hall]. intros x [[_ Hx] _]. exact Hx. }
    destruct (weighted_sum_abs (it :: items)) as [Hlo Hhi].
    { eapply Forall_impl; [|exact Hall]. intros x Hx.
      destruct Hx as [[Hx1 Hx2] _]. split; [exact Hx1|lra]. }
    split.
    - apply Qle_shift_div_l; [exact Hw|lra].
    - apply Qle_shift_div_r; [exact Hw|lra]. }
  assert (Hconf : 0 <= confidence_spec g d r <= 1).
  { unfold confidence_spec.
    set (total := fold_left Z.add (map count_of (present_sources g d r)) 0%Z).
    assert (Htot : 0 <= inject_Z total).
    { change 0 with (inject_Z 0). rewrite <- Zle_Qle. apply count_total_nonneg.
      - eapply Forall_impl; [|exact Hall]. intros x [_ Hx]. exact Hx.
      - lia. }
    assert (Hmin : 0 <= Py.min 1 (inject_Z total / 50) <= 1).
    { split; [|apply min_le_l]. apply min_glb; [lra|].
      apply Qle_shift_div_l; lra. }
    assert (Hk0 : 0 <= inject_Z (Z.of_nat (length (present_sources g d r)))).
    { change 0 with (inject_Z 0). rewrite <- Zle_Qle. lia. }
    assert (Hk3 : inject_Z (Z.of_nat (length (present_sources g d r))) <= 3).
    { change 3 with (inject_Z 3). rewrite <- Zle_Qle. lia. }
    set (k := inject_Z (Z.of_nat (length (present_sources g d r)))) in *.
    assert (0 <= k / 3 <= 1).
    { split; [apply Qle_shift_div_l | apply Qle_shift_div_r]; lra. }
    lra. }
  unfold CombinedSentiment_valid.
  rewrite combined_final_score, combined_confidence.
  rewrite !andb_true_iff, !leb_true.
  repeat split.
  - apply (round_lower _ (-1)). tauto.
  - apply (round_upper _ 1). tauto.
  - apply (round_lower _ 0). tauto.
  - apply (round_upper _ 1). tauto.
Qed.

(** ** Phase 3 never fails *)

Section Phase3.

Variable hav : Q -> Q -> Q -> Q -> Q.
Variable cosd : Q -> Q.

Lemma category_weights_le_1 (s1 s2 : Q)
    (ss : list (string * (Q * Py.fstring))) (s6 s7 : Q) :
  Forall (fun c => 0 <= WEIGHTS_at c.1 <= 1) (category_scores s1 s2 ss s6 s7).
Proof.
  unfold category_scores.
  repeat (apply Forall_cons;
          [cbn [fst]; split; vm_compute; discriminate|]).
  apply Forall_nil.
Qed.

Lemma built_chain_valid (who : Company)
    (s1 : Q) (d1 : list ProximityDetail) (s2 : Q) (d2 : list Correlation)
    (ss : list (string * (Q * Py.fstring)))
    (s6 : Q) (e6 : Py.fstring) (s7 : Q) (e7 : Py.fstring) :
  Forall (fun c => c.2 <= 1) (category_scores s1 s2 ss s6 s7) ->
  EvidenceChain_valid (build_evidence_chain who s1 d1 s2 d2 ss s6 e6 s7 e7)
  = true.
Proof.
  intros Hs. unfold EvidenceChain_valid. apply andb_true_iff. split.
  - apply forallb_forall. intros l Hl.
    assert (Hw : In (weight l)
                   (map weight
                      (links (build_evidence_chain who s1 d1 s2 d2 ss s6 e6 s7 e7))))
      by (apply in_map; exact Hl).
    rewrite chain_link_weights_sum in Hw.
    apply in_map_iff in Hw as (c & Hc & Hin).
    apply List.filter_In in Hin as [Hin Hpos]. apply gtb_true in Hpos.
    pose proof (category_weights_le_1 s1 s2 ss s6 s7) as HW.
    rewrite List.Forall_forall in HW, Hs.
    specialize (HW c Hin). specialize (Hs c Hin). cbn beta in HW, Hs.
    unfold EvidenceLink_valid. rewrite <- Hc.
    apply andb_true_iff. rewrite !leb_true.
    set (w := WEIGHTS_at c.1) in *. split; nra.
  - apply leb_true.
    apply (chain_total_weight_range who s1 d1 s2 d2 ss s6 e6 s7 e7 Hs).
Qed.

Lemma phase3_valid (aoi : Q * Q * Q * Q) (timeframe : Z * Z)
    (hansen : option HansenStats)
    (glad_alerts : list GLADAlert) (radd_alerts : list RADDAlert)
    (fires : list FireEvent) (sentinel : option SentinelEvidence)
    (infra : list InfrastructureNode) (suspects : list Company)
    (sentiment : option CombinedSentiment) :
  exists chains conf,
    correlate_events hav cosd aoi timeframe hansen glad_alerts radd_alerts
      fires sentinel infra suspects sentiment = Some (chains, conf)
    /\ forallb EvidenceChain_valid chains = true
    /\ confidence_score_valid conf = true.
Proof.
  destruct (correlate_events_total hav cosd aoi timeframe hansen glad_alerts
              radd_alerts fires sentinel infra suspects sentiment)
    as (b & Hb & Hc).
  do 2 eexists. split; [exact Hc|]. split.
  - apply forallb_forall. intros c Hin.
    apply (Permutation_in _ (Permutation_sym (sort_perm _))) in Hin.
    apply in_map_iff in Hin as (s & <- & _).
    destruct (base_scores_ranges hav cosd _ _ _ _ _ _ _ b Hb)
      as (Hs & Ht & Hd & Hse & n & d & u & Hsen & Hn & Hnb & Hu).
    unfold chain_for.
    destruct (suspect_spatial_score hav infra _ (b_spatial b) s)
      as [sp dt] eqn:Hsp.
    apply built_chain_valid.
    assert (Hsp1 : sp <= 1).
    { unfold suspect_spatial_score in Hsp.
      destruct (List.filter (suspect_matches s) infra) as [|x own].
      - injection Hsp as <- _. cbn [fst]. lra.
      - pose proof (spatial_score_range hav (x :: own)
                      ((map AGlad glad_alerts ++ map ARadd radd_alerts)
                       ++ map AFire fires)
                      (inject_Z MAX_PROXIMITY_DISTANCE_M)) as Hr.
        rewrite Hsp in Hr. cbn [fst] in Hr. lra. }
    unfold category_scores. rewrite Hsen. cbn [dict_get String.eqb].
    repeat (apply Forall_cons; [cbn; lra|]). apply Forall_nil.
  - unfold confidence_score_valid. apply andb_true_iff.
    rewrite !leb_true. apply (reported_confidence_range hav cosd aoi). exact Hb.
Qed.

End Phase3.

(** ** Orchestrator: isolation of collaborator failures *)

Lemma dict_get_In {V : Type} (d : list (string * V)) (key : string) (v : V) :
  dict_get d key = Some v -> exists k, In (k, v) d.
Proof.
  induction d as [|[k x] d IH]; cbn [dict_get]; [discriminate|].
  destruct (String.eqb k key).
  - intros [= ->]. exists k. left. reflexivity.
  - intros H. destruct (IH H) as [k' Hk']. exists k'. right. exact Hk'.
Qed.

(** The boxes of the region table pass the [BBox] validation. *)
Lemma regions_valid :
  Forall (fun item => is_Some (BBox_from_tuple (region_bbox item.2)))
    GLOBAL_REGIONS.
Proof.
  unfold GLOBAL_REGIONS.
  repeat (apply Forall_cons; [vm_compute; eauto|]). apply Forall_nil.
Qed.

(** A box accepted by [validate_bbox] passes the [BBox] validation. *)
Lemma validate_bbox_sound (bbox : Q * Q * Q * Q) (e : option Py.fstring) :
  validate_bbox bbox = (true, e) -> is_Some (BBox_from_tuple bbox).
Proof.
  destruct bbox as [[[lon0 lat0] lon1] lat1].
  unfold validate_bbox, BBox_from_tuple, Py.gtb.
  destruct (Py.leb (-180) lon0); [|discriminate].
  destruct (Py.leb lon0 180); [|discriminate].
  destruct (Py.leb (-180) lon1); [|discriminate].
  destruct (Py.leb lon1 180); [|discriminate].
  destruct (Py.leb (-90) lat0); [|discriminate].
  destruct (Py.leb lat0 90); [|discriminate].
  destruct (Py.leb (-90) lat1); [|discriminate].
  destruct (Py.leb lat1 90); [|discriminate].
  destruct (Py.ltb lon1 lon0); [discriminate|].
  destruct (Py.ltb lat1 lat0); [discriminate|].
  intros _. cbn. eauto.
Qed.

Lemma resolve_bbox_valid (parse : string -> option (Q * Q * Q * Q))
    (region bbox : option string) (aoi : Q * Q * Q * Q) :
  resolve_bbox parse region bbox = inr aoi -> is_Some (BBox_from_tuple aoi).
Proof.
  unfold resolve_bbox.
  destruct (truthy_opt_str region).
  - destruct (dict_get GLOBAL_REGIONS _) as [cfg|] eqn:Hget; [|discriminate].
    intros [= <-]. apply dict_get_In in Hget as [k Hin].
    pose proof regions_valid as Hall. rewrite List.Forall_forall in Hall.
    apply (Hall _ Hin).
  - destruct (truthy_opt_str bbox); [|discriminate].
    destruct (parse _) as [t|]; [|discriminate].
    destruct (validate_bbox t) as [valid e] eqn:Hv.
    destruct valid; [|discriminate].
    intros [= <-]. apply (validate_bbox_sound t e Hv).
Qed.


Lemma process_alert_result_spec {A : Type} (name : string)
    (result : Gathered (FetchResult A)) (errors : list SourceError)
    (notes : list CoverageNote) :
  exists x new added,
    process_alert_result name result errors notes
    = (x, errors ++ new, notes ++ added)
    /\ (failed_alert result = true ->
        x = None /\ exists e, In e new /\ source e = name)
    /\ (skipped result = true ->
        x = None
        /\ exists n, In n added /\ dataset n = name /\ status n = "skipped").
Proof.
  unfold process_alert_result, failed_alert, skipped.
  destruct result as [e|r].
  - exists None, [create_source_error name e true], [].
    rewrite (app_nil_r notes).
    split; [reflexivity|]. split; [|discriminate].
    intros _. split; [reflexivity|].
    eexists. split; [left; reflexivity|reflexivity].
  - destruct (r_skipped r).
    + exists None, [], [mkCoverageNote name "skipped" (r_skip_reason r)].
      rewrite (app_nil_r errors).
      split; [reflexivity|]. split; [discriminate|].
      intros _. split; [reflexivity|].
      eexists. split; [left; reflexivity|split; reflexivity].
    + destruct (truthy_opt_str (r_error r)).
      * exists None,
          [mkSourceError name "FetchError" (default "" (r_error r)) true], [].
        rewrite (app_nil_r notes).
        split; [reflexivity|]. split; [|discriminate].
        intros _. split; [reflexivity|].
        eexists. split; [left; reflexivity|reflexivity].
      * exists (r_data r), [], []. rewrite !app_nil_r.
        split; [reflexivity|]. split; discriminate.
Qed.





(** The handling of one gathered entry appends to the lists it is given:
    what it appends is what it yields on empty lists. *)
Lemma process_result_thread {A : Type} (name : string)
    (result : Gathered (FetchResult A)) (errors : list SourceError) :
  process_result name result errors
  = ((process_result name result []).1,
     errors ++ (process_result name result []).2).
Proof.
  unfold process_result. destruct result as [e|r]; [reflexivity|].
  destruct (truthy_opt_str (r_error r)); cbn [fst snd app];
    rewrite ?app_nil_r; reflexivity.
Qed.

Lemma process_alert_result_thread {A : Type} (name : string)
    (result : Gathered (FetchResult A)) (errors : list SourceError)
    (notes : list CoverageNote) :
  process_alert_result name result errors notes
  = ((process_alert_result name result [] []).1.1,
     errors ++ (process_alert_result name result [] []).1.2,
     notes ++ (process_alert_result name result [] []).2).
Proof.
  unfold process_alert_result. destruct result as [e|r].
  - cbn [fst snd app]. rewrite (app_nil_r notes). reflexivity.
  - destruct (r_skipped r); [|destruct (truthy_opt_str (r_error r))];
      cbn [fst snd app]; rewrite ?app_nil_r; reflexivity.
Qed.

Lemma process_result_errors {A : Type} (name : string)
    (result : Gathered (FetchResult A)) :
  (process_result name result []).2 = [] <-> failed result = false.
Proof.
  unfold process_result, failed. destruct result as [e|r].
  - cbn. split; discriminate.
  - destruct (truthy_opt_str (r_error r)); cbn; split;
      reflexivity || discriminate.
Qed.

Lemma process_alert_result_errors {A : Type} (name : string)
    (result : Gathered (FetchResult A)) :
  (process_alert_result name result [] []).1.2 = []
  <-> failed_alert result = false.
Proof.
  unfold process_alert_result, failed_alert. destruct result as [e|r].
  - cbn. split; discriminate.
  - destruct (r_skipped r); [|destruct (truthy_opt_str (r_error r))]; cbn;
      split; reflexivity || discriminate.
Qed.

Lemma process_alert_result_notes {A : Type} (name : string)
    (result : Gathered (FetchResult A)) :
  (process_alert_result name result [] []).2
  = if skipped result
    then [mkCoverageNote name "skipped"
            (match result with Ret r => r_skip_reason r | Exc _ => None end)]
    else [].
Proof.
  unfold process_alert_result, skipped. destruct result as [e|r];
    [reflexivity|].
  destruct (r_skipped r); [|destruct (truthy_opt_str (r_error r))];
    reflexivity.
Qed.



Lemma process_alert_result_skipped {A : Type} (name : string)
    (result : Gathered (FetchResult A)) :
  skipped result = true ->
  (process_alert_result name result [] []).1.1 = None
  /\ exists n,
       In n (process_alert_result name result [] []).2
       /\ dataset n = name /\ status n = "skipped".
Proof.
  intros Hf.
  destruct (process_alert_result_spec name result [] [])
    as (x & new & added & Heq & _ & H).
  rewrite Heq. cbn [fst snd app]. exact (H Hf).
Qed.


Section Enrichment.

Variable fuzz : string -> string -> Q.
Variable set_list : list string -> list string.

(** The enrichment returns at most ten companies, and none when every
    registry call raises. *)
Lemma enrich_at_most_ten (env : Collaborators)
    (infra : list InfrastructureNode) :
  (length (enrich_infrastructure_companies fuzz set_list env infra) <= 10)%nat.
Proof.
  unfold enrich_infrastructure_companies.
  destruct (nonempty (company_names_of infra)); cbn [negb length]; [|lia].
  pose proof (length_firstn 10 (set_list (company_names_of infra))) as Hlen.
  assert (Hle : (length (firstn 10 (set_list (company_names_of infra))) <= 10)%nat)
    by lia.
  clear Hlen. revert Hle.
  generalize (firstn 10 (set_list (company_names_of infra))) as names.
  intros names. revert names.
  assert (Hgen : forall names : list string,
             (length
                (flat_map (fun result : option Company =>
                             match result with
                             | Some company => [company]
                             | None => []
                             end)
                   (map (fun name => (enrich_company fuzz env name).1) names))
              <= length names)%nat).
  { induction names as [|name names IH]; cbn [map flat_map length]; [lia|].
    rewrite length_app.
    destruct (enrich_company fuzz env name).1; cbn [length]; lia. }
  intros names Hle. pose proof (Hgen names). lia.
Qed.



End Enrichment.

Section DossierProperties.

Variable hav : Q -> Q -> Q -> Q -> Q.
Variable cosd : Q -> Q.
Variable parse : string -> option (Q * Q * Q * Q).
Variable fromiso : string -> option Z.
Variable utcnow : Z.
Variable fuzz : string -> string -> Q.
Variable set_list : list string -> list string.

(** The fields of the dossier of a request whose box resolves and whose
    dates can be used, in terms of what each collaborator produced. *)
Lemma get_dossier_shape (region bbox start_date end_date : option string)
    (env : Collaborators) (aoi : Q * Q * Q * Q) :
  resolve_bbox parse region bbox = inr aoi ->
  dates_ok fromiso utcnow start_date end_date = true ->
  exists d,
    get_dossier hav cosd parse fromiso utcnow fuzz set_list region bbox
      start_date end_date env = inr d
    /\ d_region d = region
    /\ BBox_from_tuple aoi = Some (d_bbox d)
    /\ d_hansen d = (process_result "hansen_gfc" (fetch_hansen_stats env) []).1
    /\ firms d = default [] (process_result "firms" (fetch_firms env) []).1
    /\ gfw_glad d
       = default []
           (process_alert_result "gfw_glad" (fetch_glad_alerts env) [] []).1.1
    /\ gfw_radd d
       = default []
           (process_alert_result "gfw_radd" (fetch_radd_alerts env) [] []).1.1
    /\ d_sentinel d
       = (process_result "sentinel_hub" (fetch_sentinel_evidence env) []).1
    /\ nearby_infra d
       = default []
           (process_result "overpass" (identify_nearby_infrastructure env) []).1
    /\ d_suspects d
       = (if nonempty (nearby_infra d)
          then enrich_infrastructure_companies fuzz set_list env (nearby_infra d)
          else [])
    /\ d_sentiment d
       = match fetch_all_sentiment env with
         | inr (sentiment, _) => Some sentiment
         | inl _ => None
         end
    /\ source_errors d
       = (process_result "hansen_gfc" (fetch_hansen_stats env) []).2
         ++ (process_result "firms" (fetch_firms env) []).2
         ++ (process_alert_result "gfw_glad" (fetch_glad_alerts env) [] []).1.2
         ++ (process_alert_result "gfw_radd" (fetch_radd_alerts env) [] []).1.2
         ++ (process_result "sentinel_hub" (fetch_sentinel_evidence env) []).2
         ++ (process_result "overpass" (identify_nearby_infrastructure env)
               []).2
         ++ match fetch_all_sentiment env with
            | inr (_, sentiment_errors) => sentiment_errors
            | inl e => [create_source_error "sentiment" e true]
            end
    /\ coverage_notes d
       = (process_alert_result "gfw_glad" (fetch_glad_alerts env) [] []).2
         ++ (process_alert_result "gfw_radd" (fetch_radd_alerts env) [] []).2.
Proof.
  intros Hres Hdates. unfold get_dossier. rewrite Hres.
  destruct (resolve_bbox_valid parse region bbox aoi Hres) as [bm ->].
  unfold dates_ok in Hdates.
  destruct (if truthy_opt_str end_date
            then fromiso (default "" end_date) else Some utcnow)
    as [end_dt|]; [|discriminate Hdates].
  assert (Hstart' : exists start_dt,
            (if truthy_opt_str start_date
             then match fromiso (default "" start_date) with
                  | Some start_dt => inr start_dt
                  | None => inl "Invalid isoformat string"
                  end
             else match Py.datetime_minus_days end_dt 90 with
                  | Some start_dt => inr start_dt
                  | None => inl "date value out of range"
                  end) = @inr string Z start_dt).
  { destruct (truthy_opt_str start_date);
      apply bool_decide_eq_true in Hdates; destruct Hdates as [x ->]; eauto. }
  destruct Hstart' as [start_dt ->].
  destruct (process_result "hansen_gfc" (fetch_hansen_stats env) [])
    as [hansen n1].
  rewrite (process_result_thread "firms" (fetch_firms env) n1).
  destruct (process_result "firms" (fetch_firms env) []) as [fires n2].
  cbn [fst snd].
  rewrite (process_alert_result_thread "gfw_glad" (fetch_glad_alerts env)
             (n1 ++ n2) []).
  destruct (process_alert_result "gfw_glad" (fetch_glad_alerts env) [] [])
    as [[glad n3] c3].
  cbn [fst snd].
  rewrite (process_alert_result_thread "gfw_radd" (fetch_radd_alerts env)
             ((n1 ++ n2) ++ n3) ([] ++ c3)).
  destruct (process_alert_result "gfw_radd" (fetch_radd_alerts env) [] [])
    as [[radd n4] c4].
  cbn [fst snd].
  rewrite (process_result_thread "sentinel_hub" (fetch_sentinel_evidence env)
             (((n1 ++ n2) ++ n3) ++ n4)).
  destruct (process_result "sentinel_hub" (fetch_sentinel_evidence env) [])
    as [sentinel n5].
  cbn [fst snd].
  rewrite (process_result_thread "overpass" (identify_nearby_infrastructure env)
             ((((n1 ++ n2) ++ n3) ++ n4) ++ n5)).
  destruct (process_result "overpass" (identify_nearby_infrastructure env) [])
    as [infra n6].
  cbn [fst snd].
  set (errs6 := ((((n1 ++ n2) ++ n3) ++ n4) ++ n5) ++ n6).
  set (suspects := if nonempty (default [] infra) then _ else @nil Company).
  set (sent := match fetch_all_sentiment env with inl _ => _ | inr _ => _ end).
  assert (Hsent : sent
    = (match fetch_all_sentiment env with
       | inr (sentiment, _) => Some sentiment
       | inl _ => None
       end,
       errs6 ++
       match fetch_all_sentiment env with
       | inr (_, sentiment_errors) => sentiment_errors
       | inl e => [create_source_error "sentiment" e true]
       end)).
  { subst sent. destruct (fetch_all_sentiment env) as [e|[c errors]];
      reflexivity. }
  rewrite Hsent. clear Hsent sent.
  destruct (phase3_valid hav cosd aoi (start_dt, end_dt) hansen
              (default [] glad) (default [] radd) (default [] fires) sentinel
              (default [] infra) suspects
              (match fetch_all_sentiment env with
               | inr (sentiment, _) => Some sentiment
               | inl _ => None
               end))
    as (chains & conf & -> & -> & ->).
  cbn [andb]. eexists. split; [reflexivity|].
  cbn [d_region d_bbox d_hansen firms gfw_glad gfw_radd d_sentinel nearby_infra
       d_suspects d_sentiment source_errors coverage_notes].
  subst errs6 suspects. rewrite <- !app_assoc.
  repeat split; reflexivity.
Qed.

(** A request whose dates cannot be used fails with status 500. *)
Lemma get_dossier_bad_dates (region bbox start_date end_date : option string)
    (env : Collaborators) (aoi : Q * Q * Q * Q) :
  resolve_bbox parse region bbox = inr aoi ->
  dates_ok fromiso utcnow start_date end_date = false ->
  exists http,
    get_dossier hav cosd parse fromiso utcnow fuzz set_list region bbox
      start_date end_date env = inl http
    /\ status_code http = 500%Z.
Proof.
  intros Hres Hdates. unfold get_dossier. rewrite Hres.
  destruct (resolve_bbox_valid parse region bbox aoi Hres) as [bm ->].
  unfold dates_ok in Hdates.
  destruct (if truthy_opt_str end_date
            then fromiso (default "" end_date) else Some utcnow)
    as [end_dt|]; [|eexists; split; reflexivity].
  destruct (truthy_opt_str start_date); apply bool_decide_eq_false in Hdates.
  - destruct (fromiso (default "" start_date)) as [x|];
      [exfalso; apply Hdates; eauto|eexists; split; reflexivity].
  - destruct (Py.datetime_minus_days end_dt 90) as [x|];
      [exfalso; apply Hdates; eauto|eexists; split; reflexivity].
Qed.

(** A returned dossier comes from a resolved box and usable dates. *)
Lemma get_dossier_returned (region bbox start_date end_date : option string)
    (env : Collaborators) (d : Dossier) :
  get_dossier hav cosd parse fromiso utcnow fuzz set_list region bbox
    start_date end_date env = inr d ->
  exists aoi,
    resolve_bbox parse region bbox = inr aoi
    /\ dates_ok fromiso utcnow start_date end_date = true.
Proof.
  intros Hget.
  destruct (resolve_bbox parse region bbox) as [http|aoi] eqn:Hres.
  - unfold get_dossier in Hget. rewrite Hres in Hget. discriminate Hget.
  - exists aoi. split; [reflexivity|].
    destruct (dates_ok fromiso utcnow start_date end_date) eqn:Hdates;
      [reflexivity|].
    destruct (get_dossier_bad_dates region bbox start_date end_date env aoi
                Hres Hdates) as (http & Hfail & _).
    rewrite Hfail in Hget. discriminate Hget.
Qed.


End DossierProperties.



(** * Further properties of the engine *)

(** X1.  The alert-density score always lies in [0, 1]; it is 0 without
    any alert, and 0 for a box of zero width or zero height, whatever the
    number of alerts. *)
Theorem alert_density_score_bounded (cosd : Q -> Q)
    (glad_alerts : list GLADAlert) (radd_alerts : list RADDAlert)
    (fires : list FireEvent) (bbox : Q * Q * Q * Q) :
  0 <= (calculate_alert_density_score cosd glad_alerts radd_alerts fires bbox).1
    <= 1
  /\ calculate_alert_density_score cosd [] [] [] bbox
     = (0, Py.FString "No alerts detected in region" [])
  /\ (forall lon lat0 lat1,
         (calculate_alert_density_score cosd glad_alerts radd_alerts fires
            (lon, lat0, lon, lat1)).1 == 0)
  /\ (forall lon0 lon1 lat,
         (calculate_alert_density_score cosd glad_alerts radd_alerts fires
            (lon0, lat, lon1, lat)).1 == 0).
Proof.
  split; [apply density_score_range|]. split; [reflexivity|].
  split.
  - intros lon lat0 lat1. unfold calculate_alert_density_score.
    destruct (_ =? 0)%nat; [reflexivity|].
    destruct (Py.leb _ 0) eqn:Harea; [reflexivity|].
    apply leb_false in Harea. exfalso.
    assert (Hz : (lon - lon) * 111 * Qabs (cosd ((lat0 + lat1) / 2))
                 * ((lat1 - lat0) * 111) == 0) by ring.
    rewrite Hz in Harea. lra.
  - intros lon0 lon1 lat. unfold calculate_alert_density_score.
    destruct (_ =? 0)%nat; [reflexivity|].
    destruct (Py.leb _ 0) eqn:Harea; [reflexivity|].
    apply leb_false in Harea. exfalso.
    assert (Hz : (lon1 - lon0) * 111 * Qabs (cosd ((lat + lat) / 2))
                 * ((lat - lat) * 111) == 0) by ring.
    rewrite Hz in Harea. lra.
Qed.

(** X2.  [calculate_sentinel_scores] always returns the three entries
    ndvi, nbr and burn, in that order, each with a score in [0, 1];
    without imagery all three scores are 0, and an absent index scores 0
    whatever the other indices are. *)
Theorem sentinel_scores_three_bounded (sentinel : option SentinelEvidence) :
  map fst (calculate_sentinel_scores sentinel) = ["ndvi"; "nbr"; "burn"]
  /\ Forall (fun item => 0 <= item.2.1 <= 1) (calculate_sentinel_scores sentinel)
  /\ map (fun item => item.2.1) (calculate_sentinel_scores None) = [0; 0; 0]
  /\ (forall b u,
         dict_get (calculate_sentinel_scores (Some (mkSentinel None b u))) "ndvi"
         = Some (0, Py.FString "NDVI data not available" []))
  /\ (forall n u,
         dict_get (calculate_sentinel_scores (Some (mkSentinel n None u))) "nbr"
         = Some (0, Py.FString "NBR data not available" []))
  /\ (forall n b,
         dict_get (calculate_sentinel_scores (Some (mkSentinel n b None))) "burn"
         = Some (0, Py.FString "Burn index not available" [])).
Proof.
  destruct (sentinel_scores_shape sentinel) as (n & b & u & -> & Hn & Hb & Hu).
  split; [reflexivity|].
  split; [repeat (apply Forall_cons; [assumption|]); apply Forall_nil|].
  split; [reflexivity|].
  repeat split; intros; reflexivity.
Qed.

Lemma sentiment_base_antitone (x y : Q) :
  x <= y ->
  (if Py.ltb y (-0.3) then 0.8 + Qabs (y + 0.3) * 0.3
   else if Py.ltb y 0 then 0.4 + Qabs y * 1.3
   else if Py.ltb y 0.2 then 0.2 else 0)
  <= (if Py.ltb x (-0.3) then 0.8 + Qabs (x + 0.3) * 0.3
      else if Py.ltb x 0 then 0.4 + Qabs x * 1.3
      else if Py.ltb x 0.2 then 0.2 else 0)
  /\ 0 <= (if Py.ltb y (-0.3) then 0.8 + Qabs (y + 0.3) * 0.3
           else if Py.ltb y 0 then 0.4 + Qabs y * 1.3
           else if Py.ltb y 0.2 then 0.2 else 0).
Proof.
  intros Hxy.
  pose proof (Qabs_nonneg x) as Hax. pose proof (Qabs_nonneg y) as Hay.
  pose proof (Qabs_nonneg (x + 0.3)) as Hbx.
  pose proof (Qabs_nonneg (y + 0.3)) as Hby.
  pose proof (Qabs_neg x) as Hnx. pose proof (Qabs_neg y) as Hny.
  pose proof (Qabs_neg (x + 0.3)) as Hmx. pose proof (Qabs_neg (y + 0.3)) as Hmy.
  destruct (Py.ltb x (-0.3)) eqn:Hx1;
    [|destruct (Py.ltb x 0) eqn:Hx2; [|destruct (Py.ltb x 0.2) eqn:Hx3]];
    (destruct (Py.ltb y (-0.3)) eqn:Hy1;
     [|destruct (Py.ltb y 0) eqn:Hy2; [|destruct (Py.ltb y 0.2) eqn:Hy3]]);
    rewrite ?ltb_true, ?ltb_false in *;
    try (specialize (Hnx ltac:(lra))); try (specialize (Hny ltac:(lra)));
    try (specialize (Hmx ltac:(lra))); try (specialize (Hmy ltac:(lra)));
    split; lra.
Qed.

Lemma sentiment_score_value (c : CombinedSentiment) :
  (calculate_sentiment_score (Some c)).1
  = Py.min 1
      ((if Py.ltb (final_score c) (-0.3) then 0.8 + Qabs (final_score c + 0.3) * 0.3
        else if Py.ltb (final_score c) 0 then 0.4 + Qabs (final_score c) * 1.3
        else if Py.ltb (final_score c) 0.2 then 0.2 else 0)
       * confidence c).
Proof.
  unfold calculate_sentiment_score.
  destruct (Py.ltb (final_score c) (-0.3));
    [|destruct (Py.ltb (final_score c) 0);
      [|destruct (Py.ltb (final_score c) 0.2)]]; reflexivity.
Qed.

(** X3.  For a combined sentiment whose confidence is in [0, 1] the
    sentiment score lies in [0, 1]; it is 0 when the polarity is at least
    0.2, and between two sentiments of equal confidence the one of lower
    (more negative) polarity never scores lower. *)
Theorem sentiment_score_antitone (c1 c2 : CombinedSentiment) :
  0 <= confidence c1 <= 1 ->
  confidence c2 == confidence c1 ->
  final_score c1 <= final_score c2 ->
  0 <= (calculate_sentiment_score (Some c1)).1 <= 1
  /\ (calculate_sentiment_score (Some c2)).1
     <= (calculate_sentiment_score (Some c1)).1
  /\ (0.2 <= final_score c2 -> (calculate_sentiment_score (Some c2)).1 == 0).
Proof.
  intros Hc Heq Hle. rewrite !sentiment_score_value.
  destruct (sentiment_base_antitone (final_score c1) (final_score c2) Hle)
    as [Hmono Hpos2].
  destruct (sentiment_base_antitone (final_score c1) (final_score c1)
              ltac:(lra)) as [_ Hpos1].
  set (f1 := if Py.ltb (final_score c1) (-0.3) then _ else _) in *.
  set (f2 := if Py.ltb (final_score c2) (-0.3) then _ else _) in *.
  split; [|split].
  - split; [apply min_glb; [lra|nra] | apply min_le_l].
  - assert (f2 * confidence c2 <= f1 * confidence c1) by (rewrite Heq; nra).
    unfold Py.min. repeat destruct Qlt_le_dec; lra.
  - intros H02. subst f2.
    destruct (Py.ltb (final_score c2) (-0.3)) eqn:H1;
      [apply ltb_true in H1; lra|].
    destruct (Py.ltb (final_score c2) 0) eqn:H2;
      [apply ltb_true in H2; lra|].
    destruct (Py.ltb (final_score c2) 0.2) eqn:H3;
      [apply ltb_true in H3; lra|].
    unfold Py.min. destruct Qlt_le_dec; lra.
Qed.

(** X3, instance: the sentiments of [tests/test_correlation.py], of
    polarity -0.6 and 0.5 at confidence 0.8. *)
Lemma sentiment_score_antitone_witness :
  let negative := mkCombined None None None (-0.6) 0.8 (Some "deforestation") in
  let positive := mkCombined None None None 0.5 0.8 (Some "conservation") in
  (calculate_sentiment_score (Some positive)).1
  <= (calculate_sentiment_score (Some negative)).1
  /\ (calculate_sentiment_score (Some positive)).1 == 0.
Proof.
  cbn zeta.
  destruct (sentiment_score_antitone
              (mkCombined None None None (-0.6) 0.8 (Some "deforestation"))
              (mkCombined None None None 0.5 0.8 (Some "conservation")))
    as (_ & Hle & Hzero).
  - cbn. lra.
  - reflexivity.
  - cbn. lra.
  - split; [exact Hle|]. apply Hzero. cbn. lra.
Defined.

Lemma length_list_prod {A B : Type} (l : list A) (l' : list B) :
  length (list_prod l l') = (length l * length l')%nat.
Proof.
  induction l as [|x l IH]; cbn [list_prod length]; [reflexivity|].
  rewrite length_app, length_map, IH. reflexivity.
Qed.

Lemma filter_length_le {A : Type} (f : A -> bool) (l : list A) :
  (length (List.filter f l) <= length l)%nat.
Proof.
  induction l as [|x l IH]; cbn [List.filter length]; [lia|].
  destruct (f x); cbn [length]; lia.
Qed.

(** The result of the temporal scorer with the 14-day window, on
    timestamps that can be subtracted from each other. *)
Lemma temporal_scorer_result (fires : list FireEvent) (alerts : list Alert) :
  exists score details,
    calculate_temporal_correlation_score fires alerts TEMPORAL_WINDOW_DAYS
    = Some (score, details)
    /\ 0 <= score <= 1
    /\ (0 < score <-> details <> [])
    /\ Forall (fun c => (0 <= days_apart c <= 14)%Z
                        /\ 0 <= correlation_strength c <= 1) details
    /\ (length details <= length fires * length alerts)%nat.
Proof.
  assert (Hw : TEMPORAL_WINDOW_DAYS <> 0%Z) by (unfold TEMPORAL_WINDOW_DAYS; lia).
  assert (Hw' : (0 < TEMPORAL_WINDOW_DAYS)%Z) by (unfold TEMPORAL_WINDOW_DAYS; lia).
  do 2 eexists. split; [apply (temporal_score_unfold _ _ _ Hw)|].
  pose proof (temporal_matches_in_window TEMPORAL_WINDOW_DAYS fires alerts) as Hin.
  pose proof (temporal_score_recorded_range TEMPORAL_WINDOW_DAYS fires alerts Hw')
    as Hrange.
  split; [exact Hrange|]. split; [|split].
  - unfold temporal_score_recorded in *.
    destruct (temporal_matches TEMPORAL_WINDOW_DAYS fires alerts) as [|p ms] eqn:Hm.
    + cbn [map]. split; [lra|congruence].
    + split; [discriminate|]. intros _.
      assert (Havg := average_range
                (map (fun p => Py.round (strength_spec TEMPORAL_WINDOW_DAYS p) 2)
                   (p :: ms))
                ltac:(discriminate)
                (recorded_strengths_range TEMPORAL_WINDOW_DAYS (p :: ms) Hw' Hin)).
      assert (Hn : 1 <= inject_Z (Z.of_nat (length (p :: ms)))).
      { change 1 with (inject_Z 1). rewrite <- Zle_Qle. cbn [length]. lia. }
      set (n := inject_Z (Z.of_nat (length (p :: ms)))) in *.
      set (avg := average _) in *.
      unfold Py.min. repeat destruct Qlt_le_dec; lra.
  - apply Forall_map. eapply Forall_impl; [|exact Hin].
    intros p Hp. unfold correlation_of. cbn [days_apart correlation_strength].
    split.
    + apply (match_days_range TEMPORAL_WINDOW_DAYS p Hp).
    + destruct (strength_spec_range TEMPORAL_WINDOW_DAYS p Hw' Hp) as [Hlo Hhi].
      split; [apply (round_lower _ 0) | apply (round_upper _ 1)]; assumption.
  - rewrite length_map. unfold temporal_matches.
    rewrite <- length_list_prod. apply filter_length_le.
Qed.

(** X4.  Whenever the temporal scorer returns with the 14-day window,
    the score lies in [0, 1] and is positive exactly when there is a
    match; every detail has a day difference in [0, 14] and a strength in
    [0, 1]; and there are at most [len(fires) * len(alerts)] details. *)
Theorem temporal_details_within_window
    (fires : list FireEvent) (alerts : list Alert)
    (score : Q) (details : list Correlation) :
  calculate_temporal_correlation_score fires alerts TEMPORAL_WINDOW_DAYS
  = Some (score, details) ->
  0 <= score <= 1
  /\ (0 < score <-> details <> [])
  /\ Forall (fun c => (0 <= days_apart c <= 14)%Z
                      /\ 0 <= correlation_strength c <= 1) details
  /\ (length details <= length fires * length alerts)%nat.
Proof.
  intros Hret.
  destruct (temporal_scorer_result fires alerts) as (s & ds & Heq & Hres).
  rewrite Heq in Hret. injection Hret as <- <-. exact Hres.
Qed.

(** X4, instance: a fire five days after an alert. *)
Lemma temporal_details_within_window_witness :
  exists score details,
    calculate_temporal_correlation_score [Sample.fire_t0]
      [AGlad Sample.alert_5d_before] TEMPORAL_WINDOW_DAYS
    = Some (score, details)
    /\ 0 <= score <= 1 /\ details <> [].
Proof.
  destruct (calculate_temporal_correlation_score [Sample.fire_t0]
              [AGlad Sample.alert_5d_before] TEMPORAL_WINDOW_DAYS)
    as [[score details]|] eqn:Hret;
    [|vm_compute in Hret; discriminate Hret].
  exists score, details. split; [reflexivity|].
  destruct (temporal_details_within_window _ _ score details Hret)
    as (Hrange & Hpos & _).
  split; [exact Hrange|]. apply Hpos.
  vm_compute in Hret. injection Hret as <- _. reflexivity.
Defined.

Lemma zero_window_inner (fire : FireEvent) (alerts : list Alert)
    (st : option (list Correlation)) :
  fold_left (temporal_step 0 fire) alerts st
  = match st with
    | None => None
    | Some cs =>
        if existsb (in_window 0) (map (fun a => (fire, a)) alerts)
        then None else Some cs
    end.
Proof.
  revert st. induction alerts as [|a alerts IH]; intros st.
  - destruct st; reflexivity.
  - cbn [fold_left map existsb]. rewrite IH.
    destruct st as [cs|]; [|reflexivity].
    unfold temporal_step, in_window, days_between. cbn [fst snd].
    destruct (alert_date a) as [t|]; [|reflexivity].
    destruct (Z.abs (Py.timedelta_days (acquisition_time fire) t) <=? 0)%Z;
      reflexivity.
Qed.

Lemma zero_window_outer (fires : list FireEvent) (alerts : list Alert)
    (st : option (list Correlation)) :
  fold_left (fun st fire => fold_left (temporal_step 0 fire) alerts st) fires st
  = match st with
    | None => None
    | Some cs =>
        if existsb (in_window 0) (list_prod fires alerts) then None else Some cs
    end.
Proof.
  revert st. induction fires as [|fire fires IH]; intros st.
  - destruct st; reflexivity.
  - cbn [fold_left list_prod]. rewrite IH, zero_window_inner.
    destruct st as [cs|]; [|reflexivity].
    rewrite existsb_app.
    destruct (existsb (in_window 0) (map (fun a => (fire, a)) alerts));
      reflexivity.
Qed.

(** X5.  With a window of 0 days, a fire and a dated alert that are 0
    days apart make the temporal scorer fail on the division by the
    window instead of returning; whenever it returns, the result is
    [(0, [])] and no fire and dated alert are 0 days apart. *)
Theorem temporal_zero_window_fails_on_same_day
    (fires : list FireEvent) (alerts : list Alert) :
  ((exists fire alert t,
       In fire fires /\ In alert alerts /\ alert_date alert = Some t
       /\ days_between fire t = 0%Z) ->
   calculate_temporal_correlation_score fires alerts 0 = None)
  /\ (forall result,
         calculate_temporal_correlation_score fires alerts 0 = Some result ->
         result = (0, [])
         /\ forall fire alert t,
              In fire fires -> In alert alerts -> alert_date alert = Some t ->
              days_between fire t <> 0%Z).
Proof.
  assert (Hex : existsb (in_window 0) (list_prod fires alerts) = true
                <-> exists fire alert t,
                      In fire fires /\ In alert alerts
                      /\ alert_date alert = Some t /\ days_between fire t = 0%Z).
  { rewrite existsb_exists. split.
    - intros ([fire alert] & Hin & Hw). apply in_prod_iff in Hin as [Hf Ha].
      unfold in_window in Hw. cbn [fst snd] in Hw.
      destruct (alert_date alert) as [t|] eqn:Ht; [|discriminate].
      apply Z.leb_le in Hw. exists fire, alert, t.
      repeat split; try assumption. unfold days_between in *. lia.
    - intros (fire & alert & t & Hf & Ha & Ht & Hd).
      exists (fire, alert). split; [apply in_prod; assumption|].
      unfold in_window. cbn [fst snd]. rewrite Ht, Hd. reflexivity. }
  assert (Hcalc : calculate_temporal_correlation_score fires alerts 0
                  = if existsb (in_window 0) (list_prod fires alerts)
                    then None else Some (0, [])).
  { unfold calculate_temporal_correlation_score, temporal_loop.
    destruct fires as [|fire fires]; [reflexivity|].
    destruct alerts as [|a alerts].
    { rewrite list_prod_nil_r. reflexivity. }
    rewrite zero_window_outer.
    destruct (existsb (in_window 0) _); reflexivity. }
  rewrite Hcalc. split.
  - intros Hpair. apply Hex in Hpair. rewrite Hpair. reflexivity.
  - intros result Hret.
    destruct (existsb (in_window 0) (list_prod fires alerts)) eqn:Hany;
      [discriminate Hret|].
    injection Hret as <-. split; [reflexivity|].
    intros fire alert t Hf Ha Ht Hd.
    assert (Htrue : false = true); [|discriminate Htrue].
    apply Hex. exists fire, alert, t. repeat split; assumption.
Qed.

(** X5, instance: a fire at the very time of an alert. *)
Lemma temporal_zero_window_fails_on_same_day_witness :
  calculate_temporal_correlation_score
    [mkFireEvent 0 0 0] [AGlad (mkGLADAlert 0 0 0)] 0 = None.
Proof.
  apply (proj1 (temporal_zero_window_fails_on_same_day
                  [mkFireEvent 0 0 0] [AGlad (mkGLADAlert 0 0 0)])).
  exists (mkFireEvent 0 0 0), (AGlad (mkGLADAlert 0 0 0)), 0%Z.
  repeat split; try (left; reflexivity).
Defined.

(** X6.  The day difference is the floor of the elapsed days when the
    fire is not before the alert, and their ceiling when it is before:
    a fire less than 15 days after an alert is within the 14-day window,
    a fire more than 14 days before it is not. *)
Theorem day_difference_is_asymmetric (fire : FireEvent) (a : Alert) (t : Z) :
  alert_date a = Some t ->
  let delta := (acquisition_time fire - t)%Z in
  let day := 86400000000%Z in
  ((0 <= delta)%Z -> days_between fire t = (delta / day)%Z)
  /\ ((delta < 0)%Z -> days_between fire t = ((- delta + day - 1) / day)%Z)
  /\ ((0 <= delta < 15 * day)%Z ->
      in_window TEMPORAL_WINDOW_DAYS (fire, a) = true)
  /\ ((delta < - (14 * day))%Z ->
      in_window TEMPORAL_WINDOW_DAYS (fire, a) = false).
Proof.
  intros Ha. cbn zeta. unfold in_window, days_between, Py.timedelta_days,
    TEMPORAL_WINDOW_DAYS. cbn [fst snd]. rewrite Ha.
  set (delta := (acquisition_time fire - t)%Z).
  assert (Hdiv : (delta = 86400000000 * (delta / 86400000000)
                          + delta mod 86400000000)%Z)
    by (apply Z.div_mod; lia).
  assert (Hmod : (0 <= delta mod 86400000000 < 86400000000)%Z)
    by (apply Z.mod_pos_bound; lia).
  split; [|split; [|split]].
  - intros H0. apply Z.abs_eq. apply Z.div_pos; lia.
  - intros Hneg.
    assert (Hq : (delta / 86400000000 < 0)%Z) by (apply Z.div_lt_upper_bound; lia).
    rewrite Z.abs_neq by lia.
    apply Z.div_unique with
      (r := ((86400000000 - 1 - delta mod 86400000000))%Z); lia.
  - intros [H0 H15]. apply Z.leb_le.
    rewrite Z.abs_eq by (apply Z.div_pos; lia).
    assert ((delta / 86400000000 < 15)%Z) by (apply Z.div_lt_upper_bound; lia).
    lia.
  - intros Hneg. apply Z.leb_gt.
    assert (Hq : (delta / 86400000000 < -14)%Z)
      by (apply Z.div_lt_upper_bound; lia).
    lia.
Qed.

(** X6, instance: fourteen and a half days after, and before, the alert. *)
Lemma day_difference_is_asymmetric_witness :
  let half_day := 43200000000%Z in
  let alert := AGlad (mkGLADAlert 0 0 0) in
  in_window TEMPORAL_WINDOW_DAYS
    (mkFireEvent 0 0 (14 * Sample.day + half_day), alert) = true
  /\ in_window TEMPORAL_WINDOW_DAYS
       (mkFireEvent 0 0 (- (14 * Sample.day + half_day)), alert) = false.
Proof.
  cbn zeta. split.
  - apply (day_difference_is_asymmetric
             (mkFireEvent 0 0 (14 * Sample.day + 43200000000))
             (AGlad (mkGLADAlert 0 0 0)) 0 eq_refl).
    vm_compute. split; [discriminate|reflexivity].
  - apply (day_difference_is_asymmetric
             (mkFireEvent 0 0 (- (14 * Sample.day + 43200000000)))
             (AGlad (mkGLADAlert 0 0 0)) 0 eq_refl).
    vm_compute. reflexivity.
Defined.

Section SpatialMonotone.

Variable hav : Q -> Q -> Q -> Q -> Q.

Lemma close_pairs_filter_le (f : InfrastructureNode -> bool) (d : Q)
    (infra : list InfrastructureNode) (alerts : list Alert) :
  (close_pairs hav d (List.filter f infra) alerts
   <= close_pairs hav d infra alerts)%nat.
Proof.
  unfold close_pairs. induction infra as [|x infra IH];
    cbn [List.filter list_prod]; [lia|].
  rewrite List.filter_app, length_app.
  destruct (f x); cbn [list_prod]; [|lia].
  rewrite List.filter_app, length_app. lia.
Qed.

Lemma close_pairs_more_alerts (d : Q) (infra : list InfrastructureNode)
    (alerts more : list Alert) :
  (close_pairs hav d infra alerts
   <= close_pairs hav d infra (alerts ++ more))%nat.
Proof.
  unfold close_pairs. induction infra as [|x infra IH];
    cbn [list_prod]; [lia|].
  rewrite !List.filter_app, !length_app, map_app, List.filter_app, length_app.
  lia.
Qed.

(** The score curve never decreases with the number of close pairs. *)
Lemma spatial_curve_monotone (m n : nat) :
  (m <= n)%nat ->
  (if (m =? 0)%nat then 0
   else if (m <? 5)%nat then inject_Z (Z.of_nat m) * 0.15
   else if (m <? 10)%nat then 0.6 + (inject_Z (Z.of_nat m) - 5) * 0.05
   else Py.min 1 (0.85 + (inject_Z (Z.of_nat m) - 10) * 0.01))
  <= (if (n =? 0)%nat then 0
      else if (n <? 5)%nat then inject_Z (Z.of_nat n) * 0.15
      else if (n <? 10)%nat then 0.6 + (inject_Z (Z.of_nat n) - 5) * 0.05
      else Py.min 1 (0.85 + (inject_Z (Z.of_nat n) - 10) * 0.01)).
Proof.
  intros Hmn.
  assert (Hq : inject_Z (Z.of_nat m) <= inject_Z (Z.of_nat n))
    by (rewrite <- Zle_Qle; lia).
  assert (Hm0 : 0 <= inject_Z (Z.of_nat m))
    by (change 0 with (inject_Z 0); rewrite <- Zle_Qle; lia).
  assert (Hb : forall k p, ((Z.of_nat p <= k)%Z -> inject_Z (Z.of_nat p) <= inject_Z k)
                           /\ ((k <= Z.of_nat p)%Z -> inject_Z k <= inject_Z (Z.of_nat p))).
  { intros k p. rewrite <- !Zle_Qle. tauto. }
  destruct (Nat.eqb_spec m 0), (Nat.eqb_spec n 0);
    destruct (Nat.ltb_spec m 5), (Nat.ltb_spec n 5);
    destruct (Nat.ltb_spec m 10), (Nat.ltb_spec n 10); try lia;
    try (pose proof (proj1 (Hb 4%Z m) ltac:(lia)) as Hm4;
         change (inject_Z 4) with 4 in Hm4);
    try (pose proof (proj1 (Hb 9%Z m) ltac:(lia)) as Hm9;
         change (inject_Z 9) with 9 in Hm9);
    try (pose proof (proj2 (Hb 1%Z n) ltac:(lia)) as Hn1;
         change (inject_Z 1) with 1 in Hn1);
    try (pose proof (proj2 (Hb 5%Z n) ltac:(lia)) as Hn5;
         change (inject_Z 5) with 5 in Hn5);
    try (pose proof (proj2 (Hb 10%Z n) ltac:(lia)) as Hn10;
         change (inject_Z 10) with 10 in Hn10);
    unfold Py.min; repeat destruct Qlt_le_dec; lra.
Qed.

(** X7.  The spatial score never decreases when alerts are added and never
    increases when infrastructure nodes are removed; hence the spatial score
    attributed to a suspect never exceeds the AOI-wide spatial score. *)
Theorem spatial_score_monotone
    (infra : list InfrastructureNode) (alerts more : list Alert) (d : Q)
    (f : InfrastructureNode -> bool) (s : Company) :
  (calculate_spatial_proximity_score hav infra alerts d).1
  <= (calculate_spatial_proximity_score hav infra (alerts ++ more) d).1
  /\ (calculate_spatial_proximity_score hav (List.filter f infra) alerts d).1
     <= (calculate_spatial_proximity_score hav infra alerts d).1
  /\ (suspect_spatial_score hav infra alerts
        (calculate_spatial_proximity_score hav infra alerts
           (inject_Z MAX_PROXIMITY_DISTANCE_M)) s).1
     <= (calculate_spatial_proximity_score hav infra alerts
           (inject_Z MAX_PROXIMITY_DISTANCE_M)).1.
Proof.
  split; [|split].
  - rewrite !spatial_score_of_count. apply spatial_curve_monotone.
    apply close_pairs_more_alerts.
  - rewrite !spatial_score_of_count. apply spatial_curve_monotone.
    apply close_pairs_filter_le.
  - unfold suspect_spatial_score.
    destruct (List.filter (suspect_matches s) infra) as [|x own] eqn:Hown.
    + cbn [fst].
      pose proof (spatial_score_range hav infra alerts
                    (inject_Z MAX_PROXIMITY_DISTANCE_M)) as Hr. lra.
    + rewrite <- Hown. rewrite !spatial_score_of_count.
      apply spatial_curve_monotone. apply close_pairs_filter_le.
Qed.

End SpatialMonotone.

Lemma append_cancel (p a b : string) : p +:+ a = p +:+ b -> a = b.
Proof.
  induction p as [|c p IH]; cbn [String.append]; [auto|].
  intros [= H]. auto.
Qed.

(** X8.  The summary of a chain is the suspect's name followed by
    ": Limited evidence found for direct involvement." exactly when none
    of the spatial, temporal, NDVI and sentiment scores exceeds 0.5; the
    NBR, burn and density scores never change the summary. *)
Theorem chain_summary_limited (who : Company)
    (s1 : Q) (d1 : list ProximityDetail) (s2 : Q) (d2 : list Correlation)
    (ss : list (string * (Q * Py.fstring)))
    (s6 : Q) (e6 : Py.fstring) (s7 : Q) (e7 : Py.fstring) :
  let ndvi_score :=
    (default (0, Py.FString "" []) (dict_get ss "ndvi")).1 in
  (summary (build_evidence_chain who s1 d1 s2 d2 ss s6 e6 s7 e7)
   = company_name who +:+ ": Limited evidence found for direct involvement."
   <-> s1 <= 0.5 /\ s2 <= 0.5 /\ ndvi_score <= 0.5 /\ s7 <= 0.5)
  /\ forall s6' e6' nbr burn,
       summary (build_evidence_chain who s1 d1 s2 d2
                  [("ndvi", (ndvi_score, Py.FString "" []));
                   ("nbr", nbr); ("burn", burn)] s6' e6' s7 e7)
       = summary (build_evidence_chain who s1 d1 s2 d2 ss s6 e6 s7 e7).
Proof.
  cbn zeta. unfold build_evidence_chain.
  destruct (default _ (dict_get ss "ndvi")) as [s3 e3].
  destruct (default _ (dict_get ss "nbr")) as [s4 e4].
  destruct (default _ (dict_get ss "burn")) as [s5 e5].
  cbn [summary fst]. split.
  - rewrite <- !gtb_false.
    destruct (Py.gtb s1 0.5), (Py.gtb s2 0.5), (Py.gtb s3 0.5), (Py.gtb s7 0.5);
      cbn [app String.concat]; split;
      try (intros (? & ? & ? & ?); discriminate);
      try (intros H; apply append_cancel in H; discriminate H);
      try tauto.
  - intros s6' e6' [s4' e4'] [s5' e5']. cbn [dict_get String.eqb default
      from_option id]. cbn. reflexivity.
Qed.

(** X8, instance: a chain built from zero scores. *)
Lemma chain_summary_limited_witness :
  summary (build_evidence_chain (mkCompany "Test Factory") 0 [] 0 [] [] 0
             (Py.FString "" []) 0 (Py.FString "" []))
  = "Test Factory: Limited evidence found for direct involvement.".
Proof.
  apply (proj1 (chain_summary_limited (mkCompany "Test Factory") 0 [] 0 [] [] 0
                  (Py.FString "" []) 0 (Py.FString "" []))).
  cbn. repeat split; lra.
Defined.

Lemma NoDup_map_filter {A B : Type} (g : A -> B) (f : A -> bool) (l : list A) :
  NoDup (map g l) -> NoDup (map g (List.filter f l)).
Proof.
  induction l as [|x l IH]; cbn [map List.filter]; [auto|].
  intros Hnd. apply NoDup_cons_iff in Hnd as [Hx Hl].
  destruct (f x); [|auto]. cbn [map]. apply NoDup_cons_iff. split; [|auto].
  intros Hin. apply Hx. apply in_map_iff in Hin as (y & Hy & Hin).
  apply List.filter_In in Hin as [Hin _]. apply in_map_iff. eauto.
Qed.

(** X9.  A chain has at most seven links, at most one per evidence type,
    each of an evidence type listed in [WEIGHTS] and of positive weight;
    when no category score is positive it has no link and total weight
    0. *)
Theorem chain_links_distinct_positive (who : Company)
    (s1 : Q) (d1 : list ProximityDetail) (s2 : Q) (d2 : list Correlation)
    (ss : list (string * (Q * Py.fstring)))
    (s6 : Q) (e6 : Py.fstring) (s7 : Q) (e7 : Py.fstring) :
  let c := build_evidence_chain who s1 d1 s2 d2 ss s6 e6 s7 e7 in
  (length (links c) <= 7)%nat
  /\ NoDup (map evidence_type (links c))
  /\ Forall (fun l => is_Some (dict_get WEIGHTS (evidence_type l))
                      /\ 0 < weight l) (links c)
  /\ (Forall (fun c => c.2 <= 0) (category_scores s1 s2 ss s6 s7) ->
      links c = [] /\ total_weight c == 0).
Proof.
  cbn zeta.
  pose proof (chain_links_weights who s1 d1 s2 d2 ss s6 e6 s7 e7) as Hl.
  set (c := build_evidence_chain who s1 d1 s2 d2 ss s6 e6 s7 e7) in *.
  set (cats := category_scores s1 s2 ss s6 s7) in *.
  assert (Htypes : map evidence_type (links c)
                   = map fst (List.filter (fun c => Py.gtb c.2 0) cats)).
  { apply (f_equal (map fst)) in Hl. rewrite !map_map in Hl. exact Hl. }
  split; [|split; [|split]].
  - rewrite <- (length_map evidence_type), Htypes, length_map.
    etransitivity; [apply filter_length_le|]. reflexivity.
  - rewrite Htypes. apply NoDup_map_filter.
    unfold cats, category_scores. cbn [map fst].
    repeat (apply NoDup_cons; [cbn; intuition discriminate|]). apply NoDup_nil.
  - apply List.Forall_forall. intros l Hin.
    assert (Hp : In (evidence_type l, weight l)
                   (map (fun l => (evidence_type l, weight l)) (links c)))
      by (apply (in_map (fun l => (evidence_type l, weight l))); exact Hin).
    rewrite Hl in Hp. apply in_map_iff in Hp as (x & Hx & Hin').
    apply List.filter_In in Hin' as [Hin' Hpos]. apply gtb_true in Hpos.
    injection Hx as Ht Hw. rewrite <- Ht, <- Hw.
    assert (Hk : In x.1 (map fst WEIGHTS)).
    { unfold cats, category_scores in Hin'.
      repeat (destruct Hin' as [<- | Hin']; [cbn; tauto|]). destruct Hin'. }
    assert (HW : forall k, In k (map fst WEIGHTS) ->
                   is_Some (dict_get WEIGHTS k) /\ 0 < WEIGHTS_at k).
    { intros k Hin''. cbn in Hin''.
      repeat (destruct Hin'' as [<- | Hin'']; [split; [eexists|]; reflexivity|]).
      destruct Hin''. }
    destruct (HW _ Hk) as [Hsome Hwpos]. split; [exact Hsome|].
    set (w := WEIGHTS_at x.1) in *. nra.
  - intros Hzero.
    assert (Hnil : List.filter (fun c : string * Q => Py.gtb c.2 0) cats = []).
    { clear -Hzero. induction Hzero as [|x l Hx _ IH]; [reflexivity|].
      cbn [List.filter].
      destruct (Py.gtb x.2 0) eqn:Hg; [apply gtb_true in Hg; lra|exact IH]. }
    assert (Hlinks : links c = []).
    { rewrite Hnil in Hl. destruct (links c); [reflexivity|discriminate Hl]. }
    split; [exact Hlinks|].
    unfold c. rewrite chain_total_weight. fold c. rewrite Hlinks. reflexivity.
Qed.

(** X9, instance: zero scores give an empty chain. *)
Lemma chain_links_distinct_positive_witness :
  links (build_evidence_chain (mkCompany "Test Factory") 0 [] 0 [] [] 0
           (Py.FString "" []) 0 (Py.FString "" [])) = [].
Proof.
  apply (chain_links_distinct_positive (mkCompany "Test Factory") 0 [] 0 [] [] 0
           (Py.FString "" []) 0 (Py.FString "" [])).
  unfold category_scores. repeat (apply Forall_cons; [cbn; lra|]).
  apply Forall_nil.
Defined.

Section EngineOutput.

Variable hav : Q -> Q -> Q -> Q -> Q.
Variable cosd : Q -> Q.

(** X10.  Whenever [correlate_events] returns, it returns one chain per
    suspect, none without suspects, and the confidence it reports is the
    one it reports for any other list of suspects with the same
    evidence. *)
Theorem confidence_independent_of_suspects
    (aoi : Q * Q * Q * Q) (timeframe : Z * Z) (hansen : option HansenStats)
    (glad_alerts : list GLADAlert) (radd_alerts : list RADDAlert)
    (fires : list FireEvent) (sentinel : option SentinelEvidence)
    (infra : list InfrastructureNode) (sentiment : option CombinedSentiment)
    (suspects : list Company) (chains : list EvidenceChain) (conf : Q) :
  correlate_events hav cosd aoi timeframe hansen glad_alerts radd_alerts
    fires sentinel infra suspects sentiment = Some (chains, conf) ->
  length chains = length suspects
  /\ (suspects = [] -> chains = [])
  /\ forall suspects' chains' conf',
       correlate_events hav cosd aoi timeframe hansen glad_alerts
         radd_alerts fires sentinel infra suspects' sentiment
       = Some (chains', conf') ->
       conf' = conf.
Proof.
  intros Hret.
  destruct (correlate_events_total hav cosd aoi timeframe hansen glad_alerts
              radd_alerts fires sentinel infra suspects sentiment)
    as (b & Hb & Hc).
  rewrite Hc in Hret. injection Hret as Hchains Hconf.
  assert (Hlen : length chains = length suspects).
  { rewrite <- Hchains, <- (Permutation_length (sort_perm _)), length_map.
    reflexivity. }
  split; [exact Hlen|]. split.
  - intros ->. destruct chains; [reflexivity|discriminate Hlen].
  - intros suspects' chains' conf' Hret'.
    destruct (correlate_events_total hav cosd aoi timeframe hansen glad_alerts
                radd_alerts fires sentinel infra suspects' sentiment)
      as (b' & Hb' & Hc').
    rewrite Hb in Hb'. injection Hb' as <-.
    rewrite Hc' in Hret'. injection Hret' as _ Hconf'.
    rewrite <- Hconf', <- Hconf. reflexivity.
Qed.

(** X11.  Whatever the evidence, the output of [correlate_events] meets
    the field constraints of the response models: every link weight and
    every chain total lie in [0, 1] and the confidence lies in
    [0, 100]. *)
Theorem engine_output_within_model_bounds
    (aoi : Q * Q * Q * Q) (timeframe : Z * Z) (hansen : option HansenStats)
    (glad_alerts : list GLADAlert) (radd_alerts : list RADDAlert)
    (fires : list FireEvent) (sentinel : option SentinelEvidence)
    (infra : list InfrastructureNode) (suspects : list Company)
    (sentiment : option CombinedSentiment) :
  exists chains conf,
    correlate_events hav cosd aoi timeframe hansen glad_alerts radd_alerts
      fires sentinel infra suspects sentiment = Some (chains, conf)
    /\ Forall (fun c => 0 <= total_weight c <= 1
                        /\ Forall (fun l => 0 <= weight l <= 1) (links c))
         chains
    /\ 0 <= conf <= 100.
Proof.
  destruct (correlate_events_total hav cosd aoi timeframe hansen glad_alerts
              radd_alerts fires sentinel infra suspects sentiment)
    as (b & Hb & Hc).
  do 2 eexists. split; [exact Hc|]. split.
  - apply (Permutation_Forall (sort_perm _)). apply Forall_map.
    apply List.Forall_forall. intros s _.
    destruct (base_scores_ranges hav cosd _ _ _ _ _ _ _ b Hb)
      as (Hs & Ht & Hd & Hse & n & d & u & Hsen & Hn & Hnb & Hu).
    unfold chain_for.
    destruct (suspect_spatial_score hav infra _ (b_spatial b) s)
      as [sp dt] eqn:Hsp.
    assert (Hsp1 : sp <= 1).
    { unfold suspect_spatial_score in Hsp.
      destruct (List.filter (suspect_matches s) infra) as [|x own].
      - injection Hsp as <- _. cbn [fst]. lra.
      - pose proof (spatial_score_range hav (x :: own)
                      ((map AGlad glad_alerts ++ map ARadd radd_alerts)
                       ++ map AFire fires)
                      (inject_Z MAX_PROXIMITY_DISTANCE_M)) as Hr.
        rewrite Hsp in Hr. cbn [fst] in Hr. lra. }
    assert (Hcats : Forall (fun c : string * Q => c.2 <= 1)
                      (category_scores sp (b_temporal b).1 (b_sentinel b)
                         (b_density b).1 (b_sentiment b).1)).
    { unfold category_scores. rewrite Hsen. cbn [dict_get String.eqb].
      repeat (apply Forall_cons; [cbn; lra|]). apply Forall_nil. }
    split.
    + apply (chain_total_weight_range s sp dt _ _ _ _ _ _ _ Hcats).
    + pose proof (built_chain_valid s sp dt (b_temporal b).1 (b_temporal b).2
                    (b_sentinel b) (b_density b).1 (b_density b).2
                    (b_sentiment b).1 (b_sentiment b).2 Hcats) as Hv.
      unfold EvidenceChain_valid in Hv. apply andb_true_iff in Hv as [Hv _].
      rewrite forallb_forall in Hv. apply List.Forall_forall. intros l Hl.
      specialize (Hv l Hl). unfold EvidenceLink_valid in Hv.
      apply andb_true_iff in Hv. rewrite !leb_true in Hv. exact Hv.
  - apply (reported_confidence_range hav cosd aoi). exact Hb.
Qed.

End EngineOutput.

(** X10, instance: the full bundle with one suspect. *)
Lemma confidence_independent_of_suspects_witness :
  exists chains conf,
    correlate_events Sample.flat_distance Sample.flat_cos Sample.full_aoi
      (0, 0)%Z Sample.full_hansen Sample.full_glad [] Sample.full_fires
      Sample.full_sentinel [Sample.factory] [mkCompany "Test Factory"]
      Sample.full_sentiment = Some (chains, conf)
    /\ length chains = 1%nat.
Proof.
  destruct (correlate_events Sample.flat_distance Sample.flat_cos
              Sample.full_aoi (0, 0)%Z Sample.full_hansen Sample.full_glad []
              Sample.full_fires Sample.full_sentinel [Sample.factory]
              [mkCompany "Test Factory"] Sample.full_sentiment)
    as [[chains conf]|] eqn:Hret;
    [|vm_compute in Hret; discriminate Hret].
  exists chains, conf. split; [reflexivity|].
  exact (proj1 (confidence_independent_of_suspects Sample.flat_distance
                  Sample.flat_cos _ _ _ _ _ _ _ _ _ _ chains conf Hret)).
Defined.

(** * Further properties of the sentiment combination *)

Section ArgMax.

Variable m : string -> nat.

Lemma argmax_fold (p : list string) (b : string) :
  let r := fold_left (fun best x => if (m best <? m x)%nat then x else best) p b in
  (r = b \/ (In r p /\ (m b < m r)%nat))
  /\ (m b <= m r)%nat
  /\ forall x, In x p -> (m x <= m r)%nat.
Proof.
  revert b. induction p as [|y p IH]; intros b; cbn zeta.
  - cbn. split; [auto|]. split; [lia|]. intros x [].
  - cbn [fold_left].
    destruct (Nat.ltb_spec (m b) (m y)) as [Hlt|Hge].
    + destruct (IH y) as (Hr & Hle & Hall). cbn zeta in *.
      split; [|split].
      * right. destruct Hr as [-> | [Hin Hlt']].
        -- split; [left; reflexivity|exact Hlt].
        -- split; [right; exact Hin|lia].
      * lia.
      * intros x [<- | Hx]; [exact Hle|auto].
    + destruct (IH b) as (Hr & Hle & Hall). cbn zeta in *.
      split; [|split].
      * destruct Hr as [-> | [Hin Hlt']]; [left; reflexivity|].
        right. split; [right; exact Hin|exact Hlt'].
      * exact Hle.
      * intros x [<- | Hx]; [lia|auto].
Qed.

Lemma argmax_first (p : list string) (b : string) :
  let r := fold_left (fun best x => if (m best <? m x)%nat then x else best) p b in
  forall pre post,
    b :: p = pre ++ r :: post -> ~ In r pre ->
    forall x, In x pre -> (m x < m r)%nat.
Proof.
  revert b. induction p as [|y p IH]; intros b; cbn zeta.
  - intros pre post Heq Hnin x Hx. cbn in Heq.
    destruct pre as [|z pre]; [destruct Hx|].
    injection Heq as _ Heq. destruct pre; discriminate Heq.
  - cbn [fold_left]. intros pre post Heq Hnin x Hx.
    destruct pre as [|z pre]; [destruct Hx|].
    cbn [app] in Heq. injection Heq as <- Heq.
    destruct (Nat.ltb_spec (m b) (m y)) as [Hlt|Hge].
    + pose proof (argmax_fold p y) as (_ & Hle & _). cbn zeta in Hle.
      destruct Hx as [<- | Hx]; [lia|].
      apply (IH y pre post Heq); [|exact Hx].
      intros Hin. apply Hnin. right. exact Hin.
    + pose proof (argmax_fold p b) as (Hr & Hle & _). cbn zeta in Hr, Hle.
      destruct Hr as [Hr | [_ Hlt']].
      { exfalso. apply Hnin. left. symmetry. exact Hr. }
      destruct pre as [|z pre].
      { cbn [app] in Heq. injection Heq as Hy _. rewrite <- Hy in Hlt'. lia. }
      cbn [app] in Heq. injection Heq as <- Heq.
      assert (Hinner : forall x, In x (b :: pre) ->
                (m x < m (fold_left
                            (fun best x => if (m best <? m x)%nat then x else best)
                            p b))%nat).
      { apply (IH b (b :: pre) post).
        - cbn [app]. f_equal. exact Heq.
        - intros [Hb | Hin]; apply Hnin; [left; exact Hb|right; right; exact Hin]. }
      destruct Hx as [<- | [<- | Hx]].
      * apply Hinner. left. reflexivity.
      * lia.
      * apply Hinner. right. exact Hx.
Qed.

End ArgMax.

(** X12.  The dominant narrative is the most frequent keyword among the
    keywords of all the sources given (also of those without samples),
    the earliest one among equally frequent ones; there is none exactly
    when there is no keyword. *)
Theorem dominant_narrative_most_frequent (g d r : option SentimentScore) :
  let all_keywords :=
    from_option keywords [] g ++ from_option keywords [] d
    ++ from_option keywords [] r in
  dominant_narrative (compute_combined_sentiment g d r)
  = most_common all_keywords
  /\ (most_common all_keywords = None <-> all_keywords = [])
  /\ forall k,
       most_common all_keywords = Some k ->
       In k all_keywords
       /\ (forall x, In x all_keywords ->
              (occurrences x all_keywords <= occurrences k all_keywords)%nat)
       /\ (forall pre post,
              all_keywords = pre ++ k :: post -> ~ In k pre ->
              forall x, In x pre ->
                (occurrences x all_keywords < occurrences k all_keywords)%nat).
Proof.
  cbn zeta.
  set (l := from_option keywords [] g ++ from_option keywords [] d
            ++ from_option keywords [] r).
  split; [|split].
  - unfold compute_combined_sentiment. rewrite combine_loop.
    cbn [dominant_narrative flat_map snd]. rewrite app_nil_r. reflexivity.
  - unfold most_common. destruct l; split; intros; congruence.
  - intros k Hk. unfold most_common in Hk.
    destruct l as [|k0 rest] eqn:Hl; [discriminate|].
    injection Hk as Hk.
    pose proof (argmax_fold (fun x => occurrences x (k0 :: rest)) rest k0)
      as (Hr & Hle & Hall).
    pose proof (argmax_first (fun x => occurrences x (k0 :: rest)) rest k0)
      as Hfirst.
    cbv beta zeta in Hr, Hle, Hall, Hfirst. rewrite Hk in Hr, Hle, Hall, Hfirst.
    split; [|split].
    + destruct Hr as [-> | [Hin _]]; [left; reflexivity|right; exact Hin].
    + intros x [<- | Hx]; [exact Hle|auto].
    + intros pre post Heq Hnin x Hx. apply (Hfirst pre post Heq Hnin x Hx).
Qed.

(** X12, instance: "fire" and "illegal" both occur twice; "fire", met
    first, is the dominant narrative. *)
Lemma dominant_narrative_most_frequent_witness :
  let g := Some (mkSentimentScore 1 0 ["logging"; "fire"; "illegal"]) in
  let d := Some (mkSentimentScore 1 0 ["illegal"; "fire"]) in
  In "fire" ["logging"; "fire"; "illegal"; "illegal"; "fire"]
  /\ dominant_narrative (compute_combined_sentiment g d None) = Some "fire".
Proof.
  cbn zeta.
  destruct (dominant_narrative_most_frequent
              (Some (mkSentimentScore 1 0 ["logging"; "fire"; "illegal"]))
              (Some (mkSentimentScore 1 0 ["illegal"; "fire"])) None)
    as (Hdom & _ & Hmax).
  split; [|rewrite Hdom; reflexivity].
  apply (Hmax "fire"). reflexivity.
Defined.

Lemma present_sources_drop (g d r : option SentimentScore) :
  present_sources (if has_samples g then g else None)
    (if has_samples d then d else None) (if has_samples r then r else None)
  = present_sources g d r.
Proof.
  unfold present_sources. cbn [List.filter snd].
  destruct (has_samples g) eqn:Hg, (has_samples d) eqn:Hd,
    (has_samples r) eqn:Hr; rewrite ?Hg, ?Hd, ?Hr; reflexivity.
Qed.

(** X13.  A source whose sample count is 0 weighs like an absent source:
    the final polarity and the confidence are those of the combination
    without it.  Its keywords still count for the dominant narrative. *)
Theorem sources_without_samples_ignored (g d r : option SentimentScore) :
  let drop s := if has_samples s then s else None in
  final_score (compute_combined_sentiment g d r)
  = final_score (compute_combined_sentiment (drop g) (drop d) (drop r))
  /\ confidence (compute_combined_sentiment g d r)
     = confidence (compute_combined_sentiment (drop g) (drop d) (drop r))
  /\ (let silent := Some (mkSentimentScore 0 (-1) ["fraud"]) in
      final_score (compute_combined_sentiment silent None None) == 0
      /\ confidence (compute_combined_sentiment silent None None) == 0
      /\ dominant_narrative (compute_combined_sentiment silent None None)
         = Some "fraud").
Proof.
  cbn zeta. rewrite !combined_final_score, !combined_confidence.
  unfold polarity_spec, confidence_spec. rewrite present_sources_drop.
  split; [reflexivity|]. split; [reflexivity|].
  repeat split; reflexivity.
Qed.

(** X14.  When every source given satisfies the constraints of its model
    (count >= 0, polarity in [-1, 1]) the combined record satisfies its
    own: final polarity in [-1, 1] and confidence in [0, 1]. *)
Theorem combined_sentiment_within_model_bounds (g d r : option SentimentScore) :
  source_ok g -> source_ok d -> source_ok r ->
  let c := compute_combined_sentiment g d r in
  -1 <= final_score c <= 1 /\ 0 <= confidence c <= 1.
Proof.
  intros Hg Hd Hr. cbn zeta.
  pose proof (combined_valid g d r Hg Hd Hr) as Hv.
  unfold CombinedSentiment_valid in Hv.
  rewrite !andb_true_iff, !leb_true in Hv. tauto.
Qed.

(** X14, instance: the three sources of [tests/test_sentiment.py]. *)
Lemma combined_sentiment_within_model_bounds_witness :
  let c :=
    compute_combined_sentiment Sample.google_10 Sample.gdelt_20 Sample.reddit_5 in
  -1 <= final_score c <= 1 /\ 0 <= confidence c <= 1.
Proof.
  apply (combined_sentiment_within_model_bounds Sample.google_10 Sample.gdelt_20
           Sample.reddit_5);
    cbn; unfold SentimentScore_ok; cbn; repeat split; try lia; lra.
Defined.

(** * Further properties of the request handling *)

(** X15.  [validate_bbox] accepts a box exactly when its longitudes lie in
    [-180, 180], its latitudes in [-90, 90], neither pair is inverted and
    its area lies between 0.0001 and 1000 square degrees; it then returns
    no message, and every rejection carries one. *)
Theorem validate_bbox_accepts_iff (lon0 lat0 lon1 lat1 : Q) :
  (validate_bbox (lon0, lat0, lon1, lat1) = (true, None)
   <-> (-180 <= lon0 <= 180 /\ -180 <= lon1 <= 180
        /\ -90 <= lat0 <= 90 /\ -90 <= lat1 <= 90
        /\ lon0 <= lon1 /\ lat0 <= lat1
        /\ 0.0001 <= (lon1 - lon0) * (lat1 - lat0) <= 1000))
  /\ (validate_bbox (lon0, lat0, lon1, lat1) = (true, None)
      \/ exists message,
           validate_bbox (lon0, lat0, lon1, lat1) = (false, Some message)).
Proof.
  unfold validate_bbox.
  destruct (Py.leb (-180) lon0) eqn:H1, (Py.leb lon0 180) eqn:H2,
    (Py.leb (-180) lon1) eqn:H3, (Py.leb lon1 180) eqn:H4;
    cbn [andb orb negb];
    rewrite ?leb_true, ?leb_false in *;
    try (split; [split; [discriminate|intros; lra]|right; eauto]).
  destruct (Py.leb (-90) lat0) eqn:H5, (Py.leb lat0 90) eqn:H6,
    (Py.leb (-90) lat1) eqn:H7, (Py.leb lat1 90) eqn:H8;
    cbn [andb orb negb];
    rewrite ?leb_true, ?leb_false in *;
    try (split; [split; [discriminate|intros; lra]|right; eauto]).
  destruct (Py.gtb lon0 lon1) eqn:H9;
    rewrite ?gtb_true, ?gtb_false in *;
    [split; [split; [discriminate|intros; lra]|right; eauto]|].
  destruct (Py.gtb lat0 lat1) eqn:H10;
    rewrite ?gtb_true, ?gtb_false in *;
    [split; [split; [discriminate|intros; lra]|right; eauto]|].
  destruct (Py.gtb ((lon1 - lon0) * (lat1 - lat0)) 1000) eqn:H11;
    rewrite ?gtb_true, ?gtb_false in *;
    [split; [split; [discriminate|intros; lra]|right; eauto]|].
  destruct (Py.ltb ((lon1 - lon0) * (lat1 - lat0)) 0.0001) eqn:H12;
    rewrite ?ltb_true, ?ltb_false in *;
    [split; [split; [discriminate|intros; lra]|right; eauto]|].
  split; [|left; reflexivity]. split; [intros _; lra|reflexivity].
Qed.

(** X15, instance: the box (0, 0, 0.05, 0.05). *)
Lemma validate_bbox_accepts_iff_witness :
  validate_bbox Sample.full_aoi = (true, None).
Proof.
  apply (proj1 (validate_bbox_accepts_iff 0 0 0.05 0.05)). lra.
Defined.

(** [BBox.to_tuple] returns the tuple a box was built from. *)
Lemma bbox_tuple_round_trip_aux (t : Q * Q * Q * Q) (b : BBox) :
  BBox_from_tuple t = Some b ->
  BBox_to_tuple b = t /\ BBox_from_tuple (BBox_to_tuple b) = Some b.
Proof.
  destruct t as [[[lon0 lat0] lon1] lat1]. unfold BBox_from_tuple.
  destruct (_ && _) eqn:Hok; [|discriminate]. intros [= <-].
  unfold BBox_to_tuple. cbn [min_lon min_lat max_lon max_lat].
  split; [reflexivity|]. unfold BBox_from_tuple. rewrite Hok. reflexivity.
Qed.

(** X16.  [BBox.to_tuple] undoes [BBox.from_tuple], and rebuilding a
    box from its tuple gives the same box; a box built by [from_tuple]
    has its coordinates in range and ordered, hence a non-negative
    area. *)
Theorem bbox_tuple_round_trip (t : Q * Q * Q * Q) (b : BBox) :
  BBox_from_tuple t = Some b ->
  BBox_to_tuple b = t
  /\ BBox_from_tuple (BBox_to_tuple b) = Some b
  /\ -180 <= min_lon b <= max_lon b /\ max_lon b <= 180
  /\ -90 <= min_lat b <= max_lat b /\ max_lat b <= 90
  /\ 0 <= area_sq_degrees b.
Proof.
  destruct t as [[[lon0 lat0] lon1] lat1]. unfold BBox_from_tuple.
  destruct (_ && _) eqn:Hok; [|discriminate]. intros [= <-].
  unfold BBox_to_tuple, area_sq_degrees. cbn [min_lon min_lat max_lon max_lat].
  split; [reflexivity|]. split; [unfold BBox_from_tuple; rewrite Hok; reflexivity|].
  rewrite !andb_true_iff, !negb_true_iff, !leb_true, !ltb_false in Hok.
  repeat split; try lra. nra.
Qed.

(** X16, instance: the box of the region "riau". *)
Lemma bbox_tuple_round_trip_witness :
  exists b, BBox_from_tuple (100, -1, 104, 3) = Some b
            /\ BBox_to_tuple b = (100, -1, 104, 3).
Proof.
  eexists. split; [reflexivity|].
  apply (bbox_tuple_round_trip (100, -1, 104, 3)). reflexivity.
Defined.

Section Resolve.

Variable parse : string -> option (Q * Q * Q * Q).

(** X17.  [resolve_bbox] only ever fails with status 400.  A non-empty
    region name decides alone: the box parameter is then not read.  A
    box resolved from text satisfies [validate_bbox], and every resolved
    box is accepted by [BBox.from_tuple]. *)
Theorem resolve_bbox_behaviour (region bbox : option string) :
  (forall http, resolve_bbox parse region bbox = inl http ->
                status_code http = 400%Z)
  /\ (truthy_opt_str region = true ->
      forall bbox', resolve_bbox parse region bbox'
                    = resolve_bbox parse region bbox)
  /\ (forall aoi,
         resolve_bbox parse region bbox = inr aoi ->
         is_Some (BBox_from_tuple aoi)
         /\ (truthy_opt_str region = false ->
             parse (default "" bbox) = Some aoi
             /\ validate_bbox aoi = (true, None))).
Proof.
  split; [|split].
  - intros http. unfold resolve_bbox.
    destruct (truthy_opt_str region).
    + destruct (dict_get GLOBAL_REGIONS _); intros [= <-]. reflexivity.
    + destruct (truthy_opt_str bbox); [|intros [= <-]; reflexivity].
      destruct (parse _) as [t|]; [|intros [= <-]; reflexivity].
      destruct (validate_bbox t) as [[|] e]; intros [= <-]. reflexivity.
  - intros Hr bbox'. unfold resolve_bbox. rewrite Hr. reflexivity.
  - intros aoi Hres. split; [apply (resolve_bbox_valid parse region bbox aoi Hres)|].
    intros Hr. unfold resolve_bbox in Hres. rewrite Hr in Hres.
    destruct (truthy_opt_str bbox); [|discriminate].
    destruct (parse _) as [t|]; [|discriminate].
    destruct t as [[[lon0 lat0] lon1] lat1].
    destruct (validate_bbox_accepts_iff lon0 lat0 lon1 lat1) as [_ Hcases].
    destruct Hcases as [Hv | [msg Hv]]; rewrite Hv in Hres; cbn in Hres;
      [|discriminate].
    injection Hres as <-. split; [reflexivity|exact Hv].
Qed.

End Resolve.

(** X17, instance: the region name "SE Brazil" resolves, whatever the box
    parameter. *)
Lemma resolve_bbox_behaviour_witness :
  resolve_bbox Sample.no_parse (Some "SE Brazil") (Some "garbage")
  = inr (-53, -28, -40, -18).
Proof.
  rewrite (proj1 (proj2 (resolve_bbox_behaviour Sample.no_parse
                           (Some "SE Brazil") None)) eq_refl (Some "garbage")).
  reflexivity.
Defined.

Section DossierContents.

Variable hav : Q -> Q -> Q -> Q -> Q.
Variable cosd : Q -> Q.
Variable parse : string -> option (Q * Q * Q * Q).
Variable fromiso : string -> option Z.
Variable utcnow : Z.
Variable fuzz : string -> string -> Q.
Variable set_list : list string -> list string.

(** The fields of a returned dossier. *)
Lemma returned_dossier_shape (region bbox start_date end_date : option string)
    (env : Collaborators) (d : Dossier) :
  get_dossier hav cosd parse fromiso utcnow fuzz set_list region bbox
    start_date end_date env = inr d ->
  exists aoi,
    resolve_bbox parse region bbox = inr aoi
    /\ d_region d = region
    /\ BBox_from_tuple aoi = Some (d_bbox d)
    /\ d_hansen d = (process_result "hansen_gfc" (fetch_hansen_stats env) []).1
    /\ firms d = default [] (process_result "firms" (fetch_firms env) []).1
    /\ gfw_glad d
       = default []
           (process_alert_result "gfw_glad" (fetch_glad_alerts env) [] []).1.1
    /\ gfw_radd d
       = default []
           (process_alert_result "gfw_radd" (fetch_radd_alerts env) [] []).1.1
    /\ d_sentinel d
       = (process_result "sentinel_hub" (fetch_sentinel_evidence env) []).1
    /\ nearby_infra d
       = default []
           (process_result "overpass" (identify_nearby_infrastructure env) []).1
    /\ d_suspects d
       = (if nonempty (nearby_infra d)
          then enrich_infrastructure_companies fuzz set_list env (nearby_infra d)
          else [])
    /\ source_errors d
       = (process_result "hansen_gfc" (fetch_hansen_stats env) []).2
         ++ (process_result "firms" (fetch_firms env) []).2
         ++ (process_alert_result "gfw_glad" (fetch_glad_alerts env) [] []).1.2
         ++ (process_alert_result "gfw_radd" (fetch_radd_alerts env) [] []).1.2
         ++ (process_result "sentinel_hub" (fetch_sentinel_evidence env) []).2
         ++ (process_result "overpass" (identify_nearby_infrastructure env)
               []).2
         ++ match fetch_all_sentiment env with
            | inr (_, sentiment_errors) => sentiment_errors
            | inl e => [create_source_error "sentiment" e true]
            end
    /\ coverage_notes d
       = (process_alert_result "gfw_glad" (fetch_glad_alerts env) [] []).2
         ++ (process_alert_result "gfw_radd" (fetch_radd_alerts env) [] []).2.
Proof.
  intros Hget.
  destruct (get_dossier_returned hav cosd parse fromiso utcnow fuzz set_list
              region bbox start_date end_date env d Hget)
    as (aoi & Hres & Hdates).
  destruct (get_dossier_shape hav cosd parse fromiso utcnow fuzz set_list
              region bbox start_date end_date env aoi Hres Hdates)
    as (d' & Hget' & H).
  rewrite Hget in Hget'. injection Hget' as <-.
  exists aoi. split; [exact Hres|]. tauto.
Qed.

(** X18.  The [source_errors] list of a returned dossier is empty exactly
    when none of the six Phase-1 tasks raised or returned an error value
    and the sentiment stage returned without errors of its own; the
    company enrichment never adds an error. *)
Theorem source_errors_empty_iff_no_failure
    (region bbox start_date end_date : option string) (env : Collaborators)
    (d : Dossier) :
  get_dossier hav cosd parse fromiso utcnow fuzz set_list region bbox
    start_date end_date env = inr d ->
  (source_errors d = []
   <-> (failed (fetch_hansen_stats env) = false
        /\ failed (fetch_firms env) = false
        /\ failed_alert (fetch_glad_alerts env) = false
        /\ failed_alert (fetch_radd_alerts env) = false
        /\ failed (fetch_sentinel_evidence env) = false
        /\ failed (identify_nearby_infrastructure env) = false
        /\ exists c, fetch_all_sentiment env = inr (c, []))).
Proof.
  intros Hget.
  destruct (returned_dossier_shape region bbox start_date end_date env d Hget)
    as (aoi & _ & _ & _ & _ & _ & _ & _ & _ & _ & _ & Herr & _).
  rewrite Herr.
  rewrite <- (process_result_errors "hansen_gfc" (fetch_hansen_stats env)).
  rewrite <- (process_result_errors "firms" (fetch_firms env)).
  rewrite <- (process_alert_result_errors "gfw_glad" (fetch_glad_alerts env)).
  rewrite <- (process_alert_result_errors "gfw_radd" (fetch_radd_alerts env)).
  rewrite <- (process_result_errors "sentinel_hub"
                (fetch_sentinel_evidence env)).
  rewrite <- (process_result_errors "overpass"
                (identify_nearby_infrastructure env)).
  split.
  - intros H.
    apply app_eq_nil in H as [-> H]. apply app_eq_nil in H as [-> H].
    apply app_eq_nil in H as [-> H]. apply app_eq_nil in H as [-> H].
    apply app_eq_nil in H as [-> H]. apply app_eq_nil in H as [-> H8].
    repeat (split; [reflexivity|]).
    destruct (fetch_all_sentiment env) as [e|[c errors]]; [discriminate|].
    exists c. rewrite H8. reflexivity.
  - intros (-> & -> & -> & -> & -> & -> & c & ->). reflexivity.
Qed.

(** X19.  The [coverage_notes] of a returned dossier are exactly one note
    with status "skipped" for each of the GLAD and RADD collaborators
    that returned a skip, in that order, carrying the skip reason; no
    other collaborator ever adds a note. *)
Theorem coverage_notes_exactly_skipped_alerts
    (region bbox start_date end_date : option string) (env : Collaborators)
    (d : Dossier) :
  get_dossier hav cosd parse fromiso utcnow fuzz set_list region bbox
    start_date end_date env = inr d ->
  coverage_notes d
  = (if skipped (fetch_glad_alerts env)
     then [mkCoverageNote "gfw_glad" "skipped"
             (match fetch_glad_alerts env with
              | Ret r => r_skip_reason r
              | Exc _ => None
              end)]
     else [])
    ++ (if skipped (fetch_radd_alerts env)
        then [mkCoverageNote "gfw_radd" "skipped"
                (match fetch_radd_alerts env with
                 | Ret r => r_skip_reason r
                 | Exc _ => None
                 end)]
        else []).
Proof.
  intros Hget.
  destruct (returned_dossier_shape region bbox start_date end_date env d Hget)
    as (aoi & _ & _ & _ & _ & _ & _ & _ & _ & _ & _ & _ & Hnotes).
  rewrite Hnotes, !process_alert_result_notes. reflexivity.
Qed.

(** X20.  A returned dossier carries the request's region text unchanged
    and the box the request resolved to, and the data of every Phase-1
    collaborator that returned without an error message (and, for GLAD
    and RADD, without a skip), a missing data entry reading as the empty
    list.  The suspects are what the enrichment makes of the
    infrastructure found, at most ten companies, and none when no
    infrastructure was found. *)
Theorem dossier_carries_returned_data
    (region bbox start_date end_date : option string) (env : Collaborators)
    (d : Dossier) :
  get_dossier hav cosd parse fromiso utcnow fuzz set_list region bbox
    start_date end_date env = inr d ->
  d_region d = region
  /\ resolve_bbox parse region bbox = inr (BBox_to_tuple (d_bbox d))
  /\ (forall r, fetch_hansen_stats env = Ret r ->
                truthy_opt_str (r_error r) = false ->
                d_hansen d = r_data r)
  /\ (forall r, fetch_firms env = Ret r ->
                truthy_opt_str (r_error r) = false ->
                firms d = default [] (r_data r))
  /\ (forall r, fetch_glad_alerts env = Ret r ->
                r_skipped r = false ->
                truthy_opt_str (r_error r) = false ->
                gfw_glad d = default [] (r_data r))
  /\ (forall r, fetch_radd_alerts env = Ret r ->
                r_skipped r = false ->
                truthy_opt_str (r_error r) = false ->
                gfw_radd d = default [] (r_data r))
  /\ (forall r, fetch_sentinel_evidence env = Ret r ->
                truthy_opt_str (r_error r) = false ->
                d_sentinel d = r_data r)
  /\ (forall r, identify_nearby_infrastructure env = Ret r ->
                truthy_opt_str (r_error r) = false ->
                nearby_infra d = default [] (r_data r))
  /\ (nearby_infra d = [] -> d_suspects d = [])
  /\ (nearby_infra d <> [] ->
      d_suspects d
      = enrich_infrastructure_companies fuzz set_list env (nearby_infra d))
  /\ (length (d_suspects d) <= 10)%nat.
Proof.
  intros Hget.
  destruct (returned_dossier_shape region bbox start_date end_date env d Hget)
    as (aoi & Hres & Hreg & Hbox & Hh & Hf & Hg & Hr & Hs & Hi & Hsus & _).
  split; [exact Hreg|].
  split; [rewrite (proj1 (bbox_tuple_round_trip_aux aoi (d_bbox d) Hbox));
          exact Hres|].
  split; [intros r Hret He; rewrite Hh, Hret; unfold process_result;
          rewrite He; reflexivity|].
  split; [intros r Hret He; rewrite Hf, Hret; unfold process_result;
          rewrite He; reflexivity|].
  split; [intros r Hret Hsk He; rewrite Hg, Hret; unfold process_alert_result;
          rewrite Hsk, He; reflexivity|].
  split; [intros r Hret Hsk He; rewrite Hr, Hret; unfold process_alert_result;
          rewrite Hsk, He; reflexivity|].
  split; [intros r Hret He; rewrite Hs, Hret; unfold process_result;
          rewrite He; reflexivity|].
  split; [intros r Hret He; rewrite Hi, Hret; unfold process_result;
          rewrite He; reflexivity|].
  split; [intros Hnil; rewrite Hsus, Hnil; reflexivity|].
  split.
  - intros Hne. rewrite Hsus.
    destruct (nearby_infra d); [contradiction|reflexivity].
  - rewrite Hsus. destruct (nonempty (nearby_infra d)); cbn [length]; [|lia].
    apply enrich_at_most_ten.
Qed.

End DossierContents.

(** X18, instance: the request for "Riau" with healthy collaborators. *)
Lemma source_errors_empty_iff_no_failure_witness :
  exists d,
    get_dossier Sample.flat_distance Sample.flat_cos Sample.no_parse
      Sample.no_date Sample.now Sample.exact_ratio Sample.insertion_order
      (Some "Riau") None None None Sample.healthy = inr d
    /\ source_errors d = [].
Proof.
  destruct (get_dossier Sample.flat_distance Sample.flat_cos Sample.no_parse
              Sample.no_date Sample.now Sample.exact_ratio
              Sample.insertion_order (Some "Riau") None None None
              Sample.healthy) as [http|d] eqn:Hget;
    [vm_compute in Hget; discriminate Hget|].
  exists d. split; [reflexivity|].
  apply (proj2 (source_errors_empty_iff_no_failure _ _ _ _ _ _ _ _ _ _ _ _ d
                  Hget)).
  repeat (split; [reflexivity|]). eexists. vm_compute. reflexivity.
Defined.

(** X19, instance: the degraded request, whose GLAD collaborator skips. *)
Lemma coverage_notes_exactly_skipped_alerts_witness :
  exists d,
    get_dossier Sample.flat_distance Sample.flat_cos Sample.no_parse
      Sample.no_date Sample.now Sample.exact_ratio Sample.insertion_order
      (Some "Riau") None None None Sample.degraded = inr d
    /\ coverage_notes d
       = [mkCoverageNote "gfw_glad" "skipped" (Some "outside tropical belt")].
Proof.
  destruct (get_dossier Sample.flat_distance Sample.flat_cos Sample.no_parse
              Sample.no_date Sample.now Sample.exact_ratio
              Sample.insertion_order (Some "Riau") None None None
              Sample.degraded) as [http|d] eqn:Hget;
    [vm_compute in Hget; discriminate Hget|].
  exists d. split; [reflexivity|].
  exact (coverage_notes_exactly_skipped_alerts _ _ _ _ _ _ _ _ _ _ _ _ d Hget).
Defined.

(** X20, instance: the healthy request returns the box of "riau", the
    Hansen statistics it was given, and the factory as its one suspect. *)
Lemma dossier_carries_returned_data_witness :
  exists d,
    get_dossier Sample.flat_distance Sample.flat_cos Sample.no_parse
      Sample.no_date Sample.now Sample.exact_ratio Sample.insertion_order
      (Some "Riau") None None None Sample.healthy = inr d
    /\ BBox_to_tuple (d_bbox d) = (100, -1, 104, 3)
    /\ d_hansen d = Some (mkHansen 10)
    /\ (length (d_suspects d) <= 10)%nat.
Proof.
  destruct (get_dossier Sample.flat_distance Sample.flat_cos Sample.no_parse
              Sample.no_date Sample.now Sample.exact_ratio
              Sample.insertion_order (Some "Riau") None None None
              Sample.healthy) as [http|d] eqn:Hget;
    [vm_compute in Hget; discriminate Hget|].
  exists d. split; [reflexivity|].
  destruct (dossier_carries_returned_data _ _ _ _ _ _ _ _ _ _ _ _ d Hget)
    as (_ & Hbox & Hh & _ & _ & _ & _ & _ & _ & _ & Hten).
  split; [|split; [exact (Hh _ eq_refl eq_refl)|exact Hten]].
  assert (Hres : resolve_bbox Sample.no_parse (Some "Riau") None
                 = inr (100, -1, 104, 3)) by reflexivity.
  rewrite Hres in Hbox. congruence.
Defined.

(** * Properties of the supporting modules *)

(** X21.  [is_region_covered] never reads the longitudes.  A dataset is
    covered exactly when it is listed in the coverage table and, for the
    two tropical datasets GLAD and RADD, the latitude span of the box
    meets the belt from 30 degrees south to 30 degrees north (a box that
    only touches or partly overlaps the belt counts as covered).  Every
    refusal carries a reason, and a covered dataset other than RADD
    carries none. *)
Theorem is_region_covered_by_latitude (ds : string) (lon0 lat0 lon1 lat1 : Q) :
  let r := is_region_covered ds (lon0, lat0, lon1, lat1) in
  (r.1 = true
   <-> In ds (map fst DATASET_COVERAGE)
       /\ (ds = "gfw_glad" \/ ds = "gfw_radd" -> -30 <= lat1 /\ lat0 <= 30))
  /\ (r.1 = false -> is_Some r.2)
  /\ (r.1 = true -> ds <> "gfw_radd" -> r.2 = None)
  /\ (forall lon0' lon1',
         is_region_covered ds (lon0', lat0, lon1', lat1) = r).
Proof.
  intros r. subst r. unfold is_region_covered, DATASET_COVERAGE.
  cbn [dict_get map fst In].
  repeat match goal with
         | |- context [String.eqb ?k ds] =>
             destruct (String.eqb_spec k ds) as [<-|?]
         end;
    cbn [lat_range coverage notes String.eqb Ascii.eqb Bool.eqb from_option
         fst snd];
    change (inject_Z (-30)) with (-30); change (inject_Z 30) with 30;
    try (destruct (Py.ltb lat1 (-30)) eqn:H1, (Py.gtb lat0 30) eqn:H2;
         cbn [orb fst snd];
         rewrite ?ltb_true, ?ltb_false, ?gtb_true, ?gtb_false in * );
    (split;
     [split;
      [intros Ht; first [discriminate Ht | split; [tauto | intros _; lra]
                         | split; [tauto | intros [?|?]; discriminate]]
      |intros [Hin Hlat];
       first [reflexivity
             | specialize (Hlat (or_introl eq_refl)); lra
             | specialize (Hlat (or_intror eq_refl)); lra
             | exfalso; intuition congruence]]
     |split;
      [intros Hf; first [discriminate Hf | eexists; reflexivity]
      |split;
       [intros Ht Hne;
        first [discriminate Ht | reflexivity | exfalso; apply Hne; reflexivity]
       |reflexivity]]]).
Qed.

(** X21, instance: GLAD covers the box of "riau" and not that of
    "siberia". *)
Lemma is_region_covered_by_latitude_witness :
  (is_region_covered "gfw_glad" (100, -1, 104, 3)).1 = true
  /\ (is_region_covered "gfw_glad" (60, 50, 140, 75)).1 <> true.
Proof.
  split.
  - apply (proj1 (is_region_covered_by_latitude "gfw_glad" 100 (-1) 104 3)).
    split; [cbn; tauto|intros _; lra].
  - intros H.
    apply (proj1 (is_region_covered_by_latitude "gfw_glad" 60 50 140 75)) in H.
    destruct H as [_ H]. specialize (H (or_introl eq_refl)). lra.
Defined.

(** X22.  The centroid of a box whose corners are ordered lies inside the
    box, halfway between the corners on each axis. *)
Theorem bbox_centroid_inside (lon0 lat0 lon1 lat1 : Q) :
  lon0 <= lon1 -> lat0 <= lat1 ->
  let c := bbox_centroid (lon0, lat0, lon1, lat1) in
  lon0 <= c.1 <= lon1 /\ lat0 <= c.2 <= lat1
  /\ c.1 - lon0 == lon1 - c.1 /\ c.2 - lat0 == lat1 - c.2.
Proof.
  intros Hlon Hlat. unfold bbox_centroid. cbn [fst snd].
  assert (Hx : (lon0 + lon1) / 2 == (lon0 + lon1) * (1 # 2)) by reflexivity.
  assert (Hy : (lat0 + lat1) / 2 == (lat0 + lat1) * (1 # 2)) by reflexivity.
  set (x := (lon0 + lon1) / 2) in *. set (y := (lat0 + lat1) / 2) in *.
  repeat split; lra.
Qed.

(** X22, instance: the centroid of the box of "riau". *)
Lemma bbox_centroid_inside_witness :
  100 <= (bbox_centroid (100, -1, 104, 3)).1 <= 104.
Proof.
  apply (bbox_centroid_inside 100 (-1) 104 3); lra.
Defined.

(** One pass of [acquire] on a bucket within its bounds, read at a clock
    that has not gone back. *)
Lemma acquire_step_bounds (b : TokenBucket) (requested : Z) (now : Q) :
  (0 <= tokens_per_minute b)%Z ->
  0 <= tokens b -> tokens b <= inject_Z (bucket_size b) ->
  last_update b <= now -> (0 <= requested)%Z ->
  match acquire_step b requested now with
  | Acquired b' =>
      0 <= tokens b'
      /\ tokens b' <= inject_Z (bucket_size b) - inject_Z requested
      /\ last_update b' = now
      /\ bucket_size b' = bucket_size b
      /\ tokens_per_minute b' = tokens_per_minute b
  | Sleeps b' seconds =>
      0 <= tokens b' /\ tokens b' <= inject_Z (bucket_size b)
      /\ last_update b' = now
      /\ bucket_size b' = bucket_size b
      /\ tokens_per_minute b' = tokens_per_minute b
      /\ 0 < seconds <= 1
  | DivisionByZero _ => tokens_per_minute b = 0%Z
  end.
Proof.
  intros Hrate Hlo Hhi Hclock Hreq. unfold acquire_step.
  assert (Hr : 0 <= inject_Z (tokens_per_minute b)).
  { change 0 with (inject_Z 0). rewrite <- Zle_Qle. exact Hrate. }
  assert (Hq : 0 <= inject_Z requested).
  { change 0 with (inject_Z 0). rewrite <- Zle_Qle. exact Hreq. }
  assert (Hr60 : inject_Z (tokens_per_minute b) / 60
                 == inject_Z (tokens_per_minute b) * (1 # 60)) by reflexivity.
  set (r := inject_Z (tokens_per_minute b) / 60) in *.
  set (refilled := Py.min _ _).
  assert (Hre : 0 <= refilled /\ refilled <= inject_Z (bucket_size b)).
  { split; [|apply min_le_l]. apply min_glb; [lra|].
    assert (0 <= (now - last_update b) * r) by nra. lra. }
  cbn [tokens tokens_per_minute bucket_size last_update].
  destruct (Py.leb (inject_Z requested) refilled) eqn:Hle.
  - apply leb_true in Hle. cbn [tokens tokens_per_minute bucket_size last_update].
    repeat split; try reflexivity; lra.
  - apply leb_false in Hle.
    destruct (tokens_per_minute b =? 0)%Z eqn:Hz; [apply Z.eqb_eq, Hz|].
    apply Z.eqb_neq in Hz.
    assert (Hrpos : 0 < r).
    { assert (0 < inject_Z (tokens_per_minute b)).
      { change 0 with (inject_Z 0). rewrite <- Zlt_Qlt. lia. }
      lra. }
    assert (Hwait : 0 < (inject_Z requested - refilled) / r).
    { apply Qlt_shift_div_l; [exact Hrpos|]. lra. }
    cbn [tokens tokens_per_minute bucket_size last_update]. fold r.
    set (wait := (inject_Z requested - refilled) / r) in *.
    repeat split; try reflexivity; try lra.
    + unfold Py.min. destruct (Qlt_le_dec 1 wait); lra.
    + apply min_le_r.
Qed.

(** The bounds of the bucket a call of [acquire] returns. *)
Lemma acquire_result_bounds (clock : list Q) (b b' : TokenBucket)
    (requested : Z) :
  (0 <= tokens_per_minute b)%Z ->
  0 <= tokens b <= inject_Z (bucket_size b) ->
  (0 <= requested)%Z ->
  Sorted Qle (last_update b :: clock) ->
  acquire b requested clock = Some b' ->
  0 <= tokens b' <= inject_Z (bucket_size b) - inject_Z requested
  /\ bucket_size b' = bucket_size b
  /\ tokens_per_minute b' = tokens_per_minute b
  /\ In (last_update b') clock.
Proof.
  revert b. induction clock as [|now later IH]; intros b Hrate [Hlo Hhi] Hreq
    Hsorted; cbn [acquire]; [discriminate|].
  inversion Hsorted as [|x l Hlater Hhd]; subst.
  inversion Hhd as [|y l' Hnow]; subst.
  pose proof (acquire_step_bounds b requested now Hrate Hlo Hhi Hnow Hreq)
    as Hstep.
  destruct (acquire_step b requested now) as [b1|b1 s|b1]; [| |discriminate].
  - intros [= <-]. destruct Hstep as (H1 & H2 & H3 & H4 & H5).
    repeat split; try assumption. left. symmetry. exact H3.
  - intros Hacq. destruct Hstep as (H1 & H2 & H3 & H4 & H5 & _).
    destruct (IH b1) as (G1 & G2 & G3 & G4); try assumption.
    + rewrite H5. exact Hrate.
    + rewrite H4. split; assumption.
    + rewrite H3. exact Hlater.
    + rewrite H4 in G1. repeat split; try tauto; try congruence.
      right. exact G4.
Qed.

(** [acquire] returns by the first clock reading at which the refill since
    the call started covers the request. *)
Lemma acquire_returns (clock : list Q) (b : TokenBucket) (requested : Z) :
  (0 < tokens_per_minute b)%Z ->
  (requested <= bucket_size b)%Z ->
  Sorted Qle (last_update b :: clock) ->
  (exists now,
      In now clock
      /\ inject_Z requested
         <= tokens b
            + (now - last_update b) * (inject_Z (tokens_per_minute b) / 60)) ->
  exists b', acquire b requested clock = Some b'.
Proof.
  revert b. induction clock as [|now0 later IH];
    intros b Hrate Hfit Hsorted (now & Hin & Henough); [destruct Hin|].
  inversion Hsorted as [|x l Hlater Hhd]; subst.
  inversion Hhd as [|y l' Hnow0]; subst.
  assert (Hsz : inject_Z requested <= inject_Z (bucket_size b))
    by (rewrite <- Zle_Qle; exact Hfit).
  cbn [acquire]. unfold acquire_step.
  cbn [tokens tokens_per_minute bucket_size last_update].
  set (r := inject_Z (tokens_per_minute b) / 60) in *.
  set (filled := tokens b + (now0 - last_update b) * r) in *.
  destruct (Py.leb (inject_Z requested) (Py.min (inject_Z (bucket_size b)) filled))
    eqn:Hle; [eexists; reflexivity|].
  apply leb_false in Hle.
  assert (Hz : (tokens_per_minute b =? 0)%Z = false) by (apply Z.eqb_neq; lia).
  rewrite Hz.
  assert (Hmin : Py.min (inject_Z (bucket_size b)) filled = filled
                 /\ filled < inject_Z requested).
  { unfold Py.min in *.
    destruct (Qlt_le_dec filled (inject_Z (bucket_size b))); [|lra].
    split; [reflexivity|exact Hle]. }
  destruct Hmin as [Hmin Hshort]. rewrite Hmin.
  destruct Hin as [<-|Hin]; [unfold filled in Hshort; lra|].
  apply IH; cbn [tokens tokens_per_minute bucket_size last_update].
  - exact Hrate.
  - exact Hfit.
  - exact Hlater.
  - exists now. split; [exact Hin|]. fold r. unfold filled. lra.
Qed.

(** X23.  On a clock that never goes back, take a bucket of non-negative
    rate whose tokens lie between 0 and its size, and a non-negative
    request.  Whenever [acquire] returns, the tokens left lie between 0
    and the size less the request, the size and the rate are unchanged and
    the bucket is stamped with one of the clock readings.  And it does
    return when the rate is positive, the request fits the bucket and
    some reading lies far enough from the start for the refill to cover
    the request. *)
Theorem acquire_keeps_bucket_bounds (clock : list Q) (b : TokenBucket)
    (requested : Z) :
  (0 <= tokens_per_minute b)%Z ->
  0 <= tokens b <= inject_Z (bucket_size b) ->
  (0 <= requested)%Z ->
  Sorted Qle (last_update b :: clock) ->
  (forall b',
      acquire b requested clock = Some b' ->
      0 <= tokens b' <= inject_Z (bucket_size b) - inject_Z requested
      /\ bucket_size b' = bucket_size b
      /\ tokens_per_minute b' = tokens_per_minute b
      /\ In (last_update b') clock)
  /\ ((0 < tokens_per_minute b)%Z ->
      (requested <= bucket_size b)%Z ->
      (exists now,
          In now clock
          /\ inject_Z requested
             <= tokens b
                + (now - last_update b)
                  * (inject_Z (tokens_per_minute b) / 60)) ->
      exists b', acquire b requested clock = Some b').
Proof.
  intros Hrate Htokens Hreq Hsorted. split.
  - intros b' Hret.
    exact (acquire_result_bounds clock b b' requested Hrate Htokens Hreq
             Hsorted Hret).
  - intros Hpos Hfit Hnow.
    exact (acquire_returns clock b requested Hpos Hfit Hsorted Hnow).
Qed.

(** X23, instance: one token taken from a fresh bucket of 60. *)
Lemma acquire_keeps_bucket_bounds_witness :
  exists b',
    acquire (TokenBucket_init 60 None 0) 1 [0; 1] = Some b'
    /\ 0 <= tokens b' <= 59.
Proof.
  destruct (acquire_keeps_bucket_bounds [0; 1] (TokenBucket_init 60 None 0) 1)
    as [Hbounds Hreturns].
  - cbn. lia.
  - split; apply Qle_bool_iff; reflexivity.
  - lia.
  - repeat constructor; apply Qle_bool_iff; reflexivity.
  - destruct Hreturns as [b' Hret].
    + cbn. lia.
    + cbn. lia.
    + exists 0. split; [left; reflexivity|].
      apply Qle_bool_iff. reflexivity.
    + exists b'. split; [exact Hret|].
      exact (proj1 (Hbounds b' Hret)).
Defined.

(** X24.  A request for more tokens than the bucket holds is never
    granted: whatever the clock reads, no pass of [acquire] returns, and
    with a non-zero rate every pass ends in a sleep. *)
Theorem acquire_beyond_bucket_size_never_returns (b : TokenBucket)
    (requested : Z) :
  (bucket_size b < requested)%Z ->
  (forall clock, acquire b requested clock = None)
  /\ (tokens_per_minute b <> 0%Z ->
      forall now, exists b' seconds,
        acquire_step b requested now = Sleeps b' seconds).
Proof.
  intros Hbig.
  assert (Hstep : forall b0 now,
             bucket_size b0 = bucket_size b ->
             match acquire_step b0 requested now with
             | Acquired _ => False
             | Sleeps b' _ => bucket_size b' = bucket_size b
             | DivisionByZero _ => tokens_per_minute b0 = 0%Z
             end).
  { intros b0 now Hsize. unfold acquire_step.
    cbn [tokens tokens_per_minute bucket_size last_update].
    set (refilled := Py.min _ _).
    assert (Hre : refilled < inject_Z requested).
    { apply Qle_lt_trans with (inject_Z (bucket_size b0)); [apply min_le_l|].
      rewrite <- Zlt_Qlt. lia. }
    destruct (Py.leb (inject_Z requested) refilled) eqn:Hle.
    - apply leb_true in Hle. lra.
    - destruct (tokens_per_minute b0 =? 0)%Z eqn:Hz;
        [apply Z.eqb_eq, Hz|exact Hsize]. }
  split.
  - intros clock. assert (Hsize : bucket_size b = bucket_size b) by reflexivity.
    revert Hsize. generalize b at 1 3 as b0. 
    induction clock as [|now later IH]; intros b0 Hsize; [reflexivity|].
    cbn [acquire]. pose proof (Hstep b0 now Hsize) as H.
    destruct (acquire_step b0 requested now) as [b1|b1 s|b1];
      [contradiction| |reflexivity].
    apply IH. exact H.
  - intros Hrate now. pose proof (Hstep b now eq_refl) as H.
    destruct (acquire_step b requested now) as [b1|b1 s|b1];
      [contradiction|eauto|contradiction].
Qed.

(** X24, instance: two tokens asked of a bucket of one. *)
Lemma acquire_beyond_bucket_size_never_returns_witness :
  acquire (TokenBucket_init 1 None 0) 2 [0; 1; 2; 1000000] = None.
Proof.
  apply (proj1 (acquire_beyond_bucket_size_never_returns
                  (TokenBucket_init 1 None 0) 2 ltac:(cbn; lia))).
Defined.

(** X25.  When a pass of [acquire] sleeps for less than the one-second
    cap, the pass after a sleep of at least that long is granted, provided
    the rate is positive and the request fits the bucket. *)
Theorem acquire_granted_after_computed_wait (b b1 : TokenBucket)
    (requested : Z) (now now' seconds : Q) :
  (0 < tokens_per_minute b)%Z ->
  (requested <= bucket_size b)%Z ->
  acquire_step b requested now = Sleeps b1 seconds ->
  seconds < 1 ->
  now + seconds <= now' ->
  exists b2, acquire_step b1 requested now' = Acquired b2
             /\ last_update b2 = now'.
Proof.
  intros Hrate Hfit Hstep Hcap Hslept.
  unfold acquire_step in Hstep.
  cbn [tokens tokens_per_minute bucket_size last_update] in Hstep.
  set (refilled := Py.min _ _) in Hstep.
  destruct (Py.leb (inject_Z requested) refilled) eqn:Hle; [discriminate|].
  apply leb_false in Hle.
  destruct (tokens_per_minute b =? 0)%Z; [discriminate|].
  injection Hstep as <- <-.
  assert (Hrpos : 0 < inject_Z (tokens_per_minute b) / 60).
  { assert (0 < inject_Z (tokens_per_minute b)).
    { change 0 with (inject_Z 0). rewrite <- Zlt_Qlt. lia. }
    assert (inject_Z (tokens_per_minute b) / 60
            == inject_Z (tokens_per_minute b) * (1 # 60)) by reflexivity.
    lra. }
  set (r := inject_Z (tokens_per_minute b) / 60) in *.
  set (wait := (inject_Z requested - refilled) / r) in *.
  assert (Hwr : wait * r == inject_Z requested - refilled).
  { unfold wait. field. lra. }
  assert (Hw : Py.min wait 1 = wait).
  { unfold Py.min in *. destruct (Qlt_le_dec 1 wait); [lra|reflexivity]. }
  rewrite Hw in Hslept.
  assert (Hsz : inject_Z requested <= inject_Z (bucket_size b)).
  { rewrite <- Zle_Qle. exact Hfit. }
  unfold acquire_step.
  cbn [tokens tokens_per_minute bucket_size last_update]. fold r.
  assert (Hgrant : Py.leb (inject_Z requested)
                     (Py.min (inject_Z (bucket_size b))
                        (refilled + (now' - now) * r)) = true).
  { apply leb_true. apply min_glb; [exact Hsz|].
    assert (wait * r <= (now' - now) * r) by nra. lra. }
  rewrite Hgrant. eexists. split; reflexivity.
Qed.

(** X25, instance: an empty bucket refilled at 120 tokens per minute
    sleeps half a second for one token and is granted it afterwards. *)
Lemma acquire_granted_after_computed_wait_witness :
  exists b1 seconds b2,
    acquire_step (mkBucket 120 120 0 0) 1 0 = Sleeps b1 seconds
    /\ seconds == 1 # 2
    /\ acquire_step b1 1 (1 # 2) = Acquired b2.
Proof.
  destruct (acquire_step (mkBucket 120 120 0 0) 1 0) as [b1|b1 s|b1] eqn:Hstep;
    [vm_compute in Hstep; discriminate Hstep| |
     vm_compute in Hstep; discriminate Hstep].
  assert (Hs : s == 1 # 2).
  { vm_compute in Hstep. injection Hstep as _ <-. reflexivity. }
  destruct (acquire_granted_after_computed_wait
              (mkBucket 120 120 0 0) b1 1 0 (1 # 2) s)
    as (b2 & Hb2 & _).
  - cbn. lia.
  - cbn. lia.
  - exact Hstep.
  - rewrite Hs. reflexivity.
  - rewrite Hs. apply Qle_bool_iff. reflexivity.
  - exists b1, s, b2. split; [reflexivity|]. split; [exact Hs|exact Hb2].
Defined.

(** The delay read for a pass when the tuple of delays is not empty. *)
Lemma delay_at_nonempty (delays : list Z) (attempt : nat) :
  delays <> [] ->
  delay_at delays attempt
  = Some (nth (Nat.min attempt (length delays - 1)) delays 0%Z).
Proof.
  intros Hne. unfold delay_at. destruct delays as [|d rest]; [contradiction|].
  apply nth_error_nth'. cbn [length]. lia.
Qed.

(** A run of [j] retryable failures, none of them at the last pass, makes
    [j] calls and sleeps [j] times. *)
Lemma retry_loop_prefix {A : Type} (func : nat -> CallOutcome A)
    (e : nat -> PyException) (n : nat) (delays : list Z) :
  delays <> [] ->
  forall j remaining attempt last calls sleeps,
    (forall i, (attempt <= i < attempt + j)%nat ->
               func i = RaisesRetryable (e i)) ->
    (attempt + j < n)%nat -> (j <= remaining)%nat ->
    retry_loop func n delays remaining attempt last calls sleeps
    = retry_loop func n delays (remaining - j) (attempt + j)
        (match j with O => last | S j' => Some (e (attempt + j')%nat) end)
        (calls + j)
        (sleeps
         ++ map (fun i => nth (Nat.min i (length delays - 1)) delays 0%Z)
              (seq attempt j)).
Proof.
  intros Hne. induction j as [|j IH];
    intros remaining attempt last calls sleeps Hfail Hlt Hrem.
  - cbn [seq map]. rewrite app_nil_r, Nat.sub_0_r, !Nat.add_0_r. reflexivity.
  - destruct remaining as [|remaining]; [lia|]. cbn [retry_loop].
    rewrite (Hfail attempt) by lia.
    assert (Hnot_last : (attempt <? n - 1)%nat = true)
      by (apply Nat.ltb_lt; lia).
    rewrite Hnot_last, (delay_at_nonempty delays attempt Hne).
    rewrite (IH remaining (S attempt) (Some (e attempt)) (S calls)
               (sleeps ++ [nth (Nat.min attempt (length delays - 1)) delays 0%Z]));
      [|intros i Hi; apply Hfail; lia|lia|lia].
    cbn [seq map]. rewrite <- app_assoc. cbn [app Nat.sub].
    replace (S attempt + j)%nat with (attempt + S j)%nat by lia.
    replace (S calls + j)%nat with (calls + S j)%nat by lia.
    f_equal. destruct j as [|j']; [rewrite Nat.add_0_r; reflexivity|].
    do 2 f_equal. lia.
Qed.

(** X26.  [retry_with_backoff] stops at the first call that does not raise
    a retryable exception: after [k] retryable failures, with [k] below
    [max_retries], it has called the function [k + 1] times and slept
    [delays[min(i, len(delays) - 1)]] after failure [i], so that the last
    delay is reused once the tuple is exhausted; it returns the value of
    call [k], or lets its exception through. *)
Theorem retry_stops_at_first_final_outcome {A : Type}
    (func : nat -> CallOutcome A) (e : nat -> PyException)
    (max_retries : Z) (delays : list Z) (k : nat) :
  delays <> [] ->
  (Z.of_nat k < max_retries)%Z ->
  (forall i, (i < k)%nat -> func i = RaisesRetryable (e i)) ->
  let slept :=
    map (fun i => nth (Nat.min i (length delays - 1)) delays 0%Z) (seq 0 k) in
  (forall a, func k = Returns a ->
             retry_with_backoff func max_retries delays
             = mkRun (Returned a) (S k) slept)
  /\ (forall x, func k = RaisesOther x ->
                retry_with_backoff func max_retries delays
                = mkRun (Reraised x) (S k) slept).
Proof.
  intros Hne Hk Hfail slept. unfold retry_with_backoff.
  set (n := Z.to_nat max_retries).
  assert (Hkn : (k < n)%nat) by (subst n; lia).
  rewrite (retry_loop_prefix func e n delays Hne k n 0%nat None 0%nat []);
    [|intros i Hi; apply Hfail; lia|lia|lia].
  cbn [app Nat.add]. fold slept.
  destruct (n - k)%nat as [|remaining] eqn:Hrem; [lia|].
  cbn [retry_loop].
  split; [intros a Hret|intros x Hret]; rewrite Hret; reflexivity.
Qed.

(** X26, instance: two time-outs, then a value, with the default three
    attempts and delays (1, 2, 4). *)
Lemma retry_stops_at_first_final_outcome_witness :
  retry_with_backoff
    (fun attempt => if (attempt <? 2)%nat
                    then RaisesRetryable Sample.timeout_error
                    else Returns 7%Z)
    3 [1; 2; 4]%Z
  = mkRun (Returned 7%Z) 3 [1; 2]%Z.
Proof.
  apply (proj1 (retry_stops_at_first_final_outcome
                  (fun attempt => if (attempt <? 2)%nat
                                  then RaisesRetryable Sample.timeout_error
                                  else Returns 7%Z)
                  (fun _ => Sample.timeout_error) 3 [1; 2; 4]%Z 2
                  ltac:(discriminate) ltac:(lia)
                  ltac:(intros [|[|i]] Hi; [reflexivity|reflexivity|lia]))).
  reflexivity.
Defined.

(** X27.  When every one of the [max_retries] calls raises a retryable
    exception, [retry_with_backoff] re-raises the exception of the last
    call, having called the function [max_retries] times and slept after
    every failure but the last. *)
Theorem retry_exhausted_reraises_last {A : Type}
    (func : nat -> CallOutcome A) (e : nat -> PyException)
    (max_retries : Z) (delays : list Z) :
  delays <> [] ->
  (1 <= max_retries)%Z ->
  (forall i, (Z.of_nat i < max_retries)%Z -> func i = RaisesRetryable (e i)) ->
  retry_with_backoff func max_retries delays
  = mkRun (Reraised (e (Z.to_nat max_retries - 1)%nat))
      (Z.to_nat max_retries)
      (map (fun i => nth (Nat.min i (length delays - 1)) delays 0%Z)
         (seq 0 (Z.to_nat max_retries - 1))).
Proof.
  intros Hne Hpos Hfail. unfold retry_with_backoff.
  set (n := Z.to_nat max_retries).
  assert (Hn : (1 <= n)%nat) by (subst n; lia).
  rewrite (retry_loop_prefix func e n delays Hne (n - 1) n 0%nat None 0%nat []);
    [|intros i Hi; apply Hfail; lia|lia|lia].
  cbn [app Nat.add].
  replace (n - (n - 1))%nat with 1%nat by lia.
  cbn [retry_loop]. rewrite (Hfail (n - 1)%nat) by lia.
  rewrite Nat.ltb_irrefl. f_equal. lia.
Qed.

(** X27, instance: three time-outs with the default settings. *)
Lemma retry_exhausted_reraises_last_witness :
  retry_with_backoff (fun _ => @RaisesRetryable Z Sample.timeout_error)
    3 [1; 2; 4]%Z
  = mkRun (Reraised Sample.timeout_error) 3 [1; 2]%Z.
Proof.
  apply (retry_exhausted_reraises_last
           (fun _ => @RaisesRetryable Z Sample.timeout_error)
           (fun _ => Sample.timeout_error) 3 [1; 2; 4]%Z
           ltac:(discriminate) ltac:(lia) ltac:(reflexivity)).
Defined.

(** X28.  Edge cases of [retry_with_backoff].  With [max_retries] zero or
    negative the function is never called and the final [raise] finds no
    exception to re-raise.  With an empty tuple of delays, a retryable
    failure of the first call ends in an [IndexError] when a retry was
    due, and is re-raised after that single call when [max_retries] is 1. *)
Theorem retry_edge_cases {A : Type} (func : nat -> CallOutcome A)
    (max_retries : Z) (delays : list Z) (e : PyException) :
  ((max_retries <= 0)%Z ->
   retry_with_backoff func max_retries delays = mkRun RaisedNone 0 [])
  /\ (func 0%nat = RaisesRetryable e ->
      (2 <= max_retries)%Z ->
      retry_with_backoff func max_retries [] = mkRun DelayIndexError 1 [])
  /\ (func 0%nat = RaisesRetryable e ->
      retry_with_backoff func 1 delays = mkRun (Reraised e) 1 []).
Proof.
  unfold retry_with_backoff. cbv zeta. split; [|split].
  - intros Hle. replace (Z.to_nat max_retries) with 0%nat by lia. reflexivity.
  - intros Hfail Hge.
    destruct (Z.to_nat max_retries) as [|[|n]] eqn:Hn; [lia|lia|].
    cbn. rewrite Hfail. reflexivity.
  - intros Hfail. change (Z.to_nat 1) with 1%nat. cbn. rewrite Hfail.
    reflexivity.
Qed.

(** X28, instance: no attempt allowed. *)
Lemma retry_edge_cases_witness :
  retry_with_backoff (fun _ => Returns 7%Z) 0 [1; 2; 4]%Z
  = mkRun RaisedNone 0 [].
Proof.
  apply (proj1 (retry_edge_cases (fun _ => Returns 7%Z) 0 [1; 2; 4]%Z
                  Sample.timeout_error)).
  lia.
Defined.

(** The sign of a rounded value that is at least one unit of the last
    decimal away from zero. *)
Lemma round_positive (q : Q) (n : nat) :
  1 <= q * inject_Z (10 ^ Z.of_nat n) -> 0 < Py.round q n.
Proof.
  intros Hq. unfold Py.round.
  pose proof (scale_pos n) as Hs.
  set (s := inject_Z (10 ^ Z.of_nat n)) in *.
  apply Qlt_shift_div_l; [exact Hs|].
  assert (H1 : (1 <= Py.round_half_even (q * s))%Z)
    by (apply round_half_even_lower; exact Hq).
  rewrite Zle_Qle in H1. change (inject_Z 1) with 1 in H1. lra.
Qed.

Lemma round_negative (q : Q) (n : nat) :
  q * inject_Z (10 ^ Z.of_nat n) <= -1 -> Py.round q n < 0.
Proof.
  intros Hq. unfold Py.round.
  pose proof (scale_pos n) as Hs.
  set (s := inject_Z (10 ^ Z.of_nat n)) in *.
  apply Qlt_shift_div_r; [exact Hs|].
  assert (H1 : (Py.round_half_even (q * s) <= -1)%Z)
    by (apply round_half_even_upper; exact Hq).
  rewrite Zle_Qle in H1. change (inject_Z (-1)) with (-1) in H1. lra.
Qed.

Lemma keyword_hits_range (keywords : list string) (text_lower : string) :
  (0 <= keyword_hits keywords text_lower <= len keywords)%Z.
Proof.
  unfold keyword_hits, len.
  pose proof (filter_length_le (fun kw => contains kw text_lower) keywords).
  lia.
Qed.

(** X29.  [analyze_text_sentiment] returns a score in [-1, 1] whose sign
    tells which kind of keyword occurs more often in the lower-cased
    text: positive exactly when more positive than negative keywords
    occur, negative exactly when more negative ones do, and 0 for a
    missing or empty text. *)
Theorem analyze_text_sentiment_sign (text : option string) :
  let text_lower := str_lower (default "" text) in
  let pos_count := keyword_hits POSITIVE_KEYWORDS text_lower in
  let neg_count := keyword_hits NEGATIVE_KEYWORDS text_lower in
  -1 <= analyze_text_sentiment text <= 1
  /\ (0 < analyze_text_sentiment text <-> (neg_count < pos_count)%Z)
  /\ (analyze_text_sentiment text < 0 <-> (pos_count < neg_count)%Z)
  /\ (truthy_opt_str text = false -> analyze_text_sentiment text = 0).
Proof.
  intros text_lower pos_count neg_count. unfold analyze_text_sentiment.
  destruct (truthy_opt_str text) eqn:Htruthy; cbn [negb].
  - fold text_lower. fold pos_count. fold neg_count.
    pose proof (keyword_hits_range POSITIVE_KEYWORDS text_lower) as Hp.
    pose proof (keyword_hits_range NEGATIVE_KEYWORDS text_lower) as Hn.
    fold pos_count in Hp. fold neg_count in Hn.
    change (len POSITIVE_KEYWORDS) with 18%Z in Hp.
    change (len NEGATIVE_KEYWORDS) with 30%Z in Hn.
    destruct (neg_count + pos_count =? 0)%Z eqn:Hz.
    + apply Z.eqb_eq in Hz.
      split; [lra|]. split; [split; [lra|lia]|].
      split; [split; [lra|lia]|discriminate].
    + apply Z.eqb_neq in Hz.
      assert (HT : 1 <= inject_Z (neg_count + pos_count) <= 48).
      { change 1 with (inject_Z 1). change 48 with (inject_Z 48).
        rewrite <- !Zle_Qle. lia. }
      set (T := inject_Z (neg_count + pos_count)) in *.
      assert (HPn : inject_Z (pos_count - neg_count)
                    == inject_Z pos_count - inject_Z neg_count).
      { unfold Z.sub. rewrite inject_Z_plus, inject_Z_opp. reflexivity. }
      assert (HTn : T == inject_Z neg_count + inject_Z pos_count).
      { unfold T. rewrite inject_Z_plus. reflexivity. }
      assert (Hp0 : 0 <= inject_Z pos_count)
        by (change 0 with (inject_Z 0); rewrite <- Zle_Qle; lia).
      assert (Hn0 : 0 <= inject_Z neg_count)
        by (change 0 with (inject_Z 0); rewrite <- Zle_Qle; lia).
      set (P := inject_Z (pos_count - neg_count)) in *.
      assert (Hq : (P / T) * T == P) by (field; lra).
      assert (Hlo : -1 <= P / T)
        by (apply Qle_shift_div_l; lra).
      assert (Hhi : P / T <= 1)
        by (apply Qle_shift_div_r; lra).
      split; [split; [apply (round_lower _ (-1)); exact Hlo
                     |apply (round_upper _ 1); exact Hhi]|].
      split; [|split; [|discriminate]].
      * split.
        -- intros Hpos.
           destruct (Z_lt_le_dec neg_count pos_count) as [Hlt|Hge];
             [exact Hlt|exfalso].
           assert (P <= 0).
           { unfold P. change 0 with (inject_Z 0). rewrite <- Zle_Qle. lia. }
           assert (P / T <= 0) by (apply Qle_shift_div_r; lra).
           pose proof (round_upper (P / T) 0 3 ltac:(assumption)) as Hr.
           change (inject_Z 0) with 0 in Hr. lra.
        -- intros Hlt. apply round_positive.
           change (inject_Z (10 ^ Z.of_nat 3)) with 1000.
           assert (1 <= P).
           { unfold P. change 1 with (inject_Z 1). rewrite <- Zle_Qle. lia. }
           assert ((1 # 1000) <= P / T) by (apply Qle_shift_div_l; lra).
           lra.
      * split.
        -- intros Hneg.
           destruct (Z_lt_le_dec pos_count neg_count) as [Hlt|Hge];
             [exact Hlt|exfalso].
           assert (0 <= P).
           { unfold P. change 0 with (inject_Z 0). rewrite <- Zle_Qle. lia. }
           assert (0 <= P / T) by (apply Qle_shift_div_l; lra).
           pose proof (round_lower (P / T) 0 3 ltac:(assumption)) as Hr.
           change (inject_Z 0) with 0 in Hr. lra.
        -- intros Hlt. apply round_negative.
           change (inject_Z (10 ^ Z.of_nat 3)) with 1000.
           assert (P <= -1).
           { unfold P. change (-1) with (inject_Z (-1)). rewrite <- Zle_Qle.
             lia. }
           assert (P / T <= - (1 # 1000)) by (apply Qle_shift_div_r; lra).
           lra.
  - assert (Hempty : text_lower = EmptyString).
    { unfold text_lower. destruct text as [[|c s]|]; [reflexivity| |reflexivity].
      discriminate Htruthy. }
    assert (Hcounts : pos_count = 0%Z /\ neg_count = 0%Z).
    { unfold pos_count, neg_count. rewrite Hempty. split; reflexivity. }
    destruct Hcounts as [-> ->].
    split; [lra|]. split; [split; [lra|lia]|].
    split; [split; [lra|lia]|reflexivity].
Qed.

(** X29, instance: a missing text scores 0. *)
Lemma analyze_text_sentiment_sign_witness : analyze_text_sentiment None = 0.
Proof.
  apply (proj2 (proj2 (proj2 (analyze_text_sentiment_sign None)))).
  reflexivity.
Defined.

Lemma existsb_eqb_not_in (kw : string) (found : list string) :
  ~ In kw found -> existsb (String.eqb kw) found = false.
Proof.
  intros Hnot. destruct (existsb (String.eqb kw) found) eqn:Hex; [|reflexivity].
  apply existsb_exists in Hex as (x & Hin & Heq).
  apply String.eqb_eq in Heq. subst x. contradiction.
Qed.

Lemma NoDup_firstn_filter {A : Type} (f : A -> bool) (n : nat) (l : list A) :
  NoDup l -> NoDup (firstn n (List.filter f l)).
Proof.
  intros Hl. apply (NoDup_filter f) in Hl.
  rewrite <- (firstn_skipn n (List.filter f l)) in Hl.
  apply NoDup_app_remove_r in Hl. exact Hl.
Qed.

(** The loop of [extract_keywords] on keywords not met before: it returns
    the keywords found so far followed by the matching ones, cut at the
    limit, or at one keyword when the limit is below one. *)
Lemma extract_loop_firstn (text_lower : string) (limit : Z)
    (keywords found : list string) :
  NoDup (found ++ keywords) ->
  (len found < Z.max limit 1)%Z ->
  extract_loop keywords text_lower limit found
  = firstn (Z.to_nat (Z.max limit 1))
      (found ++ List.filter (fun kw => contains kw text_lower) keywords).
Proof.
  revert found. induction keywords as [|kw rest IH]; intros found Hnodup Hlen.
  - cbn [extract_loop List.filter]. rewrite app_nil_r.
    symmetry. apply firstn_all2. unfold len in Hlen. lia.
  - cbn [extract_loop List.filter].
    pose proof (NoDup_remove _ _ _ Hnodup) as [Hrest Hnew].
    rewrite (existsb_eqb_not_in kw found)
      by (intros Hin; apply Hnew, in_or_app; left; exact Hin).
    destruct (contains kw text_lower); cbn [andb negb].
    + assert (Hlen' : len (found ++ [kw]) = (len found + 1)%Z).
      { unfold len. rewrite length_app. cbn [length]. lia. }
      rewrite Hlen'.
      destruct (limit <=? len found + 1)%Z eqn:Hstop.
      * apply Z.leb_le in Hstop.
        assert (HL : Z.to_nat (Z.max limit 1) = length (found ++ [kw])).
        { rewrite length_app. cbn [length]. unfold len in *. lia. }
        rewrite HL.
        change (found ++ kw :: List.filter (fun kw0 => contains kw0 text_lower) rest)
          with (found ++ [kw] ++ List.filter (fun kw0 => contains kw0 text_lower) rest).
        rewrite app_assoc, firstn_app, Nat.sub_diag, firstn_O, app_nil_r.
        symmetry. apply firstn_all.
      * apply Z.leb_gt in Hstop.
        rewrite (IH (found ++ [kw])).
        -- rewrite <- app_assoc. reflexivity.
        -- rewrite <- app_assoc. exact Hnodup.
        -- rewrite Hlen'. lia.
    + apply IH; assumption.
Qed.

(** No keyword is listed twice, and none occurs in the empty text. *)
Lemma keywords_distinct : NoDup (NEGATIVE_KEYWORDS ++ POSITIVE_KEYWORDS).
Proof.
  assert (H : nodup string_dec (NEGATIVE_KEYWORDS ++ POSITIVE_KEYWORDS)
              = NEGATIVE_KEYWORDS ++ POSITIVE_KEYWORDS)
    by (vm_compute; reflexivity).
  rewrite <- H. apply NoDup_nodup.
Qed.

Lemma keywords_not_in_empty_text :
  List.filter (fun kw => contains kw EmptyString)
    (NEGATIVE_KEYWORDS ++ POSITIVE_KEYWORDS) = [].
Proof. vm_compute. reflexivity. Qed.

(** X30.  [extract_keywords] returns the keywords that occur in the
    lower-cased text, in the order of the two keyword lists (negative
    ones first), without repetition and cut after [limit] of them; a
    limit below one still yields the first keyword found, and a missing
    or empty text yields none. *)
Theorem extract_keywords_first_matches (text : option string) (limit : Z) :
  extract_keywords text limit
  = firstn (Z.to_nat (Z.max limit 1))
      (List.filter (fun kw => contains kw (str_lower (default "" text)))
         (NEGATIVE_KEYWORDS ++ POSITIVE_KEYWORDS))
  /\ NoDup (extract_keywords text limit)
  /\ (len (extract_keywords text limit) <= Z.max limit 1)%Z
  /\ (truthy_opt_str text = false -> extract_keywords text limit = []).
Proof.
  pose proof keywords_distinct as Hnodup.
  assert (Heq : extract_keywords text limit
                = firstn (Z.to_nat (Z.max limit 1))
                    (List.filter
                       (fun kw => contains kw (str_lower (default "" text)))
                       (NEGATIVE_KEYWORDS ++ POSITIVE_KEYWORDS))).
  { unfold extract_keywords.
    destruct (truthy_opt_str text) eqn:Htruthy; cbn [negb].
    - rewrite (extract_loop_firstn (str_lower (default "" text)) limit
                 (NEGATIVE_KEYWORDS ++ POSITIVE_KEYWORDS) []);
        [reflexivity|exact Hnodup|unfold len; cbn [length]; lia].
    - assert (Hempty : str_lower (default "" text) = EmptyString).
      { destruct text as [[|c s]|]; [reflexivity| |reflexivity].
        discriminate Htruthy. }
      rewrite Hempty, keywords_not_in_empty_text, firstn_nil. reflexivity. }
  split; [exact Heq|]. split; [|split].
  - rewrite Heq. apply NoDup_firstn_filter. exact Hnodup.
  - rewrite Heq. unfold len. rewrite length_firstn. lia.
  - intros Htruthy. unfold extract_keywords. rewrite Htruthy. reflexivity.
Qed.

(** X30, instance: an empty text has no keywords. *)
Lemma extract_keywords_first_matches_witness :
  extract_keywords (Some EmptyString) 10 = [].
Proof.
  apply (proj2 (proj2 (proj2 (extract_keywords_first_matches
                                (Some EmptyString) 10)))).
  reflexivity.
Defined.
